(** * Library Management System: a shallow embedding of [main.py] and [stream.py]

    The repository holds two front ends over one JSON file ([library.json]):
    a console menu ([main.py], class [Library]) and a Streamlit page
    ([stream.py]).  Both keep a dictionary [{"books": [...], "members": [...]}]
    in memory, mutate it in place and rewrite the whole file after every
    successful operation.

    The development is organised as follows.
    - [Py]       : the few Python primitives the code relies on
                   ([str.strip], [int(...)], [list.pop], [str.split(sep)[0]]).
    - data model : books, members, borrow records, the store.
    - [Ident]    : [gen_id], over an explicit source of randomness.
    - [Console]  : the methods of [Library] in [main.py].
    - [Web]      : the button handlers of [stream.py].
    - [Json]     : dynamically typed values, [load_data]/[save_data] and the
                   class-body loader of [main.py], over the [json] module
                   taken as a parameter.
    - [RefJson]  : a reader and a writer of JSON text, to run the loaders on
                   actual file contents.
    - [Example]  : the stores of the examples.
    - [WebUI]    : the dashboard, the "Borrow Book" page and the copy editor
                   of [stream.py].
    - [ConsoleUI]: the lines [list_books] prints.
    - [Raw]      : [Library.borrow] on the dictionary that [json.loads]
                   returned, with Python's checks at run time.
    - [Menu]     : [main.py] as a program: the methods with the lines they
                   read, and the menu loop.

    The theorems follow the definitions: the format of the identifiers, the
    outcomes of borrowing and returning in both front ends, the accounting
    invariant of the reachable stores, and the behaviour of the loaders;
    then further properties of the handlers, of the pages and of whole
    sessions of the console. *)

From Stdlib Require Import List String Ascii ZArith Lia Bool Arith PeanoNat.
From Stdlib Require Import DecimalString.
From Stdlib Require Import Sorting.Sorted Sorting.Permutation.
From Stdlib Require DecimalFacts DecimalPos.
Import ListNotations.

Set Warnings "-register-all".

Local Open Scope string_scope.
Local Open Scope list_scope.

(** String concatenation, kept apart from list concatenation. *)
Infix "+++" := String.append (at level 60, right associativity).

(** ** Python primitives *)

Module Py.

(** Exceptions that can escape from the modelled code. *)
Inductive exn :=
| ValueError
| IndexError
| UnboundLocalError
| StopIteration
| JSONDecodeError
| TypeError
| AttributeError
| KeyError.

(** [UnboundLocalError] is a subclass of [NameError]; nothing else here is.
    It is what Python 3.12 and later raise when a list comprehension reads a
    local variable of the enclosing function that was never assigned;
    earlier versions raise a plain [NameError] there.  The model has one
    constructor for both. *)
Definition is_NameError (x : exn) : bool :=
  match x with UnboundLocalError => true | _ => false end.

(** The result of a computation that may raise. *)
Inductive result (A : Type) :=
| Ok (a : A)
| Raise (x : exn).
Arguments Ok {A} a.
Arguments Raise {A} x.

Definition bind {A B} (r : result A) (k : A -> result B) : result B :=
  match r with
  | Ok a => k a
  | Raise x => Raise x
  end.

(** Characters removed by [str.strip()] with no argument: the ASCII
    characters for which [str.isspace] holds (tab, LF, VT, FF, CR, the four
    separators 28..31 and the space). *)
Definition isspace (c : ascii) : bool :=
  let n := nat_of_ascii c in
  (((9 <=? n) && (n <=? 13)) || ((28 <=? n) && (n <=? 32)))%nat.

Fixpoint lstrip (s : string) : string :=
  match s with
  | String c r => if isspace c then lstrip r else s
  | EmptyString => EmptyString
  end.

(** [rstrip] keeps a character when it is not a space or when something
    survives to its right. *)
Fixpoint rstrip (s : string) : string :=
  match s with
  | EmptyString => EmptyString
  | String c r =>
      match rstrip r with
      | EmptyString => if isspace c then EmptyString else String c EmptyString
      | r' => String c r'
      end
  end.

Definition strip (s : string) : string := rstrip (lstrip s).

Definition is_digit (c : ascii) : bool :=
  let n := nat_of_ascii c in ((48 <=? n) && (n <=? 57))%nat.

Definition digit_val (c : ascii) : Z := Z.of_nat (nat_of_ascii c - 48).

(** Digits of an integer literal as [int(str)] accepts them: at least one
    digit, single underscores allowed between digits only.  [prev] records
    whether the previous character was a digit. *)
Fixpoint digits (acc : Z) (prev : bool) (s : string) : option Z :=
  match s with
  | EmptyString => if prev then Some acc else None
  | String c r =>
      if is_digit c then digits (10 * acc + digit_val c) true r
      else if Ascii.eqb c "_" then (if prev then digits acc false r else None)
      else None
  end.

(** White space as [int(str)] skips it at both ends of an ASCII string:
    tab, LF, VT, FF, CR and the space.  The separators 28..31, which
    [str.strip] removes, are not among them: [int] rejects a line that
    holds one. *)
Definition is_c_space (c : ascii) : bool :=
  let n := nat_of_ascii c in
  (((9 <=? n) && (n <=? 13)) || (n =? 32))%nat.

Fixpoint int_lstrip (s : string) : string :=
  match s with
  | String c r => if is_c_space c then int_lstrip r else s
  | EmptyString => EmptyString
  end.

Fixpoint int_rstrip (s : string) : string :=
  match s with
  | EmptyString => EmptyString
  | String c r =>
      match int_rstrip r with
      | EmptyString => if is_c_space c then EmptyString else String c EmptyString
      | r' => String c r'
      end
  end.

Fixpoint count_digits (s : string) : nat :=
  match s with
  | EmptyString => O
  | String c r => ((if is_digit c then 1 else 0) + count_digits r)%nat
  end.

(** [sys.int_max_str_digits], as Python sets it when nothing else is
    configured: [int(str)] raises [ValueError] on a literal with more
    digits.  Sign and underscores do not count. *)
Definition max_str_digits : nat := 4300.

Definition literal (t : string) : option Z :=
  if (max_str_digits <? count_digits t)%nat then None else digits 0 false t.

(** [int(s)] for a string [s] of ASCII characters: white space at both
    ends is skipped, one sign is allowed; [None] stands for [ValueError]. *)
Definition int (s : string) : option Z :=
  match int_rstrip (int_lstrip s) with
  | String "-" r => option_map Z.opp (literal r)
  | String "+" r => literal r
  | t => literal t
  end.

(** [l.pop(i)]: a negative index counts from the end; [None] stands for
    [IndexError].  Returns the removed element and the remaining list. *)
Fixpoint remove_nth {A} (n : nat) (l : list A) : list A :=
  match n, l with
  | _, [] => []
  | O, _ :: r => r
  | S k, x :: r => x :: remove_nth k r
  end.

Definition pop {A} (i : Z) (l : list A) : option (A * list A) :=
  let len := Z.of_nat (List.length l) in
  let j := (if i <? 0 then i + len else i)%Z in
  if ((j <? 0) || (len <=? j))%Z then None
  else match nth_error l (Z.to_nat j) with
       | Some x => Some (x, remove_nth (Z.to_nat j) l)
       | None => None
       end.

(** [s.split(sep)[0]] for a non-empty [sep]: the part of [s] before the
    first occurrence of [sep], or all of [s] when there is none. *)
Fixpoint split_head (sep s : string) : string :=
  match s with
  | EmptyString => EmptyString
  | String c r => if String.prefix sep s then EmptyString
                  else String c (split_head sep r)
  end.

(** [str(n)] for an integer [n]: its decimal numeral. *)
Definition str (n : Z) : string := NilZero.string_of_int (Z.to_int n).

(** [next(x for x in l if p(x))]: the first element satisfying [p];
    [None] stands for [StopIteration].  The list comprehension
    [[x for x in l if p(x)]] followed by [[0]] selects the same element. *)
Definition first {A} (p : A -> bool) (l : list A) : option A := find p l.

(** In-place update of the object found by [first]: the code mutates the
    dictionary it obtained from the list, which is the very object stored in
    the list, so the first matching position changes and no other. *)
Fixpoint update_first {A} (p : A -> bool) (f : A -> A) (l : list A) : list A :=
  match l with
  | [] => []
  | x :: r => if p x then f x :: r else x :: update_first p f r
  end.

End Py.

(** ** Data model *)

(** An entry of a member's borrowed list. *)
Record BorrowRecord := mkRecord {
  book_id : string;
  title : string;
  borrow_on : string
}.

Record Book := mkBook {
  b_id : string;
  b_title : string;
  b_author : string;
  total_copies : Z;
  available_copies : Z;
  added_on : string
}.

(** The list of borrow records is stored under the key ["borowed"] by
    [main.py] and under ["borrowed"] by [stream.py]; see [Json]. *)
Record Member := mkMember {
  m_id : string;
  m_name : string;
  m_email : string;
  borrowed : list BorrowRecord
}.

(** [data = {"books": [...], "members": [...]}]. *)
Record store := mkStore {
  books : list Book;
  members : list Member
}.

Definition empty_store : store := mkStore [] [].

Definition set_available (n : Z) (b : Book) : Book :=
  mkBook (b_id b) (b_title b) (b_author b) (total_copies b) n (added_on b).

Definition set_borrowed (l : list BorrowRecord) (m : Member) : Member :=
  mkMember (m_id m) (m_name m) (m_email m) l.

Definition has_book_id (i : string) (b : Book) : bool := String.eqb (b_id b) i.
Definition has_member_id (i : string) (m : Member) : bool := String.eqb (m_id m) i.

(** What an operation did.  The store returned next to the event is the
    in-memory [data] when control leaves the operation. *)
Inductive event :=
| Saved                                  (* ran to its end and called save_data *)
| Refused (msg : string)                 (* reported [msg] and returned early *)
| Idle                                   (* nothing to do, nothing reported *)
| Uncaught (x : Py.exn).                 (* an exception left the operation *)

Definition outcome : Type := event * store.

(** The error names of the specification, for the messages of the two
    front ends. *)
Inductive error :=
| NotFoundMember
| NotFoundBook
| OutOfStock
| NothingToReturn
| InvalidSelection.

(** ** Identifier generator *)

Module Ident.

(** [string.ascii_uppercase + string.digits]. *)
Definition alphabet : string := "ABCDEFGHIJKLMNOPQRSTUVWXYZ0123456789".

(** The random generator, as the stream of numbers it will deliver. *)
Definition rng : Type := nat -> nat.

Definition advance (g : rng) : rng := fun n => g (S n).

(** [random.choice(seq)] is [seq[k]] for a random [k] below [len(seq)]. *)
Definition random_choice (seq : string) (g : rng) : ascii * rng :=
  (match String.get (g 0 mod String.length seq) seq with
   | Some c => c
   | None => "000"%char
   end, advance g).

(** [main.py]: [Library.gen_id], a loop of five concatenations. *)
Fixpoint gen_loop (n : nat) (random_id : string) (g : rng) : string * rng :=
  match n with
  | O => (random_id, g)
  | S k => let (c, g') := random_choice alphabet g in
           gen_loop k (random_id +++ String c EmptyString) g'
  end.

Definition gen_id_console (Prefix : string) (g : rng) : string * rng :=
  let (random_id, g') := gen_loop 5 EmptyString g in
  (Prefix +++ "-" +++ random_id, g').

(** [stream.py]: [gen_id], a join over a generator of five choices. *)
Fixpoint gen_chars (n : nat) (g : rng) : list ascii * rng :=
  match n with
  | O => ([], g)
  | S k => let (c, g') := random_choice alphabet g in
           let (cs, g'') := gen_chars k g' in
           (c :: cs, g'')
  end.

Definition gen_id (prefix : string) (g : rng) : string * rng :=
  let (cs, g') := gen_chars 5 g in
  (prefix +++ "-" +++ string_of_list_ascii cs, g').

End Ident.

(** ** The console front end ([main.py]) *)

Module Console.

Definition msg_no_member : string := "no such Id exist".
Definition msg_no_book : string := "soory no such id of book exist".
Definition msg_no_copies : string := "sorry no books exist".
Definition msg_nothing_borrowed : string := "no borrowed books".
Definition msg_invalid : string := "invalid value ".

(** The specification's error for each message the console prints. *)
Definition error_of (msg : string) : option error :=
  if String.eqb msg msg_no_member then Some NotFoundMember
  else if String.eqb msg msg_no_book then Some NotFoundBook
  else if String.eqb msg msg_no_copies then Some OutOfStock
  else if String.eqb msg msg_nothing_borrowed then Some NothingToReturn
  else if String.eqb msg msg_invalid then Some InvalidSelection
  else None.

(** [Library.add_book]: the three input lines, the generator state and the
    clock reading are the arguments. *)
Definition add_book (title author copies_line : string) (g : Ident.rng)
    (now : string) (st : store) : outcome :=
  match Py.int copies_line with
  | None => (Uncaught Py.ValueError, st)
  | Some copies =>
      let book := mkBook (fst (Ident.gen_id_console "B" g)) title author
                         copies copies now in
      (Saved, mkStore (books st ++ [book]) (members st))
  end.

(** [Library.add_member]. *)
Definition add_member (name email : string) (g : Ident.rng) (st : store)
    : outcome :=
  let member := mkMember (fst (Ident.gen_id_console "M" g)) name email [] in
  (Saved, mkStore (books st) (members st ++ [member])).

(** [Library.borrow]. *)
Definition borrow (member_line book_line now : string) (st : store)
    : outcome :=
  let member_id := Py.strip member_line in
  match filter (has_member_id member_id) (members st) with
  | [] => (Refused msg_no_member, st)
  | member :: _ =>
      let book_id := book_line in
      match filter (has_book_id book_id) (books st) with
      | [] => (Refused msg_no_book, st)
      | book :: _ =>
          if (available_copies book <=? 0)%Z then (Refused msg_no_copies, st)
          else
            let borrow_entry := mkRecord (b_id book) (b_title book) now in
            (Saved,
             mkStore
               (Py.update_first (has_book_id book_id)
                  (fun b => set_available (available_copies b - 1) b)
                  (books st))
               (Py.update_first (has_member_id member_id)
                  (fun m => set_borrowed (borrowed m ++ [borrow_entry]) m)
                  (members st)))
      end
  end.

(** The [try] block of [Library.return_book].  When [int] or [pop] raises,
    the handler prints [msg_invalid] and control goes on after the [try]
    with [selected] never assigned: the first component is then [None]. *)
Definition try_select (choice_line : string) (l : list BorrowRecord)
    : option (BorrowRecord * list BorrowRecord) * option string :=
  match Py.int choice_line with
  | None => (None, Some msg_invalid)
  | Some choice =>
      match Py.pop (choice - 1) l with
      | None => (None, Some msg_invalid)
      | Some sel => (Some sel, None)
      end
  end.

(** [Library.return_book].  After a failed selection the list
    comprehension over the books reads the unassigned [selected] at its
    first book; with no book at all it reads nothing, and the method goes on
    to [save_data] with the data as they were. *)
Definition return_book (member_line choice_line : string) (st : store)
    : outcome :=
  let member_id := Py.strip member_line in
  match filter (has_member_id member_id) (members st) with
  | [] => (Refused msg_no_member, st)
  | member :: _ =>
      match borrowed member with
      | [] => (Refused msg_nothing_borrowed, st)
      | _ :: _ =>
          match fst (try_select choice_line (borrowed member)) with
          | None =>
              match books st with
              | [] => (Saved, st)
              | _ :: _ => (Uncaught Py.UnboundLocalError, st)
              end
          | Some (selected, rest) =>
              (Saved,
               mkStore
                 (Py.update_first (has_book_id (book_id selected))
                    (fun bk => set_available (available_copies bk + 1) bk)
                    (books st))
                 (Py.update_first (has_member_id member_id)
                    (set_borrowed rest) (members st)))
          end
      end
  end.

(** One turn of the menu loop, for the four choices that change [data]. *)
Inductive command :=
| AddBook (title author copies_line : string) (g : Ident.rng) (now : string)
| AddMember (name email : string) (g : Ident.rng)
| Borrow (member_line book_line now : string)
| ReturnBook (member_line choice_line : string).

Definition exec (c : command) (st : store) : outcome :=
  match c with
  | AddBook t a n g now => add_book t a n g now st
  | AddMember n e g => add_member n e g st
  | Borrow m b now => borrow m b now st
  | ReturnBook m c => return_book m c st
  end.

(** The copies typed for a new book form a non-negative number. *)
Definition admissible (c : command) : Prop :=
  match c with
  | AddBook _ _ n _ _ => exists k, Py.int n = Some k /\ (0 <= k)%Z
  | _ => True
  end.

(** Stores the console can be in after starting on an empty file, when
    every command satisfies [ok]. *)
Inductive reachable_if (ok : command -> Prop) : store -> Prop :=
| reach_empty : reachable_if ok empty_store
| reach_step c st :
    reachable_if ok st -> ok c -> reachable_if ok (snd (exec c st)).

(** Any commands at all. *)
Definition reachable : store -> Prop := reachable_if (fun _ => True).

(** Commands that give new books a non-negative number of copies. *)
Definition reachable_nonneg : store -> Prop := reachable_if admissible.

End Console.

(** ** The web front end ([stream.py])

    Streamlit runs the script from the top at every interaction: the state
    is read with [load_data()] (see [Json]), the page of the chosen menu
    entry is drawn, and a pressed button runs its handler, which saves.
    The handlers are modelled on the store the run has loaded. *)

Module Web.

(** The separator of the select-box labels: a space, an em dash (three
    bytes in UTF-8) and a space. *)
Definition sep : string :=
  String " " (String "226" (String "128" (String "148" (String " " EmptyString)))).

Definition msg_nothing_borrowed : string := "This member has no borrowed books.".
Definition msg_invalid : string := "Invalid selection".

(** The specification's error for each message the page shows. *)
Definition error_of (msg : string) : option error :=
  if String.eqb msg msg_nothing_borrowed then Some NothingToReturn
  else if String.eqb msg msg_invalid then Some InvalidSelection
  else None.

(** The "Add Book" form.  [copies] is the value of a number input whose
    minimum is 1. *)
Definition add_book (title author : string) (copies : Z) (g : Ident.rng)
    (now : string) (st : store) : outcome :=
  let book := mkBook (fst (Ident.gen_id "B" g)) (Py.strip title)
                     (Py.strip author) copies copies now in
  (Saved, mkStore (books st ++ [book]) (members st)).

(** The "Add Member" form. *)
Definition add_member (name email : string) (g : Ident.rng) (st : store)
    : outcome :=
  let member := mkMember (fst (Ident.gen_id "M" g)) (Py.strip name)
                         (Py.strip email) [] in
  (Saved, mkStore (books st) (members st ++ [member])).

(** The options the "Borrow Book" page offers. *)
Definition member_label (m : Member) : string := m_id m +++ sep +++ m_name m.

Definition member_options (st : store) : list string :=
  map member_label (members st).

Definition available_books (st : store) : list Book :=
  filter (fun b => (0 <? available_copies b)%Z) (books st).

Definition book_label (b : Book) : string :=
  b_id b +++ sep +++ b_title b +++ " (" +++ Py.str (available_copies b)
        +++ " avail)".

Definition book_options (st : store) : list string :=
  map book_label (available_books st).

(** The handler of the "Borrow" button, given the two selected options. *)
Definition borrow (member_option book_option now : string) (st : store)
    : outcome :=
  let mid := Py.split_head sep member_option in
  let bid := Py.split_head sep book_option in
  match Py.first (has_member_id mid) (members st) with
  | None => (Uncaught Py.StopIteration, st)
  | Some member =>
      match Py.first (has_book_id bid) (books st) with
      | None => (Uncaught Py.StopIteration, st)
      | Some book =>
          let borrow_entry := mkRecord (b_id book) (b_title book) now in
          (Saved,
           mkStore
             (Py.update_first (has_book_id bid)
                (fun b => set_available (Z.max 0 (available_copies b - 1)) b)
                (books st))
             (Py.update_first (has_member_id mid)
                (fun m => set_borrowed (borrowed m ++ [borrow_entry]) m)
                (members st)))
      end
  end.

(** The options the "Return Book" page offers for a member. *)
Definition return_label (i : nat) (b : BorrowRecord) : string :=
  Py.str (Z.of_nat i + 1) +++ ". " +++ title b +++ " (" +++ book_id b +++ ")"
         +++ sep +++ borrow_on b.

Fixpoint enumerate_labels (i : nat) (l : list BorrowRecord) : list string :=
  match l with
  | [] => []
  | b :: r => return_label i b :: enumerate_labels (S i) r
  end.

Definition return_options (m : Member) : list string :=
  enumerate_labels 0 (borrowed m).

(** The "Return Book" page and the handler of its "Return" button, given the
    selected member option (empty for the placeholder) and the selected
    record option. *)
Definition return_book (member_option choice : string) (st : store)
    : outcome :=
  if String.eqb member_option EmptyString then (Idle, st)
  else
    let mid := Py.split_head sep member_option in
    match Py.first (has_member_id mid) (members st) with
    | None => (Uncaught Py.StopIteration, st)
    | Some member =>
        match borrowed member with
        | [] => (Refused msg_nothing_borrowed, st)
        | _ :: _ =>
            match Py.int (Py.split_head "." choice) with
            | None => (Uncaught Py.ValueError, st)
            | Some n =>
                let idx := (n - 1)%Z in
                if ((0 <=? idx) && (idx <? Z.of_nat (List.length (borrowed member))))%Z
                then
                  match Py.pop idx (borrowed member) with
                  | None => (Uncaught Py.IndexError, st)
                  | Some (selected, rest) =>
                      (Saved,
                       mkStore
                         (Py.update_first (has_book_id (book_id selected))
                            (fun bk => set_available (available_copies bk + 1) bk)
                            (books st))
                         (Py.update_first (has_member_id mid)
                            (set_borrowed rest) (members st)))
                  end
                else (Refused msg_invalid, st)
            end
        end
    end.

(** Stores the page can produce from an empty file without the copy editor
    of the "List Books" page.  The number input keeps [copies] at 1 or more;
    the book of a borrow is one of the options on offer. *)
Inductive reachable : store -> Prop :=
| reach_empty : reachable empty_store
| reach_add_book title author copies g now st :
    reachable st -> (1 <= copies)%Z ->
    reachable (snd (add_book title author copies g now st))
| reach_add_member name email g st :
    reachable st -> reachable (snd (add_member name email g st))
| reach_borrow member_option book_option now st :
    reachable st ->
    In member_option (member_options st) ->
    In book_option (book_options st) ->
    reachable (snd (borrow member_option book_option now st))
| reach_return member_option choice st :
    reachable st -> reachable (snd (return_book member_option choice st)).

End Web.

(** ** Persistence: dynamically typed values and the loaders *)

Module Json.

Import Py.

Notation "x <- e ;; k" := (bind e (fun x => k))
  (at level 61, e at next level, right associativity).

(** What [json.loads] can return.  A dictionary is the list of its items in
    insertion order. *)
Inductive value :=
| JNull
| JBool (b : bool)
| JInt (n : Z)
| JStr (s : string)
| JList (l : list value)
| JDict (d : list (string * value)).

(** [d.get(k)]. *)
Fixpoint lookup (k : string) (d : list (string * value)) : option value :=
  match d with
  | [] => None
  | (k', v) :: r => if String.eqb k' k then Some v else lookup k r
  end.

Definition has_key (k : string) (d : list (string * value)) : bool :=
  match lookup k d with Some _ => true | None => false end.

(** [del d[k]]. *)
Fixpoint remove (k : string) (d : list (string * value)) : list (string * value) :=
  match d with
  | [] => []
  | (k', v) :: r => if String.eqb k' k then remove k r else (k', v) :: remove k r
  end.

(** [d[k] = v]: a present key keeps its place, a new key goes last. *)
Fixpoint set (k : string) (v : value) (d : list (string * value))
    : list (string * value) :=
  match d with
  | [] => [(k, v)]
  | (k', v') :: r => if String.eqb k' k then (k', v) :: r else (k', v') :: set k v r
  end.

(** [k in s] for two strings: [k] occurs in [s]. *)
Fixpoint contains (k s : string) : bool :=
  String.prefix k s ||
  match s with
  | EmptyString => false
  | String _ r => contains k r
  end.

Definition is_str (k : string) (v : value) : bool :=
  match v with JStr s => String.eqb s k | _ => false end.

(** [k in m] for a string [k]: key of a dictionary, substring of a string,
    element of a list; a number, a Boolean or [None] is not a container. *)
Definition py_in (k : string) (m : value) : result bool :=
  match m with
  | JDict d => Ok (has_key k d)
  | JStr s => Ok (contains k s)
  | JList l => Ok (existsb (is_str k) l)
  | _ => Raise TypeError
  end.

(** [m.pop(k)] for a string [k]: only a dictionary has such a method; a list
    wants an integer, a string has no [pop]. *)
Definition py_pop (k : string) (m : value) : result (value * value) :=
  match m with
  | JDict d =>
      match lookup k d with
      | Some v => Ok (v, JDict (remove k d))
      | None => Raise KeyError
      end
  | JList _ => Raise TypeError
  | _ => Raise AttributeError
  end.

(** [m[k] = v] for a string [k]. *)
Definition py_setitem (k : string) (v : value) (m : value) : result value :=
  match m with
  | JDict d => Ok (JDict (set k v d))
  | _ => Raise TypeError
  end.

(** [for m in x]: the elements of a list, the keys of a dictionary, the
    characters of a string. *)
Definition py_iter (x : value) : result (list value) :=
  match x with
  | JList l => Ok l
  | JDict d => Ok (map (fun kv => JStr (fst kv)) d)
  | JStr s => Ok (map (fun c => JStr (String c EmptyString)) (list_ascii_of_string s))
  | _ => Raise TypeError
  end.

(** The body of the loop of [load_data], for one member [m]; the result is
    the member object after the body. *)
Definition normalize_member (m : value) : result value :=
  has_old <- py_in "borowed" m ;;
  rename <- (if has_old : bool
             then (has_new <- py_in "borrowed" m ;; Ok (negb has_new))
             else Ok false) ;;
  m1 <- (if rename : bool
         then (p <- py_pop "borowed" m ;; py_setitem "borrowed" (fst p) (snd p))
         else Ok m) ;;
  has_new <- py_in "borrowed" m1 ;;
  if has_new : bool then Ok m1 else py_setitem "borrowed" (JList []) m1.

Fixpoint normalize_all (ms : list value) : result (list value) :=
  match ms with
  | [] => Ok []
  | m :: r =>
      m' <- normalize_member m ;;
      r' <- normalize_all r ;;
      Ok (m' :: r')
  end.

(** The loop [for m in data.get("members", [])] of [load_data].  The member
    dictionaries are changed in place, so [data] afterwards holds the changed
    members; keys and characters cannot be changed, the loop over them either
    raises or leaves [data] as it was. *)
Definition normalize (data : value) : result value :=
  match data with
  | JDict d =>
      match lookup "members" d with
      | None => Ok data
      | Some (JList l) =>
          l' <- normalize_all l ;;
          Ok (JDict (set "members" (JList l') d))
      | Some other =>
          items <- py_iter other ;;
          _ <- normalize_all items ;;
          Ok data
      end
  | _ => Raise AttributeError
  end.

(** [{"books": [], "members": []}]. *)
Definition default : value :=
  JDict [("books", JList []); ("members", JList [])].

Definition nonempty (s : string) : bool :=
  match s with EmptyString => false | _ => true end.

Fixpoint last_char (s : string) : option ascii :=
  match s with
  | EmptyString => None
  | String c EmptyString => Some c
  | String _ r => last_char r
  end.

(** A text that starts with an opening brace and ends with a closing one,
    as the text [json.dumps] writes for a dictionary. *)
Definition braced (s : string) : bool :=
  match s, last_char s with
  | String c _, Some d => Ascii.eqb c "{" && Ascii.eqb d "}"
  | _, _ => false
  end.

(** The backing file: [None] when [library.json] does not exist. *)
Definition file : Type := option string.

Section Codec.

(** The [json] module of the Python library: [json_loads s] is [None] when
    [json.loads(s)] raises, [json_dumps v] is
    [json.dumps(v, indent=4, default=str)]. *)
Variable json_loads : string -> option value.
Variable json_dumps : value -> string.

(** [stream.py]: [save_data]; [main.py]: [Library.save_data]. *)
Definition save_data (data : value) : file := Some (json_dumps data).

(** [stream.py]: [load_data], up to the loop: the value of [data] and the
    file at that point. *)
Definition read_data (f : file) : value * file :=
  match f with
  | Some text =>
      let raw := strip text in
      (if nonempty raw
       then match json_loads raw with
            | Some v => v
            | None => default
            end
       else default, f)
  | None => (default, save_data default)
  end.

(** [stream.py]: [load_data].  Returns what the function returns (or
    raises) and the file afterwards. *)
Definition load_data (f : file) : result value * file :=
  let (data, f') := read_data f in
  (normalize data, f').

(** [main.py]: the body of class [Library] that fills [data] when the
    module is run. *)
Definition class_body_load (f : file) : result value * file :=
  match f with
  | Some text =>
      let content := strip text in
      if nonempty content
      then match json_loads content with
           | Some v => (Ok v, f)
           | None => (Raise JSONDecodeError, f)
           end
      else (Ok default, f)
  | None => (Ok default, Some (json_dumps default))
  end.

End Codec.

(** The dictionaries the two front ends build for the typed records. *)
Definition record_to_json (r : BorrowRecord) : value :=
  JDict [("book_id", JStr (book_id r)); ("title", JStr (title r));
         ("borrow_on", JStr (borrow_on r))].

Definition book_to_json (b : Book) : value :=
  JDict [("id", JStr (b_id b)); ("title", JStr (b_title b));
         ("author", JStr (b_author b)); ("total_copies", JInt (total_copies b));
         ("available_copies", JInt (available_copies b));
         ("added_on", JStr (added_on b))].

(** [key] is ["borrowed"] in [stream.py] and ["borowed"] in [main.py]. *)
Definition member_to_json (key : string) (m : Member) : value :=
  JDict [("id", JStr (m_id m)); ("name", JStr (m_name m));
         ("email", JStr (m_email m));
         (key, JList (map record_to_json (borrowed m)))].

Definition store_to_json (key : string) (st : store) : value :=
  JDict [("books", JList (map book_to_json (books st)));
         ("members", JList (map (member_to_json key) (members st)))].

Definition web_key : string := "borrowed".
Definition console_key : string := "borowed".

(** The members of a loaded state, as the loop of [load_data] sees them. *)
Definition members_of (data : value) : list value :=
  match data with
  | JDict d =>
      match lookup "members" d with
      | Some x => match py_iter x with Ok l => l | Raise _ => [] end
      | None => []
      end
  | _ => []
  end.

End Json.

(** ** A reader and a writer for the JSON texts of the examples

    [json] is a library module, so the loaders above take it as a
    parameter.  The examples below run them on actual file contents with
    this reader and writer of the fragment the store uses: [null],
    Booleans, integers, strings of one-byte characters, arrays and objects,
    written as [json.dumps(..., indent=4)] writes them. *)

Module RefJson.

Import Json.

Definition nl (lvl : nat) : string :=
  String "010" (string_of_list_ascii (repeat " "%char (4 * lvl))).

Fixpoint join (sep : string) (l : list string) : string :=
  match l with
  | [] => EmptyString
  | [x] => x
  | x :: r => x +++ sep +++ join sep r
  end.

Definition hex_digit (n : nat) : ascii :=
  match String.get n "0123456789abcdef" with Some c => c | None => "0"%char end.

Definition escape (c : ascii) : string :=
  let n := nat_of_ascii c in
  if Ascii.eqb c "034" then String "\" (String "034" EmptyString)
  else if Ascii.eqb c "\" then "\\"
  else if (n =? 10)%nat then "\n"
  else if (n =? 13)%nat then "\r"
  else if (n =? 9)%nat then "\t"
  else if (n =? 8)%nat then "\b"
  else if (n =? 12)%nat then "\f"
  else if ((n <? 32) || (126 <? n))%nat
       then "\u00" +++ String (hex_digit (n / 16)) (String (hex_digit (n mod 16)) EmptyString)
  else String c EmptyString.

Fixpoint escape_all (s : string) : string :=
  match s with
  | EmptyString => EmptyString
  | String c r => escape c +++ escape_all r
  end.

Definition quote (s : string) : string :=
  String "034" (escape_all s +++ String "034" EmptyString).

Fixpoint dumps_at (lvl : nat) (v : value) : string :=
  match v with
  | JNull => "null"
  | JBool true => "true"
  | JBool false => "false"
  | JInt n => Py.str n
  | JStr s => quote s
  | JList [] => "[]"
  | JList l =>
      "[" +++ nl (S lvl)
          +++ join ("," +++ nl (S lvl)) (map (dumps_at (S lvl)) l)
          +++ nl lvl +++ "]"
  | JDict [] => "{}"
  | JDict d =>
      "{" +++ nl (S lvl)
          +++ join ("," +++ nl (S lvl))
                (map (fun kv => match kv with
                                | (k, x) => quote k +++ ": " +++ dumps_at (S lvl) x
                                end) d)
          +++ nl lvl +++ "}"
  end.

Definition dumps (v : value) : string := dumps_at 0 v.

Definition is_ws (c : ascii) : bool :=
  let n := nat_of_ascii c in
  ((n =? 32) || (n =? 9) || (n =? 10) || (n =? 13))%nat.

Fixpoint skip_ws (s : string) : string :=
  match s with
  | String c r => if is_ws c then skip_ws r else s
  | EmptyString => EmptyString
  end.

Definition hex_val (c : ascii) : option nat :=
  let n := nat_of_ascii c in
  if ((48 <=? n) && (n <=? 57))%nat then Some (n - 48)
  else if ((97 <=? n) && (n <=? 102))%nat then Some (n - 87)
  else if ((65 <=? n) && (n <=? 70))%nat then Some (n - 55)
  else None.

Definition unescape (e : ascii) : option ascii :=
  if Ascii.eqb e "034" then Some "034"%char
  else if Ascii.eqb e "\" then Some "\"%char
  else if Ascii.eqb e "/" then Some "/"%char
  else if Ascii.eqb e "n" then Some "010"%char
  else if Ascii.eqb e "r" then Some "013"%char
  else if Ascii.eqb e "t" then Some "009"%char
  else if Ascii.eqb e "b" then Some "008"%char
  else if Ascii.eqb e "f" then Some "012"%char
  else None.

(** The characters after an opening quote, up to the closing one. *)
Fixpoint read_string (s : string) : option (string * string) :=
  match s with
  | EmptyString => None
  | String c r =>
      if Ascii.eqb c "034" then Some (EmptyString, r)
      else if Ascii.eqb c "\" then
        match r with
        | String "u" (String "0" (String "0" (String h (String l r')))) =>
            match hex_val h, hex_val l, read_string r' with
            | Some a, Some b, Some (t, rest) =>
                Some (String (ascii_of_nat (16 * a + b)) t, rest)
            | _, _, _ => None
            end
        | String e r' =>
            match unescape e, read_string r' with
            | Some ch, Some (t, rest) => Some (String ch t, rest)
            | _, _ => None
            end
        | EmptyString => None
        end
      else if (nat_of_ascii c <? 32)%nat then None
      else match read_string r with
           | Some (t, rest) => Some (String c t, rest)
           | None => None
           end
  end.

Fixpoint read_digits (acc : Z) (s : string) : Z * string :=
  match s with
  | String c r => if Py.is_digit c then read_digits (10 * acc + Py.digit_val c) r
                  else (acc, s)
  | EmptyString => (acc, s)
  end.

(** An integer: an optional minus sign, then [0] or a numeral without
    leading zero. *)
Definition read_nat (s : string) : option (Z * string) :=
  match s with
  | String "0" r => Some (0%Z, r)
  | String c r => if Py.is_digit c then Some (read_digits 0 s) else None
  | EmptyString => None
  end.

Definition read_int (s : string) : option (Z * string) :=
  match s with
  | String "-" r => option_map (fun p => (Z.opp (fst p), snd p)) (read_nat r)
  | _ => read_nat s
  end.

(** [s] without its beginning [word], when it begins so. *)
Fixpoint strip_prefix (word s : string) : option string :=
  match word with
  | EmptyString => Some s
  | String a w =>
      match s with
      | String b r => if Ascii.eqb a b then strip_prefix w r else None
      | EmptyString => None
      end
  end.

Definition expect (word : string) (s : string) (v : value)
    : option (value * string) :=
  option_map (fun r => (v, r)) (strip_prefix word s).

Fixpoint read_value (fuel : nat) (s : string) : option (value * string) :=
  match fuel with
  | O => None
  | S f =>
      match skip_ws s with
      | String "n" r => expect "ull" r JNull
      | String "t" r => expect "rue" r (JBool true)
      | String "f" r => expect "alse" r (JBool false)
      | String "034" r =>
          option_map (fun p => (JStr (fst p), snd p)) (read_string r)
      | String "[" r =>
          match skip_ws r with
          | String c r' =>
              if Ascii.eqb c "]" then Some (JList [], r')
              else option_map (fun p => (JList (fst p), snd p)) (read_elems f r)
          | EmptyString => None
          end
      | String "{" r =>
          match skip_ws r with
          | String c r' =>
              if Ascii.eqb c "}" then Some (JDict [], r')
              else option_map
                     (fun p => (JDict (fold_left (fun d kv => set (fst kv) (snd kv) d)
                                                 (fst p) []), snd p))
                     (read_items f r)
          | EmptyString => None
          end
      | t => option_map (fun p => (JInt (fst p), snd p)) (read_int t)
      end
  end
with read_elems (fuel : nat) (s : string) : option (list value * string) :=
  match fuel with
  | O => None
  | S f =>
      match read_value f s with
      | Some (v, rest) =>
          match skip_ws rest with
          | String "," r =>
              option_map (fun p => (v :: fst p, snd p)) (read_elems f r)
          | String "]" r => Some ([v], r)
          | _ => None
          end
      | None => None
      end
  end
with read_items (fuel : nat) (s : string)
    : option (list (string * value) * string) :=
  match fuel with
  | O => None
  | S f =>
      match skip_ws s with
      | String "034" r =>
          match read_string r with
          | Some (k, rest) =>
              match skip_ws rest with
              | String ":" r1 =>
                  match read_value f r1 with
                  | Some (v, rest1) =>
                      match skip_ws rest1 with
                      | String "," r2 =>
                          option_map (fun p => ((k, v) :: fst p, snd p))
                                     (read_items f r2)
                      | String "}" r2 => Some ([(k, v)], r2)
                      | _ => None
                      end
                  | None => None
                  end
              | _ => None
              end
          | None => None
          end
      | _ => None
      end
  end.

(** Values as [json.loads] builds them: no dictionary has a key twice. *)
Fixpoint wf (v : value) : Prop :=
  match v with
  | JList l =>
      (fix all (l : list value) : Prop :=
         match l with
         | [] => True
         | x :: r => wf x /\ all r
         end) l
  | JDict d =>
      NoDup (map fst d) /\
      (fix all (d : list (string * value)) : Prop :=
         match d with
         | [] => True
         | (_, x) :: r => wf x /\ all r
         end) d
  | _ => True
  end.

(** The text after a numeral does not go on with a digit. *)
Definition no_digit_ahead (s : string) : Prop :=
  match s with
  | EmptyString => True
  | String c _ => Py.is_digit c = false
  end.

(** The separator between the items of a list or dictionary at depth
    [lvl], and the text of one dictionary item. *)
Definition sep (lvl : nat) : string := "," +++ nl lvl.

Definition item (lvl : nat) (kv : string * value) : string :=
  match kv with (k, x) => quote k +++ ": " +++ dumps_at (S lvl) x end.

(** [v], written at any depth and followed by any text that does not go on
    with a digit, is read back with enough fuel. *)
Definition reads_back (v : value) : Prop :=
  forall (lvl fuel : nat) (rest : string),
    String.length (dumps_at lvl v) <= fuel ->
    no_digit_ahead rest ->
    read_value fuel (dumps_at lvl v +++ rest) = Some (v, rest).

(** The whole text must be one value, white space apart. *)
Definition loads (s : string) : option value :=
  match read_value (S (String.length s)) s with
  | Some (v, rest) =>
      match skip_ws rest with
      | EmptyString => Some v
      | _ => None
      end
  | None => None
  end.

End RefJson.

(** ** Vocabulary of the statements *)

(** [l] splits at its first element satisfying [p]. *)
Definition first_at {A} (p : A -> bool) (l pre : list A) (x : A)
    (post : list A) : Prop :=
  l = pre ++ x :: post /\ Forall (fun y => p y = false) pre /\ p x = true.

(** No element of [l] satisfies [p]. *)
Definition none_of {A} (p : A -> bool) (l : list A) : Prop :=
  Forall (fun y => p y = false) l.

(** A character of [A-Z0-9]. *)
Definition upper_or_digit (c : ascii) : bool :=
  let n := nat_of_ascii c in
  (((65 <=? n) && (n <=? 90)) || ((48 <=? n) && (n <=? 57)))%nat.

(** All borrow records of the store, member after member. *)
Definition all_records (ms : list Member) : list BorrowRecord :=
  flat_map borrowed ms.

(** Number of records in [rs] that refer to the book id [i]. *)
Definition count_id (i : string) (rs : list BorrowRecord) : Z :=
  Z.of_nat (List.length (filter (fun r => String.eqb (book_id r) i) rs)).

(** Copies out on loan according to the books: the sum of
    [total_copies - available_copies]. *)
Fixpoint deficit (bs : list Book) : Z :=
  match bs with
  | [] => 0
  | b :: r => (total_copies b - available_copies b) + deficit r
  end.

(** Borrow records held by the members. *)
Definition loans (ms : list Member) : Z :=
  Z.of_nat (List.length (all_records ms)).

Definition conserved (st : store) : Prop :=
  deficit (books st) = loans (members st).

Definition in_bounds (b : Book) : Prop :=
  (0 <= available_copies b <= total_copies b)%Z.

Definition book_ids (st : store) : list string := map b_id (books st).

(** The update of [return_book]: one more available copy, without a look
    at [total_copies]. *)
Definition give_back (bk : Book) : Book :=
  set_available (available_copies bk + 1) bk.

(** The invariant behind the bounds.  Going through the books in order with
    the ids [seen] so far: the first book of an id accounts for every record
    that refers to this id, a later book of the same id is untouched. *)
Fixpoint books_ok (cnt : string -> Z) (seen : list string) (bs : list Book)
    : Prop :=
  match bs with
  | [] => True
  | b :: r =>
      (0 <= available_copies b)%Z /\
      (if in_dec string_dec (b_id b) seen
       then available_copies b = total_copies b
       else (total_copies b - available_copies b)%Z = cnt (b_id b)) /\
      books_ok cnt (b_id b :: seen) r
  end.

(** Every record refers to a book of the store. *)
Definition refs_ok (st : store) : Prop :=
  forall r, In r (all_records (members st)) -> In (book_id r) (book_ids st).

Definition accounted (st : store) : Prop :=
  books_ok (fun i => count_id i (all_records (members st))) [] (books st)
  /\ refs_ok st.

(** The normalisation of one member dictionary in the words of the
    specification: a member with ["borrowed"] is kept; otherwise the legacy
    field ["borowed"] is renamed; a member with neither field gets an empty
    list. *)
Definition spec_normalize_dict (d : list (string * Json.value))
    : list (string * Json.value) :=
  if Json.has_key "borrowed" d then d
  else match Json.lookup "borowed" d with
       | Some v => Json.set "borrowed" v (Json.remove "borowed" d)
       | None => Json.set "borrowed" (Json.JList []) d
       end.

(** An id without a space, as [gen_id] makes them. *)
Fixpoint no_space (s : string) : bool :=
  match s with
  | EmptyString => true
  | String c r => negb (Ascii.eqb c " ") && no_space r
  end.

Definition clean_ids (st : store) : Prop :=
  Forall (fun i => no_space i = true) (book_ids st).

(** The four ways in which the operations change the store: a new book with
    all its copies available, a new member without records, a borrow from
    the first book of an id that has a copy left, the return of one record
    of a member. *)
Inductive step (st : store) : store -> Prop :=
| step_add_book b :
    (0 <= total_copies b)%Z -> available_copies b = total_copies b ->
    step st (mkStore (books st ++ [b]) (members st))
| step_add_member m :
    borrowed m = [] ->
    step st (mkStore (books st) (members st ++ [m]))
| step_borrow pre_b book post_b pre_m member post_m t now :
    first_at (has_book_id (b_id book)) (books st) pre_b book post_b ->
    members st = pre_m ++ member :: post_m ->
    (0 < available_copies book)%Z ->
    step st (mkStore
               (pre_b ++ set_available (available_copies book - 1) book :: post_b)
               (pre_m ++ set_borrowed
                           (borrowed member ++ [mkRecord (b_id book) t now])
                           member :: post_m))
| step_return pre_m member post_m l1 selected l2 :
    members st = pre_m ++ member :: post_m ->
    borrowed member = l1 ++ selected :: l2 ->
    step st (mkStore
               (Py.update_first (has_book_id (book_id selected)) give_back
                                (books st))
               (pre_m ++ set_borrowed (l1 ++ l2) member :: post_m)).

(** ** Concrete stores used in the examples *)

Module Example.

(** A generator that keeps delivering 0: every id it yields ends in
    [AAAAA]. *)
Definition g0 : Ident.rng := fun _ => 0.

(** Two books receive the same id, a member borrows the first one. *)
Definition s1 : store :=
  snd (Web.add_book "Dune" "Herbert" 1 g0 "2024-01-01 10:00:00" empty_store).
Definition s2 : store :=
  snd (Web.add_book "Emma" "Austen" 1 g0 "2024-01-01 10:05:00" s1).
Definition s3 : store :=
  snd (Web.add_member "Ann" "ann@example.org" g0 s2).

Definition dune : Book :=
  mkBook "B-AAAAA" "Dune" "Herbert" 1 1 "2024-01-01 10:00:00".
Definition emma : Book :=
  mkBook "B-AAAAA" "Emma" "Austen" 1 1 "2024-01-01 10:05:00".
Definition ann : Member := mkMember "M-AAAAA" "Ann" "ann@example.org" [].

Definition s4 : store :=
  snd (Web.borrow (Web.member_label ann) (Web.book_label dune)
                  "2024-01-02 09:00:00" s3).

(** The same member then picks the second book, the only one on offer. *)
Definition s5 : store :=
  snd (Web.borrow (Web.member_label ann) (Web.book_label emma)
                  "2024-01-02 09:30:00" s4).

(** She then gives both books back: each record names the shared id, so
    both copies go to the first book. *)
Definition s6 : store :=
  snd (Web.return_book (Web.member_label ann)
         (Web.return_label 0 (mkRecord "B-AAAAA" "Dune" "2024-01-02 09:00:00"))
         s5).
Definition s7 : store :=
  snd (Web.return_book (Web.member_label ann)
         (Web.return_label 0 (mkRecord "B-AAAAA" "Dune" "2024-01-02 09:30:00"))
         s6).
Definition overfull : Book :=
  mkBook "B-AAAAA" "Dune" "Herbert" 1 2 "2024-01-01 10:00:00".

(** The same beginning with two different ids ([g1] yields [B-BBBBB]);
    the member borrows the second book. *)
Definition g1 : Ident.rng := fun _ => 1.
Definition emma' : Book :=
  mkBook "B-BBBBB" "Emma" "Austen" 1 1 "2024-01-01 10:05:00".
Definition w2 : store :=
  snd (Web.add_book "Emma" "Austen" 1 g1 "2024-01-01 10:05:00" s1).
Definition w3 : store :=
  snd (Web.add_member "Ann" "ann@example.org" g0 w2).
Definition w4 : store :=
  snd (Web.borrow (Web.member_label ann) (Web.book_label emma')
                  "2024-01-02 09:00:00" w3).

(** One book with one copy, lent to the only member. *)
Definition lent : store :=
  mkStore
    [mkBook "B-AAAAA" "Dune" "Herbert" 1 0 "2024-01-01 10:00:00"]
    [mkMember "M-AAAAA" "Ann" "ann@example.org"
       [mkRecord "B-AAAAA" "Dune" "2024-01-02 09:00:00"]].

(** The scenario of the specification: a book with two copies and a new
    member, on the console. *)
Definition c1 : store :=
  snd (Console.add_book "Dune" "Herbert" "2" g0 "2024-01-01 10:00:00" empty_store).
Definition c2 : store := snd (Console.add_member "Ann" "ann@example.org" g0 c1).
Definition c3 : store :=
  snd (Console.borrow "M-AAAAA" "B-AAAAA" "2024-01-02 09:00:00" c2).
Definition c4 : store :=
  snd (Console.borrow "M-AAAAA" "B-AAAAA" "2024-01-02 09:30:00" c3).

End Example.

(** ** The pages of [stream.py] that show or edit the store *)

Module WebUI.

(** "Dashboard": the three metrics. *)
Fixpoint sum_of (f : Book -> Z) (bs : list Book) : Z :=
  match bs with
  | [] => 0
  | b :: r => f b + sum_of f r
  end.

Definition total_books (st : store) : Z := sum_of total_copies (books st).
Definition available_books (st : store) : Z := sum_of available_copies (books st).
Definition total_members (st : store) : nat := List.length (members st).

(** [sorted(books, key=added_on, reverse=True)]: the sort is stable, books
    with the same time stamp keep their order.  [insert_recent b l] puts [b]
    in front of the first book that is not newer than [b]. *)
Fixpoint insert_recent (b : Book) (l : list Book) : list Book :=
  match l with
  | [] => [b]
  | y :: r => if String.leb (added_on y) (added_on b) then b :: l
              else y :: insert_recent b r
  end.

Definition sorted_recent (bs : list Book) : list Book :=
  fold_right insert_recent [] bs.

(** "Recent Books": [sorted(...)[:10]]. *)
Definition recent (st : store) : list Book := firstn 10 (sorted_recent (books st)).

(** "Borrow Book": what the page shows before any button is pressed. *)
Inductive borrow_view :=
| AddMembersFirst
| AddBooksFirst
| NoneAvailable
| Offer (member_options book_options : list string).

Definition borrow_page (st : store) : borrow_view :=
  match members st with
  | [] => AddMembersFirst
  | _ :: _ =>
      match books st with
      | [] => AddBooksFirst
      | _ :: _ =>
          match Web.available_books st with
          | [] => NoneAvailable
          | _ :: _ => Offer (Web.member_options st) (Web.book_options st)
          end
      end
  end.

(** "List Books": the options of the copy editor and the handler of its
    "Save changes" button, given the selected option (empty for the
    placeholder) and the values of the two number inputs. *)
Definition edit_label (b : Book) : string := b_id b +++ Web.sep +++ b_title b.

Definition edit_options (st : store) : list string := map edit_label (books st).

Definition set_copies (new_total new_available : Z) (b : Book) : Book :=
  mkBook (b_id b) (b_title b) (b_author b) new_total new_available (added_on b).

Definition edit_copies (choice : string) (new_total new_available : Z)
    (st : store) : outcome :=
  if String.eqb choice EmptyString then (Idle, st)
  else
    let bid := Py.split_head Web.sep choice in
    match Py.first (has_book_id bid) (books st) with
    | None => (Uncaught Py.StopIteration, st)
    | Some book =>
        (Saved,
         mkStore
           (Py.update_first (has_book_id bid)
              (set_copies new_total new_available) (books st))
           (members st))
    end.

End WebUI.

(** ** The listing of [main.py] *)

(** Texts are strings of one-byte characters, as everywhere in this file:
    for them [len] and slicing count what [String.length] counts. *)
Module ConsoleUI.

(** [s[:n]]. *)
Fixpoint slice_to (n : nat) (s : string) : string :=
  match n, s with
  | S k, String c r => String c (slice_to k r)
  | _, _ => EmptyString
  end.

Definition spaces (n : nat) : string := string_of_list_ascii (repeat " "%char n).

(** [format(s, "w")] for a string: padded with spaces on the right up to
    the width [w]; [format(n, ">w")]: padded on the left. *)
Definition ljust (w : nat) (s : string) : string :=
  s +++ spaces (w - String.length s).

Definition rjust (w : nat) (s : string) : string :=
  spaces (w - String.length s) +++ s.

(** The line [list_books] prints for one book. *)
Definition book_line (b : Book) : string :=
  ljust 12 (b_id b) +++ " " +++ ljust 25 (slice_to 24 (b_title b)) +++ " "
        +++ ljust 20 (slice_to 19 (b_author b)) +++ " "
        +++ Py.str (total_copies b) +++ "/" +++ rjust 3 (Py.str (available_copies b)).

(** [Library.list_books]: the lines printed. *)
Definition list_books (st : store) : list string :=
  match books st with
  | [] => ["sorry no books found"]
  | _ :: _ => map book_line (books st) ++ [EmptyString]
  end.

End ConsoleUI.

(** ** [Library.borrow] on the data as loaded *)

(** The class body of [main.py] keeps whatever [json.loads] returned.  Here
    [Library.borrow] runs on such a value, with the checks that Python makes
    when the code subscripts, compares and appends. *)
Module Raw.

Import Py Json.

(** [m[k]] for a string [k]: only a dictionary can be subscripted by a
    string. *)
Definition getitem (k : string) (m : value) : result value :=
  match m with
  | JDict d =>
      match lookup k d with
      | Some v => Ok v
      | None => Raise KeyError
      end
  | _ => Raise TypeError
  end.

(** [[m for m in items if m['id'] == key]] for a string [key]: a value that
    is no string is different from [key]. *)
Fixpoint select (key : string) (items : list value) : result (list value) :=
  match items with
  | [] => Ok []
  | m :: r =>
      i <- getitem "id" m ;;
      rest <- select key r ;;
      Ok (if is_str key i then m :: rest else rest)
  end.

(** The element that [select] returns first. *)
Definition has_id (key : string) (m : value) : bool :=
  match getitem "id" m with
  | Ok i => is_str key i
  | Raise _ => false
  end.

(** [data[k]] for the two lists, and the list comprehension over it. *)
Definition find_by_id (k key : string) (data : value) : result (list value) :=
  x <- getitem k data ;;
  items <- py_iter x ;;
  select key items.

(** [v <= 0]: integers, and Booleans as the integers 0 and 1. *)
Definition le_zero (v : value) : result bool :=
  match v with
  | JInt n => Ok (n <=? 0)%Z
  | JBool b => Ok (negb b)
  | _ => Raise TypeError
  end.

(** [v - 1], for the values that [le_zero] accepts. *)
Definition minus_one (v : value) : value :=
  match v with
  | JInt n => JInt (n - 1)
  | JBool b => JInt (if b then 0 else -1)
  | _ => v
  end.

(** [l.append(e)]: only a list has [append]. *)
Definition append (l e : value) : result value :=
  match l with
  | JList items => Ok (JList (items ++ [e]))
  | _ => Raise AttributeError
  end.

(** [d[k] = v] on a dictionary. *)
Definition setitem (k : string) (v : value) (m : value) : value :=
  match m with
  | JDict d => JDict (set k v d)
  | _ => m
  end.

(** The change, in place, of the first element of the list [data[k]] that
    [select] has found. *)
Definition update_found (k key : string) (f : value -> value) (data : value)
    : value :=
  match data with
  | JDict d =>
      match lookup k d with
      | Some (JList l) => JDict (set k (JList (update_first (has_id key) f l)) d)
      | _ => data
      end
  | _ => data
  end.

(** [Library.borrow]: the two lines typed, the clock reading, [Library.data];
    the result is the event and [Library.data] afterwards. *)
Definition borrow (member_line book_line now : string) (data : value)
    : event * value :=
  let member_id := strip member_line in
  match find_by_id "members" member_id data with
  | Raise x => (Uncaught x, data)
  | Ok [] => (Refused Console.msg_no_member, data)
  | Ok (member :: _) =>
      let book_id := book_line in
      match find_by_id "books" book_id data with
      | Raise x => (Uncaught x, data)
      | Ok [] => (Refused Console.msg_no_book, data)
      | Ok (book :: _) =>
          match (a <- getitem "available_copies" book ;; le_zero a) with
          | Raise x => (Uncaught x, data)
          | Ok true => (Refused Console.msg_no_copies, data)
          | Ok false =>
              match (i <- getitem "id" book ;;
                     t <- getitem "title" book ;;
                     (let borrow_entry :=
                        JDict [("book_id", i); ("title", t);
                               ("borrow_on", JStr now)] in
                      l <- getitem "borowed" member ;;
                      append l borrow_entry)) with
              | Raise x => (Uncaught x, data)
              | Ok l' =>
                  let data1 :=
                    update_found "members" member_id (setitem "borowed" l') data in
                  let data2 :=
                    update_found "books" book_id
                      (fun b => match getitem "available_copies" b with
                                | Ok a => setitem "available_copies" (minus_one a) b
                                | Raise _ => b
                                end)
                      data1 in
                  (Saved, data2)
              end
          end
      end
  end.

End Raw.

(** ** The console program as a whole *)

(** [main.py] from its first prompt to its end: the handlers with the lines
    they read, in the order they read them, and the menu loop.  What is
    printed is not recorded. *)
Module Menu.

(** What ends the program: an exception of the code, the [EOFError] of
    [input()] when no line is left, the [SystemExit] of [exit(0)]. *)
Inductive abort :=
| Exn (e : Py.exn)
| EOFError
| SystemExit.

(** [except Exception] catches all of them but [SystemExit]. *)
Definition is_Exception (a : abort) : bool :=
  match a with SystemExit => false | _ => true end.

Inductive reply (A : Type) :=
| Done (a : A)
| Stop (x : abort).
Arguments Done {A} a.
Arguments Stop {A} x.

(** The lines still to be typed, the random numbers and the clock readings
    still to come, [Library.data], and what [save_data] has written to
    [library.json] since the program started ([None]: nothing yet). *)
Record state := mkState {
  stdin : list string;
  rand : Ident.rng;
  clock : nat -> string;
  data : store;
  file : option store
}.

Definition M (A : Type) : Type := state -> reply A * state.

Definition ret {A} (a : A) : M A := fun s => (Done a, s).

Definition bind {A B} (m : M A) (k : A -> M B) : M B :=
  fun s => match m s with
           | (Done a, s') => k a s'
           | (Stop x, s') => (Stop x, s')
           end.

Notation "x <- e ;; k" := (bind e (fun x => k))
  (at level 61, e at next level, right associativity).
Notation "e ;; k" := (bind e (fun _ => k))
  (at level 61, right associativity).

Definition raise {A} (x : abort) : M A := fun s => (Stop x, s).

(** [try: body except Exception: handler]: the handler runs in the state
    the body has reached. *)
Definition try_except {A} (body handler : M A) : M A :=
  fun s => match body s with
           | (Stop x, s') => if is_Exception x then handler s' else (Stop x, s')
           | r => r
           end.

(** [input(prompt)]. *)
Definition input (prompt : string) : M string :=
  fun s => match stdin s with
           | [] => (Stop EOFError, s)
           | line :: rest =>
               (Done line, mkState rest (rand s) (clock s) (data s) (file s))
           end.

(** [print(x)]. *)
Definition print {A} (x : A) : M unit := ret tt.

(** [int(line)]. *)
Definition int (line : string) : M Z :=
  match Py.int line with
  | Some k => ret k
  | None => raise (Exn Py.ValueError)
  end.

(** [Library.gen_id(Prefix)]. *)
Definition gen_id (Prefix : string) : M string :=
  fun s => let (id, g) := Ident.gen_id_console Prefix (rand s) in
           (Done id, mkState (stdin s) g (clock s) (data s) (file s)).

(** [datetime.now().strftime("%Y-%m-%d %H:%M:%S")]. *)
Definition now : M string :=
  fun s => (Done (clock s 0),
            mkState (stdin s) (rand s) (fun n => clock s (S n)) (data s) (file s)).

Definition get_data : M store := fun s => (Done (data s), s).

(** A change of [Library.data] in place. *)
Definition modify (f : store -> store) : M unit :=
  fun s => (Done tt, mkState (stdin s) (rand s) (clock s) (f (data s)) (file s)).

(** [Library.save_data()]. *)
Definition save_data : M unit :=
  fun s => (Done tt,
            mkState (stdin s) (rand s) (clock s) (data s) (Some (data s))).

Fixpoint for_each {A} (l : list A) (body : A -> M unit) : M unit :=
  match l with
  | [] => ret tt
  | x :: r => body x ;; for_each r body
  end.

(** [enumerate(l, start)]. *)
Fixpoint enumerate {A} (start : Z) (l : list A) : list (Z * A) :=
  match l with
  | [] => []
  | x :: r => (start, x) :: enumerate (start + 1) r
  end.

(** [Library.add_book]. *)
Definition add_book : M unit :=
  title <- input "Enter book title : " ;;
  author <- input "Enter the book author : " ;;
  line <- input "how many copies : " ;;
  copies <- int line ;;
  id <- gen_id "B" ;;
  added_on <- now ;;
  modify (fun d =>
    mkStore (books d ++ [mkBook id title author copies copies added_on])
            (members d)) ;;
  save_data.

(** [Library.list_books]. *)
Definition list_books : M unit :=
  d <- get_data ;;
  match books d with
  | [] => print "sorry no books found"
  | _ :: _ =>
      for_each (books d) (fun b => print (ConsoleUI.book_line b)) ;;
      print EmptyString
  end.

(** [Library.add_member]. *)
Definition add_member : M unit :=
  name <- input "Enter the name :- " ;;
  email <- input "please enter the email " ;;
  id <- gen_id "M" ;;
  modify (fun d =>
    mkStore (books d) (members d ++ [mkMember id name email []])) ;;
  save_data ;;
  print "Member added successfully".

(** [Library.list_members]. *)
Definition list_members : M unit :=
  d <- get_data ;;
  match members d with
  | [] => print "there are no members"
  | _ :: _ =>
      for_each (members d) (fun m =>
        print (ConsoleUI.ljust 12 (m_id m) +++ " "
               +++ ConsoleUI.ljust 25 (ConsoleUI.slice_to 24 (m_name m)) +++ " "
               +++ ConsoleUI.ljust 30 (ConsoleUI.slice_to 29 (m_email m))) ;;
        print "this guy has currently " ;;
        print (borrowed m)) ;;
      print EmptyString
  end.

(** [Library.borrow]. *)
Definition borrow : M unit :=
  line <- input "Enter the mermber ID : " ;;
  let member_id := Py.strip line in
  d <- get_data ;;
  match filter (has_member_id member_id) (members d) with
  | [] => print Console.msg_no_member
  | member :: _ =>
      book_id <- input "enter the book id : " ;;
      match filter (has_book_id book_id) (books d) with
      | [] => print Console.msg_no_book
      | book :: _ =>
          if (available_copies book <=? 0)%Z then print Console.msg_no_copies
          else
            borrow_on <- now ;;
            let borrow_entry := mkRecord (b_id book) (b_title book) borrow_on in
            modify (fun d =>
              mkStore (books d)
                (Py.update_first (has_member_id member_id)
                   (fun m => set_borrowed (borrowed m ++ [borrow_entry]) m)
                   (members d))) ;;
            modify (fun d =>
              mkStore
                (Py.update_first (has_book_id book_id)
                   (fun b => set_available (available_copies b - 1) b)
                   (books d))
                (members d)) ;;
            save_data
      end
  end.

(** [member['borowed'].pop(i)], for the member found by [member_id], whose
    list is [l]. *)
Definition pop_borrowed (member_id : string) (l : list BorrowRecord) (i : Z)
    : M BorrowRecord :=
  match Py.pop i l with
  | None => raise (Exn Py.IndexError)
  | Some (selected, rest) =>
      modify (fun d =>
        mkStore (books d)
          (Py.update_first (has_member_id member_id) (set_borrowed rest)
             (members d))) ;;
      ret selected
  end.

(** [Library.return_book].  [selected] is [None] while the variable is
    unassigned; the list comprehension that follows the [try] block reads
    it once for each book, so with no book at all it is not read. *)
Definition return_book : M unit :=
  line <- input "Enter the mermber ID : " ;;
  let member_id := Py.strip line in
  d <- get_data ;;
  match filter (has_member_id member_id) (members d) with
  | [] => print Console.msg_no_member
  | member :: _ =>
      match borrowed member with
      | [] => print Console.msg_nothing_borrowed
      | _ :: _ =>
          print "borrowed books" ;;
          for_each (enumerate 1 (borrowed member)) (fun ib =>
            print (Py.str (fst ib) +++ ". " +++ title (snd ib)
                   +++ " (" +++ book_id (snd ib) +++ ")")) ;;
          selected <-
            try_except
              (line <- input "enter number to return : - " ;;
               choice <- int line ;;
               sel <- pop_borrowed member_id (borrowed member) (choice - 1) ;;
               ret (Some sel))
              (print Console.msg_invalid ;; ret None) ;;
          d1 <- get_data ;;
          match books d1, selected with
          | [], _ => save_data
          | _ :: _, None => raise (Exn Py.UnboundLocalError)
          | _ :: _, Some sel =>
              modify (fun d =>
                mkStore
                  (Py.update_first (has_book_id (book_id sel))
                     (fun bk => set_available (available_copies bk + 1) bk)
                     (books d))
                  (members d)) ;;
              save_data
          end
      end
  end.

(** [if choice == key: handler()]. *)
Definition when (choice key : string) (handler : M unit) : M unit :=
  if String.eqb choice key then handler else ret tt.

Definition rule (c : ascii) : string := string_of_list_ascii (repeat c 50).

(** The body of [while True]. *)
Definition turn : M unit :=
  print (rule "=") ;;
  print "Library Management System" ;;
  print (rule "=") ;;
  print "1. Add Book" ;;
  print "2. List Books" ;;
  print "3. Add Members" ;;
  print "4. List members" ;;
  print "5. Borrow Book" ;;
  print "6. Return Book" ;;
  print "0. Exit the portal" ;;
  print (rule "-") ;;
  choice <- input "What task you want to do " ;;
  when choice "1" add_book ;;
  when choice "2" list_books ;;
  when choice "3" add_member ;;
  when choice "4" list_members ;;
  when choice "5" borrow ;;
  when choice "6" return_book ;;
  when choice "0" (raise SystemExit).

(** [while True], cut after [fuel] turns: [Done tt] says that the loop is
    still running then. *)
Fixpoint loop (fuel : nat) : M unit :=
  match fuel with
  | O => ret tt
  | S k => turn ;; loop k
  end.

(** The state in which the loop starts, on the data [d] that the class body
    has loaded. *)
Definition start (lines : list string) (g : Ident.rng) (c : nat -> string)
    (d : store) : state :=
  mkState lines g c d None.

End Menu.

(** ** Vocabulary of the further properties *)

(** What identifies a book and a member to the user: everything but the
    number of available copies and the list of borrowed books. *)
Definition book_card (b : Book) : string * string * string * Z * string :=
  (b_id b, b_title b, b_author b, total_copies b, added_on b).

Definition member_card (m : Member) : string * string * string :=
  (m_id m, m_name m, m_email m).

(** [l'] is [l] with at most one element added at its end. *)
Definition extends {A} (l l' : list A) : Prop :=
  exists new, l' = l ++ new /\ List.length new <= 1.

Fixpoint string_forall (p : ascii -> bool) (s : string) : bool :=
  match s with
  | EmptyString => true
  | String c r => p c && string_forall p r
  end.

Definition clean_member_ids (st : store) : Prop :=
  Forall (fun m => no_space (m_id m) = true) (members st).

(** [a] was added no earlier than [b], by the time stamps as the dashboard
    compares them. *)
Definition not_older (a b : Book) : Prop :=
  String.leb (added_on b) (added_on a) = true.

(** The end of a line of [list_books]: the two numbers. *)
Definition counts (b : Book) : string :=
  Py.str (total_copies b) +++ "/"
         +++ ConsoleUI.rjust 3 (Py.str (available_copies b)).

(** [s'] comes after [s] in a run: the lines of [s'] are those of [s] that
    have not been read. *)
Definition reads (s s' : Menu.state) : Prop :=
  exists l, Menu.stdin s = l ++ Menu.stdin s'.

(** [d'] is [d] after some commands of the console. *)
Inductive commands : store -> store -> Prop :=
| commands_none d : commands d d
| commands_more c d d' : commands d d' -> commands d (snd (Console.exec c d')).

(** Nothing has changed since [s], or [library.json] holds the data. *)
Definition persisted (s s' : Menu.state) : Prop :=
  (Menu.data s' = Menu.data s /\ Menu.file s' = Menu.file s)
  \/ Menu.file s' = Some (Menu.data s').

(** What every method of [Library] does to the state of the program. *)
Definition handler_ok (h : Menu.M unit) : Prop :=
  forall s,
    reads s (snd (h s))
    /\ commands (Menu.data s) (Menu.data (snd (h s)))
    /\ persisted s (snd (h s))
    /\ fst (h s) <> Menu.Stop Menu.SystemExit.


(** * Theorems *)

(** ** Identifier generator *)

Section IdentFacts.

Import Ident.

Lemma alphabet_get (k : nat) :
  k < 36 -> exists c, String.get k alphabet = Some c /\ upper_or_digit c = true.
Proof.
  intro H.
  do 36 (destruct k as [|k]; [eexists; split; reflexivity|]).
  lia.
Qed.

Lemma random_choice_alphabet (g : rng) :
  upper_or_digit (fst (random_choice alphabet g)) = true
  /\ snd (random_choice alphabet g) = advance g.
Proof.
  unfold random_choice; cbn [fst snd]; split; [|reflexivity].
  change (String.length alphabet) with 36.
  destruct (alphabet_get (g 0 mod 36)) as (c & Hc & Hok).
  - apply Nat.mod_upper_bound; discriminate.
  - rewrite Hc; exact Hok.
Qed.

Lemma gen_chars_spec (n : nat) : forall g,
  List.length (fst (gen_chars n g)) = n
  /\ Forall (fun c => upper_or_digit c = true) (fst (gen_chars n g))
  /\ forall k, snd (gen_chars n g) k = g (n + k).
Proof.
  induction n as [|n IH]; intro g; cbn [gen_chars].
  - cbn; repeat split; auto.
  - destruct (random_choice_alphabet g) as [Hc Hg].
    destruct (random_choice alphabet g) as [c g1]; cbn [fst snd] in Hc, Hg; subst g1.
    specialize (IH (advance g)).
    destruct (gen_chars n (advance g)) as [cs g2]; cbn [fst snd] in *.
    destruct IH as (Hlen & Hall & Hrng).
    repeat split.
    + cbn [List.length]; now rewrite Hlen.
    + now constructor.
    + intro k; rewrite Hrng; unfold advance; f_equal; lia.
Qed.

Lemma append_assoc (a b c : string) : (a +++ b) +++ c = a +++ (b +++ c).
Proof. induction a as [|x a IH]; cbn; [reflexivity | now rewrite IH]. Qed.

Lemma append_empty_r (a : string) : a +++ EmptyString = a.
Proof. induction a as [|x a IH]; cbn; [reflexivity | now rewrite IH]. Qed.

(** The loop of [main.py] builds the string the join of [stream.py] builds. *)
Lemma gen_loop_chars (n : nat) : forall acc g,
  gen_loop n acc g
  = (acc +++ string_of_list_ascii (fst (gen_chars n g)), snd (gen_chars n g)).
Proof.
  induction n as [|n IH]; intros acc g; cbn [gen_loop gen_chars].
  - cbn; now rewrite append_empty_r.
  - destruct (random_choice alphabet g) as [c g1].
    rewrite IH.
    destruct (gen_chars n g1) as [cs g2]; cbn [fst snd string_of_list_ascii].
    now rewrite append_assoc.
Qed.

Lemma gen_id_console_eq (p : string) (g : rng) : gen_id_console p g = gen_id p g.
Proof.
  unfold gen_id_console, gen_id.
  rewrite gen_loop_chars.
  destruct (gen_chars 5 g) as [cs g']; reflexivity.
Qed.

(** C9.  For every prefix [p] and every state of the random generator, both
    versions of [gen_id] return [p], a dash and five characters of
    [A-Z0-9]; the only thing they change is the generator, which has
    delivered five numbers.  The store is neither an argument nor a
    result. *)
Theorem gen_id_format (p : string) (g : Ident.rng) :
  exists cs : list ascii,
    List.length cs = 5
    /\ Forall (fun c => upper_or_digit c = true) cs
    /\ fst (Ident.gen_id p g) = p +++ "-" +++ string_of_list_ascii cs
    /\ fst (Ident.gen_id_console p g) = p +++ "-" +++ string_of_list_ascii cs
    /\ (forall k, snd (Ident.gen_id p g) k = g (5 + k))
    /\ (forall k, snd (Ident.gen_id_console p g) k = g (5 + k)).
Proof.
  pose proof (gen_id_console_eq p g) as Heq.
  destruct (gen_chars_spec 5 g) as (Hlen & Hall & Hrng).
  unfold gen_id in *.
  destruct (gen_chars 5 g) as [cs g']; cbn [fst snd] in *.
  exists cs; rewrite Heq; cbn [fst snd]; repeat split; auto.
Qed.

End IdentFacts.

(** ** Lists: first match, in-place update, [pop] *)

Section ListFacts.

Context {A : Type}.
Implicit Types (p : A -> bool) (l pre post : list A).

Lemma first_cases p l :
  none_of p l \/ exists pre x post, first_at p l pre x post.
Proof.
  induction l as [|a l IH].
  - left; constructor.
  - destruct (p a) eqn:Ha.
    + right; exists [], a, l; repeat split; auto.
    + destruct IH as [Hn | (pre & x & post & Hl & Hpre & Hx)].
      * left; constructor; assumption.
      * right; exists (a :: pre), x, post; repeat split; auto.
        now rewrite Hl.
Qed.

Lemma none_of_filter p l : none_of p l -> filter p l = [].
Proof.
  induction 1 as [|a l Ha _ IH]; cbn; [reflexivity | now rewrite Ha].
Qed.

Lemma none_of_find p l : none_of p l -> find p l = None.
Proof.
  induction 1 as [|a l Ha _ IH]; cbn; [reflexivity | now rewrite Ha].
Qed.

Lemma none_of_update p (f : A -> A) l : none_of p l -> Py.update_first p f l = l.
Proof.
  induction 1 as [|a l Ha _ IH]; cbn; [reflexivity | now rewrite Ha, IH].
Qed.

Lemma first_at_filter p l pre x post :
  first_at p l pre x post -> filter p l = x :: filter p post.
Proof.
  intros (-> & Hpre & Hx).
  induction Hpre as [|a pre Ha _ IH]; cbn; [now rewrite Hx | now rewrite Ha].
Qed.

Lemma first_at_find p l pre x post :
  first_at p l pre x post -> find p l = Some x.
Proof.
  intros (-> & Hpre & Hx).
  induction Hpre as [|a pre Ha _ IH]; cbn; [now rewrite Hx | now rewrite Ha].
Qed.

Lemma first_at_update p (f : A -> A) l pre x post :
  first_at p l pre x post -> Py.update_first p f l = pre ++ f x :: post.
Proof.
  intros (-> & Hpre & Hx).
  induction Hpre as [|a pre Ha _ IH]; cbn; [now rewrite Hx | now rewrite Ha, IH].
Qed.

Lemma first_at_unique p l pre x post pre' x' post' :
  first_at p l pre x post -> first_at p l pre' x' post' ->
  pre = pre' /\ x = x' /\ post = post'.
Proof.
  intros (-> & Hpre & Hx) (Heq & Hpre' & Hx').
  revert pre' Heq Hpre'.
  induction Hpre as [|a pre Ha _ IH]; intros pre' Heq Hpre'.
  - destruct Hpre' as [|b pre' Hb _]; cbn in Heq.
    + now inversion Heq.
    + inversion Heq; subst; congruence.
  - destruct Hpre' as [|b pre' Hb Hpre']; cbn in Heq.
    + inversion Heq; subst; congruence.
    + inversion Heq; subst.
      destruct (IH pre' H1 Hpre') as (-> & -> & ->); auto.
Qed.

Lemma update_first_ext p (f g : A -> A) l :
  (forall x, find p l = Some x -> f x = g x) ->
  Py.update_first p f l = Py.update_first p g l.
Proof.
  induction l as [|a l IH]; cbn; intro H; [reflexivity|].
  destruct (p a).
  - now rewrite H.
  - now rewrite IH.
Qed.

Lemma remove_nth_app pre x post :
  Py.remove_nth (List.length pre) (pre ++ x :: post) = pre ++ post.
Proof. induction pre as [|a pre IH]; cbn; [reflexivity | now rewrite IH]. Qed.

(** A successful [pop] takes one element out and keeps the others in order;
    the position is the index, counted from the end when negative. *)
Lemma pop_split (i : Z) l x rest :
  Py.pop i l = Some (x, rest) ->
  exists pre post,
    l = pre ++ x :: post /\ rest = pre ++ post
    /\ Z.of_nat (List.length pre)
       = (if i <? 0 then i + Z.of_nat (List.length l) else i)%Z.
Proof.
  unfold Py.pop.
  set (j := (if (i <? 0)%Z then (i + Z.of_nat (List.length l))%Z else i)).
  destruct ((j <? 0)%Z || (Z.of_nat (List.length l) <=? j)%Z) eqn:Hr; [discriminate|].
  destruct (nth_error l (Z.to_nat j)) as [y|] eqn:Hn; [|discriminate].
  intro H; inversion H; subst y rest; clear H.
  apply nth_error_split in Hn.
  destruct Hn as (pre & post & Hl & Hlen).
  exists pre, post.
  apply orb_false_iff in Hr; destruct Hr as [Hr1 Hr2].
  apply Z.ltb_ge in Hr1.
  repeat split; auto.
  - rewrite <- Hlen. rewrite Hl at 1. apply remove_nth_app.
  - rewrite Hlen; lia.
Qed.

Lemma pop_in_range (i : Z) l :
  (0 <= i < Z.of_nat (List.length l))%Z ->
  exists pre x post,
    l = pre ++ x :: post /\ Z.of_nat (List.length pre) = i
    /\ Py.pop i l = Some (x, pre ++ post).
Proof.
  intro Hi.
  destruct (nth_error l (Z.to_nat i)) as [x|] eqn:Hn.
  - destruct (nth_error_split _ _ Hn) as (pre & post & Hl & Hlen).
    exists pre, x, post; repeat split; auto; [lia|].
    unfold Py.pop.
    replace (i <? 0)%Z with false by (symmetry; apply Z.ltb_ge; lia).
    replace ((i <? 0)%Z || (Z.of_nat (List.length l) <=? i)%Z) with false.
    2:{ symmetry; apply orb_false_iff; split;
        [apply Z.ltb_ge | apply Z.leb_gt]; lia. }
    rewrite Hn, <- Hlen. rewrite Hl at 1. now rewrite remove_nth_app.
  - apply nth_error_None in Hn; lia.
Qed.

Lemma pop_out_of_range (i : Z) l :
  (Z.of_nat (List.length l) <= i \/ i < - Z.of_nat (List.length l))%Z ->
  Py.pop i l = None.
Proof.
  intro Hi; unfold Py.pop.
  destruct (i <? 0)%Z eqn:Hneg.
  - apply Z.ltb_lt in Hneg.
    replace ((i + Z.of_nat (List.length l) <? 0)%Z) with true; [reflexivity|].
    symmetry; apply Z.ltb_lt; lia.
  - apply Z.ltb_ge in Hneg.
    replace ((i <? 0)%Z) with false by (symmetry; apply Z.ltb_ge; lia).
    replace ((Z.of_nat (List.length l) <=? i)%Z) with true; [reflexivity|].
    symmetry; apply Z.leb_le; lia.
Qed.

End ListFacts.

Lemma has_member_id_true (i : string) (m : Member) :
  has_member_id i m = true <-> m_id m = i.
Proof. apply String.eqb_eq. Qed.

Lemma has_book_id_true (i : string) (b : Book) :
  has_book_id i b = true <-> b_id b = i.
Proof. apply String.eqb_eq. Qed.

(** ** Borrowing *)

Section BorrowFacts.

Variables (now : string) (st : store).

(** Console: an unknown member. *)
Lemma console_borrow_no_member (member_line book_line : string) :
  none_of (has_member_id (Py.strip member_line)) (members st) ->
  Console.borrow member_line book_line now st
  = (Refused Console.msg_no_member, st).
Proof.
  intro H; unfold Console.borrow.
  now rewrite (none_of_filter _ _ H).
Qed.

(** Console: a known member, an unknown book. *)
Lemma console_borrow_no_book (member_line book_line : string) pre_m member post_m :
  first_at (has_member_id (Py.strip member_line)) (members st) pre_m member post_m ->
  none_of (has_book_id book_line) (books st) ->
  Console.borrow member_line book_line now st
  = (Refused Console.msg_no_book, st).
Proof.
  intros Hm Hb; unfold Console.borrow.
  rewrite (first_at_filter _ _ _ _ _ Hm).
  now rewrite (none_of_filter _ _ Hb).
Qed.

(** Console: the book has no copy left. *)
Lemma console_borrow_out_of_stock (member_line book_line : string)
    pre_m member post_m pre_b book post_b :
  first_at (has_member_id (Py.strip member_line)) (members st) pre_m member post_m ->
  first_at (has_book_id book_line) (books st) pre_b book post_b ->
  (available_copies book <= 0)%Z ->
  Console.borrow member_line book_line now st
  = (Refused Console.msg_no_copies, st).
Proof.
  intros Hm Hb Ha; unfold Console.borrow.
  rewrite (first_at_filter _ _ _ _ _ Hm), (first_at_filter _ _ _ _ _ Hb).
  apply Z.leb_le in Ha; now rewrite Ha.
Qed.

(** Console: the successful case. *)
Lemma console_borrow_ok (member_line book_line : string)
    pre_m member post_m pre_b book post_b :
  first_at (has_member_id (Py.strip member_line)) (members st) pre_m member post_m ->
  first_at (has_book_id book_line) (books st) pre_b book post_b ->
  (0 < available_copies book)%Z ->
  Console.borrow member_line book_line now st
  = (Saved,
     mkStore
       (pre_b ++ set_available (available_copies book - 1) book :: post_b)
       (pre_m ++ set_borrowed
                   (borrowed member ++ [mkRecord book_line (b_title book) now])
                   member :: post_m)).
Proof.
  intros Hm Hb Ha; unfold Console.borrow.
  rewrite (first_at_filter _ _ _ _ _ Hm), (first_at_filter _ _ _ _ _ Hb).
  apply Z.leb_gt in Ha; rewrite Ha.
  rewrite (first_at_update _ _ _ _ _ _ Hm), (first_at_update _ _ _ _ _ _ Hb).
  destruct Hb as (_ & _ & Hid); apply has_book_id_true in Hid.
  now rewrite Hid.
Qed.

(** Web: the handler, once the two look-ups have succeeded on a book with a
    copy left. *)
Lemma web_borrow_ok (member_option book_option : string)
    pre_m member post_m pre_b book post_b :
  first_at (has_member_id (Py.split_head Web.sep member_option)) (members st)
           pre_m member post_m ->
  first_at (has_book_id (Py.split_head Web.sep book_option)) (books st)
           pre_b book post_b ->
  (0 < available_copies book)%Z ->
  Web.borrow member_option book_option now st
  = (Saved,
     mkStore
       (pre_b ++ set_available (available_copies book - 1) book :: post_b)
       (pre_m ++ set_borrowed
                   (borrowed member
                      ++ [mkRecord (Py.split_head Web.sep book_option)
                                   (b_title book) now])
                   member :: post_m)).
Proof.
  intros Hm Hb Ha; unfold Web.borrow, Py.first.
  rewrite (first_at_find _ _ _ _ _ Hm), (first_at_find _ _ _ _ _ Hb).
  rewrite (first_at_update _ _ _ _ _ _ Hm), (first_at_update _ _ _ _ _ _ Hb).
  destruct Hb as (_ & _ & Hid); apply has_book_id_true in Hid.
  rewrite Hid, Z.max_r by lia. reflexivity.
Qed.

End BorrowFacts.

(** The id is recovered from a select-box label. *)
Lemma split_head_label (a rest : string) :
  no_space a = true -> Py.split_head Web.sep (a +++ Web.sep +++ rest) = a.
Proof.
  induction a as [|c a IH]; intro H.
  - unfold Web.sep; cbn. destruct rest; reflexivity.
  - cbn [no_space] in H. apply andb_true_iff in H. destruct H as [Hc Ha].
    cbn [String.append Py.split_head].
    replace (String.prefix Web.sep (String c (a +++ Web.sep +++ rest))) with false.
    + now rewrite IH.
    + unfold Web.sep; cbn [String.prefix].
      destruct (ascii_dec " " c) as [<-|]; [discriminate Hc | reflexivity].
Qed.

Lemma NoDup_map_eq {A B} (f : A -> B) (l : list A) (x y : A) :
  NoDup (map f l) -> In x l -> In y l -> f x = f y -> x = y.
Proof.
  induction l as [|a l IH]; cbn; intros Hnd Hx Hy Hf; [contradiction|].
  inversion Hnd as [|? ? Hnotin Hnd']; subst.
  destruct Hx as [->|Hx], Hy as [->|Hy]; auto.
  - exfalso; apply Hnotin; rewrite Hf; now apply in_map.
  - exfalso; apply Hnotin; rewrite <- Hf; now apply in_map.
Qed.

(** Web: with pairwise distinct ids, the book the handler finds is the book
    that was offered, and it has a copy left. *)
Lemma web_offer_in_stock (st : store) (book_option : string) :
  NoDup (book_ids st) -> clean_ids st ->
  In book_option (Web.book_options st) ->
  exists pre book post,
    first_at (has_book_id (Py.split_head Web.sep book_option)) (books st)
             pre book post
    /\ (0 < available_copies book)%Z
    /\ book_option = Web.book_label book.
Proof.
  intros Hnd Hclean Hin.
  unfold Web.book_options, Web.available_books in Hin.
  apply in_map_iff in Hin; destruct Hin as (b & <- & Hb).
  apply filter_In in Hb; destruct Hb as [Hb Hav]; apply Z.ltb_lt in Hav.
  assert (Hid : Py.split_head Web.sep (Web.book_label b) = b_id b).
  { unfold Web.book_label. apply split_head_label.
    unfold clean_ids in Hclean; rewrite Forall_forall in Hclean.
    apply Hclean; unfold book_ids; now apply in_map. }
  rewrite Hid.
  destruct (first_cases (has_book_id (b_id b)) (books st))
    as [Hnone | (pre & x & post & Hfirst)].
  - exfalso. unfold none_of in Hnone; rewrite Forall_forall in Hnone.
    specialize (Hnone b Hb). unfold has_book_id in Hnone.
    now rewrite String.eqb_refl in Hnone.
  - assert (x = b).
    { destruct Hfirst as (Hl & _ & Hx). apply has_book_id_true in Hx.
      apply (NoDup_map_eq b_id (books st)); auto.
      rewrite Hl; apply in_or_app; right; now left. }
    subst x. exists pre, b, post; auto.
Qed.

(** C3, as amended.  Console [borrow]: an unknown member id, an unknown book
    id and a book without available copy are refused with the messages that
    stand for [NotFound(member)], [NotFound(book)] and [OutOfStock], the
    store being returned as it was; otherwise one record (book id, title of
    the book, time stamp) is appended to the borrowed list of the first
    member with that id, the first book with that id loses exactly one
    available copy, and nothing else changes.  Web [borrow]: when the book
    ids are pairwise distinct and free of spaces, the handler finds the very
    book that was offered, which has a copy left, and has the same effect. *)
Theorem borrow_outcomes (now : string) (st : store) :
  (forall member_line book_line : string,
      (none_of (has_member_id (Py.strip member_line)) (members st) ->
       Console.borrow member_line book_line now st
       = (Refused Console.msg_no_member, st))
      /\
      (forall pre_m member post_m,
          first_at (has_member_id (Py.strip member_line)) (members st)
                   pre_m member post_m ->
          (none_of (has_book_id book_line) (books st) ->
           Console.borrow member_line book_line now st
           = (Refused Console.msg_no_book, st))
          /\
          (forall pre_b book post_b,
              first_at (has_book_id book_line) (books st) pre_b book post_b ->
              ((available_copies book <= 0)%Z ->
               Console.borrow member_line book_line now st
               = (Refused Console.msg_no_copies, st))
              /\
              ((0 < available_copies book)%Z ->
               Console.borrow member_line book_line now st
               = (Saved,
                  mkStore
                    (pre_b ++ mkBook (b_id book) (b_title book) (b_author book)
                                     (total_copies book)
                                     (available_copies book - 1)
                                     (added_on book)
                           :: post_b)
                    (pre_m ++ mkMember (m_id member) (m_name member)
                                       (m_email member)
                                       (borrowed member
                                          ++ [mkRecord book_line (b_title book)
                                                       now])
                           :: post_m))))))
  /\
  (Console.error_of Console.msg_no_member = Some NotFoundMember
   /\ Console.error_of Console.msg_no_book = Some NotFoundBook
   /\ Console.error_of Console.msg_no_copies = Some OutOfStock)
  /\
  (forall (member_option book_option : string) pre_m member post_m,
      first_at (has_member_id (Py.split_head Web.sep member_option))
               (members st) pre_m member post_m ->
      NoDup (book_ids st) -> clean_ids st ->
      In book_option (Web.book_options st) ->
      exists pre_b book post_b,
        first_at (has_book_id (Py.split_head Web.sep book_option)) (books st)
                 pre_b book post_b
        /\ book_option = Web.book_label book
        /\ Web.borrow member_option book_option now st
           = (Saved,
              mkStore
                (pre_b ++ mkBook (b_id book) (b_title book) (b_author book)
                                 (total_copies book)
                                 (available_copies book - 1)
                                 (added_on book)
                       :: post_b)
                (pre_m ++ mkMember (m_id member) (m_name member)
                                   (m_email member)
                                   (borrowed member
                                      ++ [mkRecord (b_id book) (b_title book)
                                                   now])
                       :: post_m))).
Proof.
  split; [|split].
  - intros member_line book_line; split.
    + apply console_borrow_no_member.
    + intros pre_m member post_m Hm; split.
      * now apply (console_borrow_no_book now st _ _ pre_m member post_m).
      * intros pre_b book post_b Hb; split; intro Ha.
        -- now apply (console_borrow_out_of_stock now st _ _ _ _ _ _ _ _ Hm Hb).
        -- exact (console_borrow_ok now st _ _ _ _ _ _ _ _ Hm Hb Ha).
  - repeat split.
  - intros mo bo pre_m member post_m Hm Hnd Hclean Hin.
    destruct (web_offer_in_stock st bo Hnd Hclean Hin)
      as (pre_b & book & post_b & Hb & Ha & Hlabel).
    exists pre_b, book, post_b; repeat split; try apply Hb; auto.
    rewrite (web_borrow_ok now st mo bo _ _ _ _ _ _ Hm Hb Ha).
    destruct Hb as (_ & _ & Hid); apply has_book_id_true in Hid.
    rewrite <- Hid. reflexivity.
Qed.

(** The scenario of the specification.  Second borrow: the member already
    holds one record, the new one is appended after it and the book goes
    from one available copy to none.  Third borrow: no copy is left, the
    console refuses and the store stays. *)
Lemma borrow_outcomes_witness :
  Console.borrow "M-AAAAA" "B-AAAAA" "2024-01-02 09:30:00" Example.c3
  = (Saved,
     mkStore
       [mkBook "B-AAAAA" "Dune" "Herbert" 2 0 "2024-01-01 10:00:00"]
       [mkMember "M-AAAAA" "Ann" "ann@example.org"
          [mkRecord "B-AAAAA" "Dune" "2024-01-02 09:00:00";
           mkRecord "B-AAAAA" "Dune" "2024-01-02 09:30:00"]])
  /\ Console.borrow "M-AAAAA" "B-AAAAA" "2024-01-03 09:00:00" Example.c4
     = (Refused Console.msg_no_copies, Example.c4).
Proof.
  split.
  - refine (proj2 (proj2 (proj2 (proj1
              (borrow_outcomes "2024-01-02 09:30:00" Example.c3)
              "M-AAAAA" "B-AAAAA")
            [] (mkMember "M-AAAAA" "Ann" "ann@example.org"
                  [mkRecord "B-AAAAA" "Dune" "2024-01-02 09:00:00"]) [] _)
            [] (mkBook "B-AAAAA" "Dune" "Herbert" 2 1 "2024-01-01 10:00:00") [] _) _).
    + split; [reflexivity | split; [constructor | reflexivity]].
    + split; [reflexivity | split; [constructor | reflexivity]].
    + vm_compute; reflexivity.
  - refine (proj1 (proj2 (proj2 (proj1
              (borrow_outcomes "2024-01-03 09:00:00" Example.c4)
              "M-AAAAA" "B-AAAAA")
            [] (mkMember "M-AAAAA" "Ann" "ann@example.org"
                  [mkRecord "B-AAAAA" "Dune" "2024-01-02 09:00:00";
                   mkRecord "B-AAAAA" "Dune" "2024-01-02 09:30:00"]) [] _)
            [] (mkBook "B-AAAAA" "Dune" "Herbert" 2 0 "2024-01-01 10:00:00") [] _) _).
    + split; [reflexivity | split; [constructor | reflexivity]].
    + split; [reflexivity | split; [constructor | reflexivity]].
    + vm_compute; discriminate.
Defined.

(** C3 as stated fails on the web page: after two books have received the
    same id, the book on offer leads the handler to the other one, which has
    no copy left; the borrow is saved all the same, a record is appended and
    no count goes down. *)
Lemma web_borrow_without_copy :
  Web.reachable Example.s4
  /\ In (Web.member_label Example.ann) (Web.member_options Example.s4)
  /\ In (Web.book_label Example.emma) (Web.book_options Example.s4)
  /\ (exists book,
         Py.first (has_book_id (Py.split_head Web.sep (Web.book_label Example.emma)))
                  (books Example.s4) = Some book
         /\ available_copies book = 0%Z)
  /\ fst (Web.borrow (Web.member_label Example.ann) (Web.book_label Example.emma)
                     "2024-01-02 09:30:00" Example.s4) = Saved
  /\ books Example.s5 = books Example.s4
  /\ Example.s5 <> Example.s4.
Proof.
  split; [|split; [|split; [|split; [|split; [|split]]]]].
  - unfold Example.s4.
    apply Web.reach_borrow.
    + unfold Example.s3; apply Web.reach_add_member.
      unfold Example.s2; apply Web.reach_add_book; [|lia].
      unfold Example.s1; apply Web.reach_add_book; [|lia].
      apply Web.reach_empty.
    + vm_compute; left; reflexivity.
    + vm_compute; left; reflexivity.
  - vm_compute; left; reflexivity.
  - vm_compute; left; reflexivity.
  - eexists; split; vm_compute; reflexivity.
  - vm_compute; reflexivity.
  - vm_compute; reflexivity.
  - vm_compute; discriminate.
Qed.

(** ** Returning *)

Section ReturnFacts.

Variable st : store.

Lemma console_return_no_member (member_line choice_line : string) :
  none_of (has_member_id (Py.strip member_line)) (members st) ->
  Console.return_book member_line choice_line st
  = (Refused Console.msg_no_member, st).
Proof.
  intro H; unfold Console.return_book.
  now rewrite (none_of_filter _ _ H).
Qed.

Lemma console_return_nothing (member_line choice_line : string)
    pre_m member post_m :
  first_at (has_member_id (Py.strip member_line)) (members st) pre_m member post_m ->
  borrowed member = [] ->
  Console.return_book member_line choice_line st
  = (Refused Console.msg_nothing_borrowed, st).
Proof.
  intros Hm Hb; unfold Console.return_book.
  rewrite (first_at_filter _ _ _ _ _ Hm). now rewrite Hb.
Qed.

(** Console: a choice from 1 to the length of the list. *)
Lemma console_return_ok (member_line choice_line : string)
    pre_m member post_m (n : Z) :
  first_at (has_member_id (Py.strip member_line)) (members st) pre_m member post_m ->
  Py.int choice_line = Some n ->
  (1 <= n <= Z.of_nat (List.length (borrowed member)))%Z ->
  exists l1 selected l2,
    borrowed member = l1 ++ selected :: l2
    /\ Z.of_nat (List.length l1) = (n - 1)%Z
    /\ Console.return_book member_line choice_line st
       = (Saved,
          mkStore
            (Py.update_first (has_book_id (book_id selected)) give_back (books st))
            (pre_m ++ set_borrowed (l1 ++ l2) member :: post_m)).
Proof.
  intros Hm Hint Hn.
  destruct (pop_in_range (n - 1) (borrowed member)) as (l1 & sel & l2 & Hl & Hlen & Hpop);
    [lia|].
  exists l1, sel, l2; repeat split; auto.
  unfold Console.return_book, Console.try_select.
  rewrite (first_at_filter _ _ _ _ _ Hm).
  destruct (borrowed member) as [|r0 rs] eqn:Hb; [cbn in Hn; lia|].
  rewrite Hint, Hpop; cbn [fst].
  now rewrite (first_at_update _ _ _ _ _ _ Hm).
Qed.

(** Console: a line that is no number, or a number beyond the list (or
    below minus the length), makes [int] or [pop] raise; the handler prints
    its message and [selected] is read, without ever having been assigned,
    at the first book; a library without books is saved as it is. *)
Lemma console_return_unbound (member_line choice_line : string)
    pre_m member post_m :
  first_at (has_member_id (Py.strip member_line)) (members st) pre_m member post_m ->
  borrowed member <> [] ->
  (Py.int choice_line = None
   \/ exists n, Py.int choice_line = Some n
        /\ (Z.of_nat (List.length (borrowed member)) < n
            \/ n <= - Z.of_nat (List.length (borrowed member)))%Z) ->
  Console.try_select choice_line (borrowed member)
  = (None, Some Console.msg_invalid)
  /\ Console.return_book member_line choice_line st
     = (match books st with
        | [] => Saved
        | _ :: _ => Uncaught Py.UnboundLocalError
        end, st).
Proof.
  intros Hm Hb Hc.
  assert (Htry : Console.try_select choice_line (borrowed member)
                 = (None, Some Console.msg_invalid)).
  { unfold Console.try_select.
    destruct Hc as [-> | (n & -> & Hn)]; [reflexivity|].
    rewrite pop_out_of_range; [reflexivity | lia]. }
  split; [exact Htry|].
  unfold Console.return_book.
  rewrite (first_at_filter _ _ _ _ _ Hm).
  destruct (borrowed member) as [|r0 rs] eqn:Hbm; [congruence|].
  rewrite Htry. cbn [fst]. now destruct (books st).
Qed.

(** Web: the placeholder, an empty list, a number outside the list. *)
Lemma web_return_nothing (member_option choice : string) pre_m member post_m :
  member_option <> EmptyString ->
  first_at (has_member_id (Py.split_head Web.sep member_option)) (members st)
           pre_m member post_m ->
  borrowed member = [] ->
  Web.return_book member_option choice st
  = (Refused Web.msg_nothing_borrowed, st).
Proof.
  intros Hne Hm Hb; unfold Web.return_book, Py.first.
  apply String.eqb_neq in Hne; rewrite Hne.
  rewrite (first_at_find _ _ _ _ _ Hm). now rewrite Hb.
Qed.

Lemma web_return_invalid (member_option choice : string) pre_m member post_m (n : Z) :
  member_option <> EmptyString ->
  first_at (has_member_id (Py.split_head Web.sep member_option)) (members st)
           pre_m member post_m ->
  borrowed member <> [] ->
  Py.int (Py.split_head "." choice) = Some n ->
  ~ (1 <= n <= Z.of_nat (List.length (borrowed member)))%Z ->
  Web.return_book member_option choice st = (Refused Web.msg_invalid, st).
Proof.
  intros Hne Hm Hb Hint Hn; unfold Web.return_book, Py.first.
  apply String.eqb_neq in Hne; rewrite Hne.
  rewrite (first_at_find _ _ _ _ _ Hm).
  destruct (borrowed member) as [|r0 rs] eqn:Hbm; [congruence|].
  rewrite Hint.
  replace ((0 <=? n - 1)%Z && (n - 1 <? Z.of_nat (List.length (r0 :: rs)))%Z)
    with false; [reflexivity|].
  symmetry; apply andb_false_iff.
  destruct (Z.leb_spec 0 (n - 1)); [right | left; reflexivity].
  apply Z.ltb_ge; lia.
Qed.

Lemma web_return_ok (member_option choice : string) pre_m member post_m (n : Z) :
  member_option <> EmptyString ->
  first_at (has_member_id (Py.split_head Web.sep member_option)) (members st)
           pre_m member post_m ->
  Py.int (Py.split_head "." choice) = Some n ->
  (1 <= n <= Z.of_nat (List.length (borrowed member)))%Z ->
  exists l1 selected l2,
    borrowed member = l1 ++ selected :: l2
    /\ Z.of_nat (List.length l1) = (n - 1)%Z
    /\ Web.return_book member_option choice st
       = (Saved,
          mkStore
            (Py.update_first (has_book_id (book_id selected)) give_back (books st))
            (pre_m ++ set_borrowed (l1 ++ l2) member :: post_m)).
Proof.
  intros Hne Hm Hint Hn.
  destruct (pop_in_range (n - 1) (borrowed member)) as (l1 & sel & l2 & Hl & Hlen & Hpop);
    [lia|].
  exists l1, sel, l2; repeat split; auto.
  unfold Web.return_book, Py.first.
  apply String.eqb_neq in Hne; rewrite Hne.
  rewrite (first_at_find _ _ _ _ _ Hm).
  destruct (borrowed member) as [|r0 rs] eqn:Hb; [cbn in Hn; lia|].
  rewrite Hint.
  replace ((0 <=? n - 1)%Z && (n - 1 <? Z.of_nat (List.length (r0 :: rs)))%Z)
    with true.
  2:{ symmetry; apply andb_true_iff; split;
      [apply Z.leb_le | apply Z.ltb_lt]; lia. }
  rewrite Hpop.
  now rewrite (first_at_update _ _ _ _ _ _ Hm).
Qed.

(** What [give_back] does to the list of books. *)
Lemma give_back_found (i : string) pre_b book post_b :
  first_at (has_book_id i) (books st) pre_b book post_b ->
  Py.update_first (has_book_id i) give_back (books st)
  = pre_b ++ set_available (available_copies book + 1) book :: post_b.
Proof. intro H; now rewrite (first_at_update _ _ _ _ _ _ H). Qed.

Lemma give_back_missing (i : string) :
  none_of (has_book_id i) (books st) ->
  Py.update_first (has_book_id i) give_back (books st) = books st.
Proof. apply none_of_update. Qed.

End ReturnFacts.

(** C5.  In both front ends a return whose choice [n] lies between 1 and
    the length of the member's borrowed list removes the record at position
    [n] (the records before and after it stay, in order) and saves; the
    first book whose id is the record's [book_id] gets one more available
    copy, whatever its [total_copies]; when no book has that id the books
    are left as they are, the record being removed all the same; the other
    members do not change. *)
Theorem return_book_effect (st : store) (n : Z) pre_m member post_m :
  (1 <= n <= Z.of_nat (List.length (borrowed member)))%Z ->
  (forall member_line choice_line : string,
      first_at (has_member_id (Py.strip member_line)) (members st)
               pre_m member post_m ->
      Py.int choice_line = Some n ->
      exists l1 selected l2,
        borrowed member = l1 ++ selected :: l2
        /\ Z.of_nat (List.length l1) = (n - 1)%Z
        /\ Console.return_book member_line choice_line st
           = (Saved,
              mkStore
                (Py.update_first (has_book_id (book_id selected))
                   (fun bk => mkBook (b_id bk) (b_title bk) (b_author bk)
                                     (total_copies bk)
                                     (available_copies bk + 1) (added_on bk))
                   (books st))
                (pre_m ++ mkMember (m_id member) (m_name member)
                                   (m_email member) (l1 ++ l2)
                       :: post_m)))
  /\
  (forall member_option choice : string,
      member_option <> EmptyString ->
      first_at (has_member_id (Py.split_head Web.sep member_option))
               (members st) pre_m member post_m ->
      Py.int (Py.split_head "." choice) = Some n ->
      exists l1 selected l2,
        borrowed member = l1 ++ selected :: l2
        /\ Z.of_nat (List.length l1) = (n - 1)%Z
        /\ Web.return_book member_option choice st
           = (Saved,
              mkStore
                (Py.update_first (has_book_id (book_id selected))
                   (fun bk => mkBook (b_id bk) (b_title bk) (b_author bk)
                                     (total_copies bk)
                                     (available_copies bk + 1) (added_on bk))
                   (books st))
                (pre_m ++ mkMember (m_id member) (m_name member)
                                   (m_email member) (l1 ++ l2)
                       :: post_m)))
  /\
  (forall i : string,
      (forall pre_b book post_b,
          first_at (has_book_id i) (books st) pre_b book post_b ->
          Py.update_first (has_book_id i)
            (fun bk => mkBook (b_id bk) (b_title bk) (b_author bk)
                              (total_copies bk)
                              (available_copies bk + 1) (added_on bk))
            (books st)
          = pre_b ++ mkBook (b_id book) (b_title book) (b_author book)
                            (total_copies book)
                            (available_copies book + 1) (added_on book)
                  :: post_b)
      /\
      (none_of (has_book_id i) (books st) ->
       Py.update_first (has_book_id i)
         (fun bk => mkBook (b_id bk) (b_title bk) (b_author bk)
                           (total_copies bk)
                           (available_copies bk + 1) (added_on bk))
         (books st)
       = books st)).
Proof.
  intro Hn; split; [|split].
  - intros member_line choice_line Hm Hint.
    exact (console_return_ok st member_line choice_line pre_m member post_m n
             Hm Hint Hn).
  - intros member_option choice Hne Hm Hint.
    exact (web_return_ok st member_option choice pre_m member post_m n
             Hne Hm Hint Hn).
  - intro i; split.
    + exact (give_back_found st i).
    + exact (give_back_missing st i).
Qed.

(** The member of [Example.c4] holds two records of the same book.  The
    choice [1] removes the first of them and keeps the second; the book goes
    from no available copy to one.  On the web page, for [Example.s5], the
    same choice removes the first record of two and gives the copy to the
    first of the two books that share the id. *)
Lemma return_book_effect_witness :
  Console.return_book "M-AAAAA" "1" Example.c4
  = (Saved,
     mkStore
       [mkBook "B-AAAAA" "Dune" "Herbert" 2 1 "2024-01-01 10:00:00"]
       [mkMember "M-AAAAA" "Ann" "ann@example.org"
          [mkRecord "B-AAAAA" "Dune" "2024-01-02 09:30:00"]])
  /\ Web.return_book (Web.member_label Example.ann)
       (Web.return_label 0 (mkRecord "B-AAAAA" "Dune" "2024-01-02 09:00:00"))
       Example.s5
     = (Saved,
        mkStore
          [mkBook "B-AAAAA" "Dune" "Herbert" 1 1 "2024-01-01 10:00:00";
           mkBook "B-AAAAA" "Emma" "Austen" 1 1 "2024-01-01 10:05:00"]
          [mkMember "M-AAAAA" "Ann" "ann@example.org"
             [mkRecord "B-AAAAA" "Dune" "2024-01-02 09:30:00"]]).
Proof.
  split.
  - destruct (proj1 (return_book_effect Example.c4 1 []
                       (mkMember "M-AAAAA" "Ann" "ann@example.org"
                          [mkRecord "B-AAAAA" "Dune" "2024-01-02 09:00:00";
                           mkRecord "B-AAAAA" "Dune" "2024-01-02 09:30:00"])
                       [] ltac:(cbn; lia))
                "M-AAAAA" "1"
                ltac:(split; [reflexivity | split; [constructor | reflexivity]])
                eq_refl)
      as (l1 & selected & l2 & Hl & Hlen & Hret).
    destruct l1 as [|r l1]; [|cbn in Hlen; lia].
    cbn in Hl. injection Hl as <- <-. exact Hret.
  - destruct (proj1 (proj2 (return_book_effect Example.s5 1 []
                       (mkMember "M-AAAAA" "Ann" "ann@example.org"
                          [mkRecord "B-AAAAA" "Dune" "2024-01-02 09:00:00";
                           mkRecord "B-AAAAA" "Dune" "2024-01-02 09:30:00"])
                       [] ltac:(cbn; lia)))
                (Web.member_label Example.ann)
                (Web.return_label 0
                   (mkRecord "B-AAAAA" "Dune" "2024-01-02 09:00:00"))
                ltac:(discriminate)
                ltac:(split; [reflexivity | split; [constructor | reflexivity]])
                eq_refl)
      as (l1 & selected & l2 & Hl & Hlen & Hret).
    destruct l1 as [|r l1]; [|cbn in Hlen; lia].
    cbn in Hl. injection Hl as <- <-. exact Hret.
Defined.

(** C4 fails on the console.  With one record borrowed, the choice [0] is
    outside [1, 1], yet [pop(-1)] takes the last record: the return is
    carried out and saved instead of being refused. *)
Theorem console_return_choice_zero :
  Console.return_book "M-AAAAA" "0" Example.lent
  = (Saved,
     mkStore
       [mkBook "B-AAAAA" "Dune" "Herbert" 1 1 "2024-01-01 10:00:00"]
       [mkMember "M-AAAAA" "Ann" "ann@example.org" []]).
Proof. reflexivity. Qed.

(** ** Accounting: records against copies *)

Section Counting.

Lemma all_records_app (a b : list Member) :
  all_records (a ++ b) = all_records a ++ all_records b.
Proof. apply flat_map_app. Qed.

Lemma all_records_split (pre : list Member) (m : Member) (post : list Member) :
  all_records (pre ++ m :: post)
  = all_records pre ++ borrowed m ++ all_records post.
Proof. now rewrite all_records_app. Qed.

Lemma count_id_app (i : string) (a b : list BorrowRecord) :
  count_id i (a ++ b) = (count_id i a + count_id i b)%Z.
Proof. unfold count_id. rewrite filter_app, length_app. lia. Qed.

Lemma count_id_nonneg (i : string) (rs : list BorrowRecord) :
  (0 <= count_id i rs)%Z.
Proof. unfold count_id; lia. Qed.

Lemma count_id_one (i : string) (r : BorrowRecord) :
  count_id i [r] = if String.eqb (book_id r) i then 1%Z else 0%Z.
Proof. unfold count_id; cbn. now destruct (String.eqb (book_id r) i). Qed.

Lemma count_id_absent (i : string) (rs : list BorrowRecord) :
  (forall r, In r rs -> book_id r <> i) -> count_id i rs = 0%Z.
Proof.
  intro H; unfold count_id.
  induction rs as [|r rs IH]; [reflexivity|].
  cbn. destruct (String.eqb_spec (book_id r) i) as [Heq|_].
  - exfalso; apply (H r); [now left | exact Heq].
  - apply IH; intros r' Hr'; apply H; now right.
Qed.

Lemma deficit_app (a b : list Book) :
  deficit (a ++ b) = (deficit a + deficit b)%Z.
Proof. induction a as [|x a IH]; cbn; [reflexivity | rewrite IH; lia]. Qed.

Lemma book_ids_update (p : Book -> bool) (f : Book -> Book) (bs : list Book) :
  (forall b, b_id (f b) = b_id b) ->
  map b_id (Py.update_first p f bs) = map b_id bs.
Proof.
  intro Hf; induction bs as [|b bs IH]; cbn; [reflexivity|].
  destruct (p b); cbn; [now rewrite Hf | now rewrite IH].
Qed.

Lemma find_in {A} (p : A -> bool) (l : list A) (x : A) :
  find p l = Some x -> In x l /\ p x = true.
Proof. apply find_some. Qed.

End Counting.

Section BooksOk.

Implicit Types (cnt : string -> Z) (seen : list string) (bs : list Book).

Lemma books_ok_ext cnt cnt' bs : forall seen,
  (forall j, ~ In j seen -> cnt' j = cnt j) ->
  books_ok cnt seen bs -> books_ok cnt' seen bs.
Proof.
  induction bs as [|b bs IH]; intros seen Hext; cbn; [auto|].
  intros (H0 & Hb & Hrest); repeat split; auto.
  - destruct (in_dec string_dec (b_id b) seen); [assumption|].
    now rewrite Hext.
  - apply IH; [|assumption].
    intros j Hj; apply Hext; intro; apply Hj; now right.
Qed.

(** Moving [d] copies out of the first book with id [i], while the number
    of records on [i] grows by [d]. *)
Lemma books_ok_update cnt cnt' (i : string) (d : Z) bs : forall seen,
  ~ In i seen ->
  (forall j, j <> i -> cnt' j = cnt j) ->
  cnt' i = (cnt i + d)%Z ->
  (forall b, find (has_book_id i) bs = Some b -> (0 <= available_copies b - d)%Z) ->
  books_ok cnt seen bs ->
  books_ok cnt' seen
    (Py.update_first (has_book_id i)
       (fun b => set_available (available_copies b - d) b) bs).
Proof.
  induction bs as [|b bs IH]; intros seen Hi Hoff Hon Hfind; cbn; [auto|].
  intros (H0 & Hb & Hrest).
  destruct (has_book_id i b) eqn:Hid.
  - apply has_book_id_true in Hid.
    cbn [books_ok set_available b_id available_copies total_copies].
    repeat split.
    + apply Hfind. cbn. unfold has_book_id. rewrite Hid, String.eqb_refl. reflexivity.
    + destruct (in_dec string_dec (b_id b) seen) as [Hin|_].
      * exfalso; apply Hi; now rewrite <- Hid.
      * rewrite Hid in *. rewrite Hon. lia.
    + apply (books_ok_ext cnt); [|assumption].
      intros j Hj; apply Hoff; intro; subst j; apply Hj; left; assumption.
  - cbn [books_ok]. repeat split; auto.
    + destruct (in_dec string_dec (b_id b) seen); [assumption|].
      rewrite Hoff; [assumption|].
      intro Heq. unfold has_book_id in Hid. rewrite Heq, String.eqb_refl in Hid.
      discriminate.
    + apply IH; auto.
      * intros [Heq|Hin]; [|now apply Hi].
        unfold has_book_id in Hid. rewrite Heq, String.eqb_refl in Hid.
        discriminate.
      * intros b' Hb'; apply Hfind; cbn; now rewrite Hid.
Qed.

(** A new book with all its copies available, at the end of the list. *)
Lemma books_ok_app cnt (b : Book) bs : forall seen,
  (0 <= total_copies b)%Z -> available_copies b = total_copies b ->
  (~ In (b_id b) seen -> ~ In (b_id b) (map b_id bs) -> cnt (b_id b) = 0%Z) ->
  books_ok cnt seen bs -> books_ok cnt seen (bs ++ [b]).
Proof.
  induction bs as [|a bs IH]; intros seen Hpos Hfull Hzero; cbn.
  - intros _; repeat split; [lia|].
    destruct (in_dec string_dec (b_id b) seen) as [|Hn]; [assumption|].
    rewrite Hzero; auto; lia.
  - intros (H0 & Ha & Hrest); repeat split; auto.
    apply IH; auto.
    intros Hn1 Hn2; apply Hzero.
    + intro; apply Hn1; now right.
    + cbn; intros [Heq|Hin]; [apply Hn1; now left | now apply Hn2].
Qed.

Lemma books_ok_bounds cnt bs : forall seen,
  (forall j, 0 <= cnt j)%Z ->
  books_ok cnt seen bs -> forall b, In b bs -> in_bounds b.
Proof.
  induction bs as [|a bs IH]; intros seen Hcnt; cbn; [contradiction|].
  intros (H0 & Ha & Hrest) b [<-|Hin].
  - unfold in_bounds; split; [assumption|].
    destruct (in_dec string_dec (b_id a) seen); [lia|].
    specialize (Hcnt (b_id a)); lia.
  - now apply (IH (b_id a :: seen)).
Qed.

End BooksOk.

Section StepFacts.

Variables st st' : store.
Hypothesis Hstep : step st st'.

Lemma step_book_ids :
  book_ids st' = book_ids st \/ exists b, book_ids st' = book_ids st ++ [b_id b].
Proof.
  unfold book_ids; destruct Hstep as [b _ _ | m _
    | pre_b book post_b pre_m member post_m t now Hb Hm Ha
    | pre_m member post_m l1 sel l2 Hm Hl]; cbn [books].
  - right; exists b; now rewrite map_app.
  - now left.
  - left. destruct Hb as (-> & _ & _). now rewrite !map_app.
  - left. now apply book_ids_update.
Qed.

Lemma step_refs_ok : refs_ok st -> refs_ok st'.
Proof.
  intro Hrefs.
  assert (Hids : forall i, In i (book_ids st) -> In i (book_ids st')).
  { intros i Hi. destruct step_book_ids as [-> | (b & ->)]; auto.
    apply in_or_app; now left. }
  unfold refs_ok in *; intros r Hr; apply Hids; clear Hids.
  destruct Hstep as [b _ _ | m Hm0
    | pre_b book post_b pre_m member post_m t now Hb Hm Ha
    | pre_m member post_m l1 sel l2 Hm Hl]; cbn [members] in Hr.
  - now apply Hrefs.
  - rewrite all_records_app in Hr. apply in_app_or in Hr.
    destruct Hr as [Hr|Hr]; [now apply Hrefs|].
    cbn in Hr. rewrite Hm0 in Hr. contradiction.
  - rewrite all_records_split in Hr. cbn [borrowed set_borrowed] in Hr.
    rewrite Hm in Hrefs.
    apply in_app_or in Hr. destruct Hr as [Hr|Hr].
    { apply Hrefs. rewrite all_records_split. apply in_or_app; now left. }
    apply in_app_or in Hr. destruct Hr as [Hr|Hr].
    2:{ apply Hrefs. rewrite all_records_split.
        apply in_or_app; right; apply in_or_app; now right. }
    apply in_app_or in Hr. destruct Hr as [Hr|[<-|[]]].
    { apply Hrefs. rewrite all_records_split.
      apply in_or_app; right; apply in_or_app; now left. }
    cbn [book_id]. unfold book_ids. destruct Hb as (-> & _ & _).
    rewrite map_app. apply in_or_app; right; now left.
  - rewrite all_records_split in Hr. cbn [borrowed set_borrowed] in Hr.
    rewrite Hm in Hrefs. apply Hrefs. rewrite all_records_split, Hl.
    apply in_app_or in Hr. destruct Hr as [Hr|Hr].
    { apply in_or_app; now left. }
    apply in_or_app; right.
    apply in_app_or in Hr. destruct Hr as [Hr|Hr].
    2:{ apply in_or_app; now right. }
    apply in_or_app; left.
    apply in_app_or in Hr. destruct Hr as [Hr|Hr];
      apply in_or_app; [now left | right; now right].
Qed.

Lemma step_accounted : accounted st -> accounted st'.
Proof.
  intros [Hok Hrefs]; split; [|now apply step_refs_ok].
  destruct Hstep as [b Hpos Hfull | m Hm0
    | pre_b book post_b pre_m member post_m t now Hb Hm Ha
    | pre_m member post_m l1 sel l2 Hm Hl]; cbn [books members].
  - apply books_ok_app; auto.
    intros _ Hn. apply count_id_absent.
    intros r Hr Heq. apply Hn. rewrite <- Heq. now apply Hrefs.
  - eapply books_ok_ext; [|exact Hok].
    intros j _. rewrite all_records_app, count_id_app.
    cbn. rewrite Hm0. cbn. lia.
  - rewrite <- (first_at_update (has_book_id (b_id book))
                 (fun b => set_available (available_copies b - 1) b)
                 (books st) pre_b book post_b Hb).
    eapply (books_ok_update _ _ (b_id book) 1); [| | | |exact Hok].
    + intros [].
    + intros j Hj. rewrite Hm, !all_records_split. cbn [borrowed set_borrowed].
      rewrite !count_id_app, count_id_one. cbn [book_id].
      destruct (String.eqb_spec (b_id book) j); [congruence | lia].
    + rewrite Hm, !all_records_split. cbn [borrowed set_borrowed].
      rewrite !count_id_app, count_id_one. cbn [book_id].
      rewrite String.eqb_refl. lia.
    + intros b Hfind. rewrite (first_at_find _ _ _ _ _ Hb) in Hfind.
      inversion Hfind; subst; lia.
  - rewrite (update_first_ext _ give_back
               (fun b => set_available (available_copies b - (-1)) b)).
    2:{ intros; unfold give_back; f_equal; lia. }
    eapply (books_ok_update _ _ (book_id sel) (-1)); [| | | |exact Hok].
    + intros [].
    + intros j Hj. rewrite Hm, !all_records_split. cbn [borrowed set_borrowed].
      rewrite Hl, !count_id_app.
      change (sel :: l2) with ([sel] ++ l2). rewrite count_id_app, count_id_one.
      destruct (String.eqb_spec (book_id sel) j); [congruence | lia].
    + rewrite Hm, !all_records_split. cbn [borrowed set_borrowed].
      rewrite Hl, !count_id_app.
      change (sel :: l2) with ([sel] ++ l2). rewrite count_id_app, count_id_one.
      rewrite String.eqb_refl. lia.
    + intros b Hfind. apply find_in in Hfind. destruct Hfind as [Hin _].
      assert (Hb : in_bounds b).
      { eapply books_ok_bounds; [|exact Hok|exact Hin].
        intro j; apply count_id_nonneg. }
      unfold in_bounds in Hb; lia.
Qed.

Lemma step_conserved : refs_ok st -> conserved st -> conserved st'.
Proof.
  unfold conserved, loans; intros Hrefs Hc.
  destruct Hstep as [b Hpos Hfull | m Hm0
    | pre_b book post_b pre_m member post_m t now Hb Hm Ha
    | pre_m member post_m l1 sel l2 Hm Hl]; cbn [books members].
  - rewrite deficit_app; cbn. lia.
  - rewrite all_records_app, length_app. cbn. rewrite Hm0. cbn. lia.
  - destruct Hb as (Hbs & _ & _). rewrite Hbs, Hm in Hc.
    rewrite deficit_app in *. cbn [deficit set_available total_copies available_copies] in *.
    rewrite all_records_split in *. cbn [borrowed set_borrowed].
    rewrite !length_app in *. cbn [List.length]. lia.
  - assert (Hin : In (book_id sel) (book_ids st)).
    { apply Hrefs. rewrite Hm, all_records_split, Hl.
      apply in_or_app; right; apply in_or_app; left.
      apply in_or_app; right; now left. }
    destruct (first_cases (has_book_id (book_id sel)) (books st))
      as [Hnone | (pre_b & book & post_b & Hb)].
    + exfalso. unfold book_ids in Hin. apply in_map_iff in Hin.
      destruct Hin as (b & Hid & Hb).
      unfold none_of in Hnone; rewrite Forall_forall in Hnone.
      specialize (Hnone b Hb). unfold has_book_id in Hnone.
      rewrite Hid, String.eqb_refl in Hnone. discriminate.
    + rewrite (first_at_update _ _ _ _ _ _ Hb).
      destruct Hb as (Hbs & _ & _). rewrite Hbs, Hm in Hc.
      rewrite deficit_app in *.
      cbn [deficit give_back set_available total_copies available_copies] in *.
      rewrite all_records_split in *. cbn [borrowed set_borrowed].
      rewrite Hl in Hc. rewrite !length_app in *. cbn [List.length] in *.
      lia.
Qed.

End StepFacts.

(** ** Reachable stores *)

Lemma console_exec_step (c : Console.command) (st : store) :
  Console.admissible c ->
  snd (Console.exec c st) = st \/ step st (snd (Console.exec c st)).
Proof.
  destruct c as [t a n g now | n e g | ml bl now | ml cl]; cbn [Console.exec Console.admissible].
  - intros (k & Hk & Hpos). unfold Console.add_book. rewrite Hk. cbn [snd].
    right. now apply step_add_book.
  - intros _. unfold Console.add_member; cbn [snd]. right. now apply step_add_member.
  - intros _.
    destruct (first_cases (has_member_id (Py.strip ml)) (members st))
      as [Hnm | (pre_m & member & post_m & Hm)].
    { left. now rewrite console_borrow_no_member. }
    destruct (first_cases (has_book_id bl) (books st))
      as [Hnb | (pre_b & book & post_b & Hb)].
    { left. now rewrite (console_borrow_no_book now st ml bl _ _ _ Hm). }
    destruct (Z_le_gt_dec (available_copies book) 0) as [Hle|Hgt].
    { left. now rewrite (console_borrow_out_of_stock now st ml bl _ _ _ _ _ _ Hm Hb). }
    right. rewrite (console_borrow_ok now st ml bl _ _ _ _ _ _ Hm Hb); [|lia].
    cbn [snd].
    assert (Hid : b_id book = bl) by (apply has_book_id_true; apply Hb).
    rewrite <- Hid in *.
    apply step_borrow; [exact Hb | apply Hm | lia].
  - intros _.
    destruct (first_cases (has_member_id (Py.strip ml)) (members st))
      as [Hnm | (pre_m & member & post_m & Hm)].
    { left. now rewrite console_return_no_member. }
    unfold Console.return_book, Console.try_select.
    rewrite (first_at_filter _ _ _ _ _ Hm).
    destruct (borrowed member) as [|r0 rs] eqn:Hbm; [now left|].
    destruct (Py.int cl) as [n|];
      [|left; cbn [fst]; now destruct (books st)].
    destruct (Py.pop (n - 1) (r0 :: rs)) as [[sel rest]|] eqn:Hpop;
      [|left; cbn [fst]; now destruct (books st)].
    cbn [fst snd]. right.
    apply pop_split in Hpop. destruct Hpop as (l1 & l2 & Hl & -> & _).
    rewrite (first_at_update _ _ _ _ _ _ Hm).
    apply step_return; [apply Hm | now rewrite Hbm].
Qed.

Lemma accounted_empty : accounted empty_store.
Proof. split; [exact I | intros r []]. Qed.

Lemma conserved_empty : conserved empty_store.
Proof. reflexivity. Qed.

Lemma console_reachable_accounted (st : store) :
  Console.reachable_nonneg st -> accounted st.
Proof.
  induction 1 as [|c st Hr Hacc Hadm].
  - apply accounted_empty.
  - destruct (console_exec_step c st Hadm) as [-> | Hstep]; [assumption|].
    now apply (step_accounted st).
Qed.

(** A new book with all its copies available keeps the balance, whatever
    the number of copies. *)
Lemma add_book_balance (st : store) (b : Book) :
  available_copies b = total_copies b ->
  refs_ok st /\ conserved st ->
  refs_ok (mkStore (books st ++ [b]) (members st))
  /\ conserved (mkStore (books st ++ [b]) (members st)).
Proof.
  intros Hfull [Hrefs Hcons]; split.
  - intros r Hr. unfold book_ids; cbn [books]. rewrite map_app.
    apply in_or_app; left. now apply Hrefs.
  - unfold conserved in *; cbn [books members]. rewrite deficit_app; cbn. lia.
Qed.

Lemma console_reachable_balance (st : store) :
  Console.reachable st -> refs_ok st /\ conserved st.
Proof.
  induction 1 as [|c st Hr [Hrefs Hcons] _].
  - split; [intros r [] | apply conserved_empty].
  - destruct c as [t a n g now | n e g | ml bl now | ml cl].
    + cbn [Console.exec]. unfold Console.add_book.
      destruct (Py.int n) as [k|]; cbn [snd]; [|now split].
      now apply add_book_balance.
    + destruct (console_exec_step (Console.AddMember n e g) st I) as [-> | Hstep];
        [now split|].
      split; [now apply (step_refs_ok st) | now apply (step_conserved st)].
    + destruct (console_exec_step (Console.Borrow ml bl now) st I) as [-> | Hstep];
        [now split|].
      split; [now apply (step_refs_ok st) | now apply (step_conserved st)].
    + destruct (console_exec_step (Console.ReturnBook ml cl) st I) as [-> | Hstep];
        [now split|].
      split; [now apply (step_refs_ok st) | now apply (step_conserved st)].
Qed.

(** C8.  In the console's [return_book], when the member has borrowed
    something and the line typed is not a number, or is a number greater
    than the length of the list, the [except] branch runs (it prints its
    message) but does not leave the method: [selected] is read unassigned
    at the first book of the library, an [UnboundLocalError], which is a
    [NameError], escapes, and the operation ends without a message of
    refusal, without change and without save.  The library has a book in
    every store the console has built in which a member holds a record;
    for other data it is a hypothesis. *)
Theorem console_return_name_error (st : store) (member_line choice_line : string)
    pre_m member post_m :
  first_at (has_member_id (Py.strip member_line)) (members st)
           pre_m member post_m ->
  borrowed member <> [] ->
  books st <> [] \/ Console.reachable st ->
  (Py.int choice_line = None
   \/ exists n, Py.int choice_line = Some n
        /\ (Z.of_nat (List.length (borrowed member)) < n)%Z) ->
  Console.try_select choice_line (borrowed member)
  = (None, Some Console.msg_invalid)
  /\ Console.return_book member_line choice_line st
     = (Uncaught Py.UnboundLocalError, st)
  /\ Py.is_NameError Py.UnboundLocalError = true.
Proof.
  intros Hm Hb Hbooks Hc.
  assert (Hne : books st <> []).
  { destruct Hbooks as [H | Hr]; [exact H|].
    destruct (console_reachable_balance st Hr) as [Hrefs _].
    destruct (borrowed member) as [|r rs] eqn:Hl; [congruence|].
    assert (Hin : In (book_id r) (book_ids st)).
    { apply Hrefs. destruct Hm as (-> & _ & _).
      rewrite all_records_split, Hl. apply in_or_app; right. now left. }
    unfold book_ids in Hin. intro Hnil. now rewrite Hnil in Hin. }
  destruct (console_return_unbound st member_line choice_line pre_m member post_m Hm Hb)
    as [Htry Hret].
  - destruct Hc as [Hc | (k & Hk & Hlt)]; [now left|].
    right; exists k; split; [exact Hk | now left].
  - repeat split; try assumption.
    rewrite Hret. destruct (books st); [congruence | reflexivity].
Qed.

(** Both kinds of input on [Example.lent], whose library has a book: a word,
    and the number 2 for a list of one record. *)
Lemma console_return_name_error_witness :
  Console.return_book "M-AAAAA" "abc" Example.lent
  = (Uncaught Py.UnboundLocalError, Example.lent)
  /\ Console.return_book "M-AAAAA" "2" Example.lent
     = (Uncaught Py.UnboundLocalError, Example.lent).
Proof.
  split.
  - refine (proj1 (proj2 (console_return_name_error Example.lent "M-AAAAA" "abc" []
             (mkMember "M-AAAAA" "Ann" "ann@example.org"
                [mkRecord "B-AAAAA" "Dune" "2024-01-02 09:00:00"]) [] _ _ _ _))).
    + split; [reflexivity | split; [constructor | reflexivity]].
    + discriminate.
    + left; discriminate.
    + left; reflexivity.
  - refine (proj1 (proj2 (console_return_name_error Example.lent "M-AAAAA" "2" []
             (mkMember "M-AAAAA" "Ann" "ann@example.org"
                [mkRecord "B-AAAAA" "Dune" "2024-01-02 09:00:00"]) [] _ _ _ _))).
    + split; [reflexivity | split; [constructor | reflexivity]].
    + discriminate.
    + left; discriminate.
    + right; exists 2%Z; split; [reflexivity | cbn; lia].
Defined.

(** In every store the console reaches from an empty one by adding
    books (with a non-negative number of copies), adding members, borrowing
    and returning, with any input lines and any ids, every book has
    [0 <= available_copies <= total_copies]. *)
Lemma console_copies_in_bounds (st : store) :
  Console.reachable_nonneg st ->
  forall b, In b (books st) ->
    (0 <= available_copies b <= total_copies b)%Z.
Proof.
  intros Hr b Hb.
  destruct (console_reachable_accounted st Hr) as [Hok _].
  change (in_bounds b).
  eapply books_ok_bounds; [|exact Hok|exact Hb].
  intro j; apply count_id_nonneg.
Qed.

Lemma console_example_reachable (ok : Console.command -> Prop) :
  (forall c, Console.admissible c -> ok c) ->
  Console.reachable_if ok Example.c4.
Proof.
  intro Hok.
  change Example.c4 with
    (snd (Console.exec (Console.Borrow "M-AAAAA" "B-AAAAA" "2024-01-02 09:30:00")
            Example.c3)).
  apply Console.reach_step; [|apply Hok; exact I].
  change Example.c3 with
    (snd (Console.exec (Console.Borrow "M-AAAAA" "B-AAAAA" "2024-01-02 09:00:00")
            Example.c2)).
  apply Console.reach_step; [|apply Hok; exact I].
  change Example.c2 with
    (snd (Console.exec (Console.AddMember "Ann" "ann@example.org" Example.g0)
            Example.c1)).
  apply Console.reach_step; [|apply Hok; exact I].
  change Example.c1 with
    (snd (Console.exec
            (Console.AddBook "Dune" "Herbert" "2" Example.g0 "2024-01-01 10:00:00")
            empty_store)).
  apply Console.reach_step; [apply Console.reach_empty|].
  apply Hok. exists 2%Z; split; [reflexivity | lia].
Defined.

(** The ids [gen_id] makes contain no space. *)
Lemma upper_or_digit_not_space (c : ascii) :
  upper_or_digit c = true -> Ascii.eqb c " " = false.
Proof.
  intro H. destruct (Ascii.eqb_spec c " ") as [->|_]; [|reflexivity].
  vm_compute in H; discriminate.
Qed.

Lemma no_space_chars (cs : list ascii) :
  Forall (fun c => upper_or_digit c = true) cs ->
  no_space (string_of_list_ascii cs) = true.
Proof.
  induction 1 as [|c cs Hc _ IH]; cbn; [reflexivity|].
  now rewrite (upper_or_digit_not_space c Hc), IH.
Qed.

Lemma gen_id_no_space (g : Ident.rng) :
  no_space (fst (Ident.gen_id "B" g)) = true.
Proof.
  unfold Ident.gen_id.
  destruct (gen_chars_spec 5 g) as (_ & Hall & _).
  destruct (Ident.gen_chars 5 g) as [cs g']; cbn [fst] in *.
  cbn. now apply no_space_chars.
Qed.

Section WebSteps.

Variable st : store.

Lemma web_borrow_book_ids (mo bo now : string) :
  book_ids (snd (Web.borrow mo bo now st)) = book_ids st.
Proof.
  unfold Web.borrow.
  destruct (Py.first _ (members st)); [|reflexivity].
  destruct (Py.first _ (books st)); [|reflexivity].
  cbn [snd]; unfold book_ids; cbn [books]. now apply book_ids_update.
Qed.

Lemma web_return_step (mo choice : string) :
  snd (Web.return_book mo choice st) = st
  \/ step st (snd (Web.return_book mo choice st)).
Proof.
  unfold Web.return_book, Py.first.
  destruct (String.eqb mo EmptyString); [now left|].
  destruct (first_cases (has_member_id (Py.split_head Web.sep mo)) (members st))
    as [Hnm | (pre_m & member & post_m & Hm)].
  { rewrite (none_of_find _ _ Hnm). now left. }
  rewrite (first_at_find _ _ _ _ _ Hm).
  destruct (borrowed member) as [|r0 rs] eqn:Hbm; [now left|].
  destruct (Py.int _) as [n|]; [|now left].
  destruct (_ && _); [|now left].
  destruct (Py.pop (n - 1) (r0 :: rs)) as [[sel rest]|] eqn:Hpop; [|now left].
  cbn [snd]. right.
  apply pop_split in Hpop. destruct Hpop as (l1 & l2 & Hl & -> & _).
  rewrite (first_at_update _ _ _ _ _ _ Hm).
  apply step_return; [apply Hm | now rewrite Hbm].
Qed.

Lemma web_return_book_ids (mo choice : string) :
  book_ids (snd (Web.return_book mo choice st)) = book_ids st.
Proof.
  unfold Web.return_book.
  destruct (String.eqb mo EmptyString); [reflexivity|].
  destruct (Py.first _ (members st)) as [member|]; [|reflexivity].
  destruct (borrowed member) as [|r0 rs]; [reflexivity|].
  destruct (Py.int _) as [n|]; [|reflexivity].
  destruct (_ && _); [|reflexivity].
  destruct (Py.pop _ _) as [[sel rest]|]; [|reflexivity].
  cbn [snd]; unfold book_ids; cbn [books]. now apply book_ids_update.
Qed.

Lemma web_borrow_step (mo bo now : string) :
  NoDup (book_ids st) -> clean_ids st -> In bo (Web.book_options st) ->
  snd (Web.borrow mo bo now st) = st \/ step st (snd (Web.borrow mo bo now st)).
Proof.
  intros Hnd Hclean Hin.
  destruct (web_offer_in_stock st bo Hnd Hclean Hin)
    as (pre_b & book & post_b & Hb & Ha & _).
  destruct (first_cases (has_member_id (Py.split_head Web.sep mo)) (members st))
    as [Hnm | (pre_m & member & post_m & Hm)].
  { left. unfold Web.borrow, Py.first. now rewrite (none_of_find _ _ Hnm). }
  right. rewrite (web_borrow_ok now st mo bo _ _ _ _ _ _ Hm Hb Ha). cbn [snd].
  assert (Hid : b_id book = Py.split_head Web.sep bo)
    by (apply has_book_id_true; apply Hb).
  rewrite <- Hid in *.
  apply step_borrow; [exact Hb | apply Hm | exact Ha].
Qed.

End WebSteps.

Lemma NoDup_app_l {A} (l1 l2 : list A) : NoDup (l1 ++ l2) -> NoDup l1.
Proof.
  induction l1 as [|a l1 IH]; cbn; intro H; [constructor|].
  inversion H as [|? ? Hn Hnd]; subst. constructor.
  - intro Hin; apply Hn; apply in_or_app; now left.
  - now apply IH.
Qed.

Lemma web_reachable_clean (st : store) : Web.reachable st -> clean_ids st.
Proof.
  unfold clean_ids.
  induction 1 as [| t a n g now st _ IH _ | n e g st _ IH
                  | mo bo now st _ IH _ _ | mo ch st _ IH].
  - constructor.
  - unfold Web.add_book, book_ids; cbn [snd books]. rewrite map_app.
    apply Forall_app; split; [exact IH|].
    constructor; [apply gen_id_no_space | constructor].
  - exact IH.
  - now rewrite web_borrow_book_ids.
  - now rewrite web_return_book_ids.
Qed.

Lemma web_reachable_inv (st : store) :
  Web.reachable st -> NoDup (book_ids st) -> accounted st /\ conserved st.
Proof.
  induction 1 as [| t a n g now st Hr IH Hn | n e g st Hr IH
                  | mo bo now st Hr IH Hmo Hbo | mo ch st Hr IH]; intro Hnd.
  - split; [apply accounted_empty | apply conserved_empty].
  - unfold Web.add_book, book_ids in Hnd; cbn [snd books] in Hnd.
    rewrite map_app in Hnd. apply NoDup_app_l in Hnd.
    destruct (IH Hnd) as [Hacc Hcons].
    assert (Hstep : step st (snd (Web.add_book t a n g now st))).
    { unfold Web.add_book; cbn [snd]. apply step_add_book; cbn; [lia | reflexivity]. }
    split; [now apply (step_accounted st) |].
    apply (step_conserved st); auto; apply Hacc.
  - destruct (IH Hnd) as [Hacc Hcons].
    assert (Hstep : step st (snd (Web.add_member n e g st))).
    { unfold Web.add_member; cbn [snd]. now apply step_add_member. }
    split; [now apply (step_accounted st) |].
    apply (step_conserved st); auto; apply Hacc.
  - rewrite web_borrow_book_ids in Hnd.
    destruct (IH Hnd) as [Hacc Hcons].
    destruct (web_borrow_step st mo bo now Hnd (web_reachable_clean st Hr) Hbo)
      as [-> | Hstep]; [now split|].
    split; [now apply (step_accounted st) |].
    apply (step_conserved st); auto; apply Hacc.
  - rewrite web_return_book_ids in Hnd.
    destruct (IH Hnd) as [Hacc Hcons].
    destruct (web_return_step st mo ch) as [-> | Hstep]; [now split|].
    split; [now apply (step_accounted st) |].
    apply (step_conserved st); auto; apply Hacc.
Qed.

(** The bounds on the web page, under the same proviso. *)
Lemma web_copies_in_bounds (st : store) :
  Web.reachable st -> NoDup (book_ids st) ->
  forall b, In b (books st) ->
    (0 <= available_copies b <= total_copies b)%Z.
Proof.
  intros Hr Hnd b Hb.
  destruct (web_reachable_inv st Hr Hnd) as [[Hok _] _].
  change (in_bounds b).
  eapply books_ok_bounds; [|exact Hok|exact Hb].
  intro j; apply count_id_nonneg.
Qed.

(** C1, as amended.  Every book has
    [0 <= available_copies <= total_copies] in every store the console
    reaches from an empty one by adding books (with a non-negative number of
    copies), adding members, borrowing and returning, with any input lines
    and any ids; and in every store the web page reaches (copy editor
    apart) in which the book ids are pairwise distinct. *)
Theorem copies_in_bounds :
  (forall st, Console.reachable_nonneg st ->
              forall b, In b (books st) ->
                (0 <= available_copies b <= total_copies b)%Z)
  /\
  (forall st, Web.reachable st -> NoDup (book_ids st) ->
              forall b, In b (books st) ->
                (0 <= available_copies b <= total_copies b)%Z).
Proof.
  split.
  - exact console_copies_in_bounds.
  - exact web_copies_in_bounds.
Qed.

(** C2, as amended.  In every store the console reaches from an empty one,
    the sum over the books of [total_copies - available_copies] equals the
    number of borrow records of all members; the same holds in every store
    the web page reaches (copy editor apart) in which the book ids are
    pairwise distinct. *)
Theorem conservation :
  (forall st, Console.reachable st ->
              deficit (books st) = loans (members st))
  /\
  (forall st, Web.reachable st -> NoDup (book_ids st) ->
              deficit (books st) = loans (members st)).
Proof.
  split.
  - intros st Hr. apply (console_reachable_balance st Hr).
  - intros st Hr Hnd. apply (web_reachable_inv st Hr Hnd).
Qed.

Lemma web_example_reachable : Web.reachable Example.w4.
Proof.
  unfold Example.w4. apply Web.reach_borrow.
  - unfold Example.w3. apply Web.reach_add_member.
    unfold Example.w2. apply Web.reach_add_book; [|lia].
    unfold Example.s1. apply Web.reach_add_book; [|lia].
    apply Web.reach_empty.
  - left; reflexivity.
  - right; left; reflexivity.
Defined.

(** After two borrows on the console, and after one borrow on the web page
    with two different ids. *)
Lemma conservation_witness :
  deficit (books Example.c4) = loans (members Example.c4)
  /\ deficit (books Example.w4) = loans (members Example.w4).
Proof.
  split.
  - exact (proj1 conservation Example.c4
             (console_example_reachable (fun _ => True) (fun _ _ => I))).
  - refine (proj2 conservation Example.w4 web_example_reachable _).
    repeat constructor; cbn; intuition discriminate.
Defined.

(** The book of the console scenario after two borrows (0 of 2 copies), and
    the second book of the web page after one borrow (0 of 1). *)
Lemma copies_in_bounds_witness :
  (0 <= available_copies
          (mkBook "B-AAAAA" "Dune" "Herbert" 2 0 "2024-01-01 10:00:00")
     <= total_copies
          (mkBook "B-AAAAA" "Dune" "Herbert" 2 0 "2024-01-01 10:00:00"))%Z
  /\ (0 <= available_copies
             (mkBook "B-BBBBB" "Emma" "Austen" 1 0 "2024-01-01 10:05:00")
        <= total_copies
             (mkBook "B-BBBBB" "Emma" "Austen" 1 0 "2024-01-01 10:05:00"))%Z.
Proof.
  split.
  - exact (proj1 copies_in_bounds Example.c4
             (console_example_reachable Console.admissible (fun c H => H))
             (mkBook "B-AAAAA" "Dune" "Herbert" 2 0 "2024-01-01 10:00:00")
             (or_introl eq_refl)).
  - refine (proj2 copies_in_bounds Example.w4 web_example_reachable _
              (mkBook "B-BBBBB" "Emma" "Austen" 1 0 "2024-01-01 10:05:00") _).
    + repeat constructor; cbn; intuition discriminate.
    + right; left; reflexivity.
Defined.

(** C1 as stated fails on the web page.  Two books have received the same
    id; the member borrows both (the second borrow is booked on the first
    book, held at 0) and returns both: each return gives a copy to the
    first book, which ends with 2 available copies of 1. *)
Lemma web_copies_out_of_bounds :
  Web.reachable Example.s7
  /\ In Example.overfull (books Example.s7)
  /\ (total_copies Example.overfull < available_copies Example.overfull)%Z.
Proof.
  split; [|split].
  - unfold Example.s7. apply Web.reach_return.
    unfold Example.s6. apply Web.reach_return.
    unfold Example.s5. apply Web.reach_borrow.
    + unfold Example.s4. apply Web.reach_borrow.
      * unfold Example.s3. apply Web.reach_add_member.
        unfold Example.s2. apply Web.reach_add_book; [|lia].
        unfold Example.s1. apply Web.reach_add_book; [|lia].
        apply Web.reach_empty.
      * left; reflexivity.
      * left; reflexivity.
    + left; reflexivity.
    + left; reflexivity.
  - left; reflexivity.
  - reflexivity.
Qed.

(** C2 as stated fails on the web page: once two books have the same id a
    borrow of the second one is booked on the first, whose count is held at
    0; the store [Example.s5] has two records for one missing copy. *)
Lemma web_conservation_broken :
  Web.reachable Example.s5
  /\ deficit (books Example.s5) = 1%Z
  /\ loans (members Example.s5) = 2%Z.
Proof.
  split; [|split; reflexivity].
  unfold Example.s5. apply Web.reach_borrow.
  - unfold Example.s4. apply Web.reach_borrow.
    + unfold Example.s3. apply Web.reach_add_member.
      unfold Example.s2. apply Web.reach_add_book; [|lia].
      unfold Example.s1. apply Web.reach_add_book; [|lia].
      apply Web.reach_empty.
    + left; reflexivity.
    + left; reflexivity.
  - left; reflexivity.
  - left; reflexivity.
Qed.

(** ** Persistence *)

Section StripFacts.

Lemma rstrip_last (s : string) (d : ascii) :
  Json.last_char s = Some d -> Py.isspace d = false -> Py.rstrip s = s.
Proof.
  induction s as [|a r IH]; [discriminate|].
  destruct r as [|b r'].
  - cbn. intros [= ->] ->. reflexivity.
  - intros Hl Hd. change (Json.last_char (String a (String b r')))
      with (Json.last_char (String b r')) in Hl.
    specialize (IH Hl Hd).
    change (Py.rstrip (String a (String b r')))
      with (match Py.rstrip (String b r') with
            | EmptyString => if Py.isspace a then EmptyString else String a EmptyString
            | r0 => String a r0
            end).
    now rewrite IH.
Qed.

(** [strip] leaves a text in braces as it is, and such a text is not
    empty. *)
Lemma strip_braced (s : string) :
  Json.braced s = true -> Py.strip s = s /\ Json.nonempty s = true.
Proof.
  unfold Json.braced, Py.strip.
  destruct s as [|c r]; [discriminate|].
  destruct (Json.last_char (String c r)) as [d|] eqn:Hl; [|discriminate].
  intro H. apply andb_true_iff in H. destruct H as [Hc Hd].
  apply Ascii.eqb_eq in Hc, Hd. subst c d.
  split; [|reflexivity].
  change (Py.lstrip (String "{" r)) with (String "{"%char r).
  now apply (rstrip_last _ "}"%char).
Qed.

End StripFacts.

Section DictFacts.

Import Json.
Implicit Types (k : string) (v : value) (d : list (string * value)).

Lemma lookup_set_same k v d : lookup k (set k v d) = Some v.
Proof.
  induction d as [|[k' v'] d IH]; cbn.
  - now rewrite String.eqb_refl.
  - destruct (String.eqb k' k) eqn:E; cbn; rewrite E; auto.
Qed.

Lemma lookup_set_other k k' v d :
  k <> k' -> lookup k' (set k v d) = lookup k' d.
Proof.
  intro Hne. induction d as [|[k0 v0] d IH]; cbn.
  - apply String.eqb_neq in Hne. now rewrite Hne.
  - destruct (String.eqb k0 k) eqn:E; cbn.
    + apply String.eqb_eq in E; subst k0.
      apply String.eqb_neq in Hne. now rewrite Hne.
    + now rewrite IH.
Qed.

Lemma lookup_remove_same k d : lookup k (remove k d) = None.
Proof.
  induction d as [|[k0 v0] d IH]; cbn; [reflexivity|].
  destruct (String.eqb k0 k) eqn:E; cbn; [assumption | now rewrite E].
Qed.

Lemma lookup_remove_other k k' d :
  k <> k' -> lookup k' (remove k d) = lookup k' d.
Proof.
  intro Hne. induction d as [|[k0 v0] d IH]; cbn; [reflexivity|].
  destruct (String.eqb k0 k) eqn:E; cbn.
  - apply String.eqb_eq in E; subst k0.
    apply String.eqb_neq in Hne. now rewrite Hne.
  - now rewrite IH.
Qed.

Lemma set_same k v d : lookup k d = Some v -> set k v d = d.
Proof.
  induction d as [|[k0 v0] d IH]; cbn; [discriminate|].
  destruct (String.eqb k0 k) eqn:E.
  - now intros [= ->].
  - intro H; now rewrite IH.
Qed.

Lemma has_key_lookup k d : has_key k d = true <-> exists v, lookup k d = Some v.
Proof.
  unfold has_key; destruct (lookup k d) as [v|]; split; eauto;
    [discriminate | intros (v & Hv); discriminate].
Qed.

(** The loop body of [load_data] on a dictionary does what the
    specification says. *)
Lemma normalize_member_dict d :
  normalize_member (JDict d) = Py.Ok (JDict (spec_normalize_dict d)).
Proof.
  unfold normalize_member, spec_normalize_dict, py_in, Py.bind.
  destruct (has_key "borowed" d) eqn:Hold.
  - destruct (has_key "borrowed" d) eqn:Hnew; cbn [negb].
    + now rewrite Hnew.
    + apply has_key_lookup in Hold. destruct Hold as (v & Hv).
      unfold py_pop. rewrite Hv. cbn [fst snd py_setitem].
      unfold has_key. now rewrite lookup_set_same.
  - destruct (has_key "borrowed" d) eqn:Hnew; [reflexivity|].
    unfold has_key in Hold.
    destruct (lookup "borowed" d); [discriminate | reflexivity].
Qed.

(** On anything else the body either raises or changes nothing. *)
Lemma normalize_member_other m m' :
  normalize_member m = Py.Ok m' ->
  (exists d, m = JDict d) \/ (m' = m /\ py_in "borrowed" m = Py.Ok true).
Proof.
  destruct m as [| b | n | s | l | d]; try discriminate; [| |now left; eexists].
  - intro H. right. unfold normalize_member in H. cbn [py_in Py.bind] in H.
    destruct (contains "borowed" s) eqn:H1; cbn [py_in Py.bind negb] in H;
      destruct (contains "borrowed" s) eqn:H2;
      cbn [py_in py_pop py_setitem Py.bind negb] in H;
      try rewrite H2 in H; try discriminate;
      inversion H; subst; cbn [py_in]; now rewrite H2.
  - intro H. right. unfold normalize_member in H. cbn [py_in Py.bind] in H.
    destruct (existsb (is_str "borowed") l) eqn:H1; cbn [py_in Py.bind negb] in H;
      destruct (existsb (is_str "borrowed") l) eqn:H2;
      cbn [py_in py_pop py_setitem Py.bind negb] in H;
      try rewrite H2 in H; try discriminate;
      inversion H; subst; cbn [py_in]; now rewrite H2.
Qed.

Lemma normalize_member_has_borrowed m m' :
  normalize_member m = Py.Ok m' -> py_in "borrowed" m' = Py.Ok true.
Proof.
  intro H. destruct (normalize_member_other m m' H) as [(d & ->) | [-> Hin]]; auto.
  rewrite normalize_member_dict in H. inversion H; subst m'; clear H.
  cbn. f_equal. unfold spec_normalize_dict, has_key.
  destruct (lookup "borrowed" d) eqn:Hnew; [now rewrite Hnew|].
  destruct (lookup "borowed" d); now rewrite lookup_set_same.
Qed.

Lemma normalize_all_nth l : forall l',
  normalize_all l = Py.Ok l' ->
  Forall2 (fun m m' => normalize_member m = Py.Ok m') l l'.
Proof.
  induction l as [|m l IH]; cbn; intros l' H.
  - inversion H; constructor.
  - unfold Py.bind in H.
    destruct (normalize_member m) as [m'|] eqn:Hm; [|discriminate].
    destruct (normalize_all l) as [r'|]; [|discriminate].
    inversion H; subst. constructor; auto.
Qed.

End DictFacts.

Section LoadFacts.

Import Json.

Lemma Forall2_nth_error {A B} (R : A -> B -> Prop) (l : list A) (l' : list B) :
  Forall2 R l l' ->
  forall k x, nth_error l k = Some x -> exists y, nth_error l' k = Some y /\ R x y.
Proof.
  induction 1 as [|a b l l' Hab _ IH]; intros k x Hk.
  - destruct k; discriminate.
  - destruct k as [|k]; cbn in *.
    + inversion Hk; subst; eauto.
    + now apply IH.
Qed.

Lemma Forall2_in_r {A B} (R : A -> B -> Prop) (l : list A) (l' : list B) :
  Forall2 R l l' -> forall y, In y l' -> exists x, In x l /\ R x y.
Proof.
  induction 1 as [|a b l l' Hab _ IH]; intros y Hy; [contradiction|].
  destruct Hy as [<-|Hy].
  - exists a; split; [now left | assumption].
  - destruct (IH y Hy) as (x & Hx & Hr). exists x; split; [now right | assumption].
Qed.

(** The keys of a dictionary and the characters of a string are strings. *)
Lemma py_iter_strings (x : value) (items : list value) :
  (forall l, x <> JList l) -> py_iter x = Py.Ok items ->
  forall m, In m items -> exists s, m = JStr s.
Proof.
  intros Hx Hit m Hm.
  destruct x as [| b | n | s | l | d]; try discriminate.
  - cbn in Hit. inversion Hit; subst. apply in_map_iff in Hm.
    destruct Hm as (c & <- & _). eauto.
  - exfalso; now apply (Hx l).
  - cbn in Hit. inversion Hit; subst. apply in_map_iff in Hm.
    destruct Hm as (kv & <- & _). eauto.
Qed.

Lemma normalize_all_strings (items items' : list value) :
  (forall m, In m items -> exists s, m = JStr s) ->
  normalize_all items = Py.Ok items' ->
  forall m, In m items -> py_in "borrowed" m = Py.Ok true.
Proof.
  intros Hstr Hall m Hm.
  apply normalize_all_nth in Hall.
  destruct (In_nth_error _ _ Hm) as (k & Hk).
  destruct (Forall2_nth_error _ _ _ Hall k m Hk) as (m' & _ & Hn).
  destruct (normalize_member_other m m' Hn) as [(d & ->) | [_ Hin]]; [|exact Hin].
  destruct (Hstr _ Hm) as (s & Hs); discriminate.
Qed.

(** What the loop of [load_data] achieves. *)
Lemma normalize_members (data data' : value) :
  normalize data = Py.Ok data' ->
  (forall m, In m (members_of data') -> py_in "borrowed" m = Py.Ok true)
  /\ (forall k d, nth_error (members_of data) k = Some (JDict d) ->
        nth_error (members_of data') k = Some (JDict (spec_normalize_dict d))).
Proof.
  destruct data as [| b | n | s | l | d0]; try discriminate.
  unfold normalize.
  destruct (lookup "members" d0) as [x|] eqn:Hlk.
  2:{ intros [= <-]. cbn [members_of]. rewrite Hlk. split.
      - intros m [].
      - intros k d Hk; destruct k; discriminate. }
  assert (Hother :
    forall items, (forall l, x <> JList l) -> py_iter x = Py.Ok items ->
      (items' <- normalize_all items ;; Py.Ok (JDict d0)) = Py.Ok data' ->
      (forall m, In m (members_of data') -> py_in "borrowed" m = Py.Ok true)
      /\ (forall k d, nth_error (members_of (JDict d0)) k = Some (JDict d) ->
            nth_error (members_of data') k = Some (JDict (spec_normalize_dict d)))).
  { intros items Hx Hit H. unfold Py.bind in H.
    destruct (normalize_all items) as [items'|] eqn:Hall; [|discriminate].
    inversion H; subst data'; clear H.
    cbn [members_of]. rewrite Hlk, Hit.
    pose proof (py_iter_strings x items Hx Hit) as Hstr. split.
    - now apply (normalize_all_strings items items').
    - intros k d Hk. apply nth_error_In in Hk.
      destruct (Hstr _ Hk) as (s & Hs); discriminate. }
  destruct x as [| b | n | s | l | d1];
    try (cbn [py_iter Py.bind]; discriminate).
  - apply (Hother _ ltac:(discriminate) eq_refl).
  - unfold Py.bind.
    destruct (normalize_all l) as [l'|] eqn:Hall; [|discriminate].
    intros [= <-]. apply normalize_all_nth in Hall.
    cbn [members_of]. rewrite Hlk, lookup_set_same. cbn [py_iter]. split.
    + intros m' Hm'.
      destruct (Forall2_in_r _ _ _ Hall m' Hm') as (m & _ & Hn).
      now apply (normalize_member_has_borrowed m).
    + intros k d Hk.
      destruct (Forall2_nth_error _ _ _ Hall k _ Hk) as (m' & Hk' & Hn).
      rewrite normalize_member_dict in Hn. inversion Hn; subst m'. exact Hk'.
  - apply (Hother _ ltac:(discriminate) eq_refl).
Qed.

(** The three cases of the normalisation, field by field. *)
Lemma spec_normalize_dict_cases (d : list (string * value)) :
  (has_key "borrowed" d = true -> spec_normalize_dict d = d)
  /\ (has_key "borrowed" d = false ->
      forall v, lookup "borowed" d = Some v ->
        lookup "borrowed" (spec_normalize_dict d) = Some v
        /\ lookup "borowed" (spec_normalize_dict d) = None
        /\ forall key, key <> "borrowed" -> key <> "borowed" ->
             lookup key (spec_normalize_dict d) = lookup key d)
  /\ (has_key "borrowed" d = false -> lookup "borowed" d = None ->
      lookup "borrowed" (spec_normalize_dict d) = Some (JList [])
      /\ forall key, key <> "borrowed" ->
           lookup key (spec_normalize_dict d) = lookup key d).
Proof.
  unfold spec_normalize_dict. split; [|split].
  - now intros ->.
  - intros -> v ->. split; [apply lookup_set_same|]. split.
    + rewrite lookup_set_other by discriminate. apply lookup_remove_same.
    + intros key H1 H2. rewrite lookup_set_other by congruence.
      apply lookup_remove_other; congruence.
  - intros -> ->. split; [apply lookup_set_same|].
    intros key H1. apply lookup_set_other; congruence.
Qed.

End LoadFacts.

(** ** The reference reader reads what the reference writer writes *)

Section RefJsonFacts.
Import Json RefJson.

Lemma skip_ws_spaces (n : nat) (s : string) :
  skip_ws (string_of_list_ascii (repeat " "%char n) +++ s) = skip_ws s.
Proof. induction n as [|n IH]; cbn; [reflexivity | exact IH]. Qed.

Lemma skip_ws_nl (lvl : nat) (s : string) : skip_ws (nl lvl +++ s) = skip_ws s.
Proof. unfold nl. cbn [String.append skip_ws]. cbn [is_ws]. apply skip_ws_spaces. Qed.

Lemma escape_read (c : ascii) (tail t rest : string) :
  read_string tail = Some (t, rest) ->
  read_string (escape c +++ tail) = Some (String c t, rest).
Proof.
  intro H.
  destruct c as [b0 b1 b2 b3 b4 b5 b6 b7].
  destruct b0, b1, b2, b3, b4, b5, b6, b7;
    cbv -[read_string]; cbn [read_string]; cbv -[read_string];
    rewrite H; reflexivity.
Qed.

Lemma read_string_quote (s rest : string) :
  read_string (escape_all s +++ String "034" rest) = Some (s, rest).
Proof.
  induction s as [|c s IH]; cbn [escape_all String.append].
  - reflexivity.
  - rewrite append_assoc. now apply escape_read.
Qed.

Lemma read_digits_stop (acc : Z) (rest : string) :
  no_digit_ahead rest -> read_digits acc rest = (acc, rest).
Proof. destruct rest as [|c r]; cbn; [reflexivity | now intros ->]. Qed.

Lemma read_digits_uint (d : Decimal.uint) : forall (acc : positive) (rest : string),
  no_digit_ahead rest ->
  read_digits (Zpos acc) (NilEmpty.string_of_uint d +++ rest)
  = (Zpos (Pos.of_uint_acc d acc), rest).
Proof.
  induction d as [|d IH|d IH|d IH|d IH|d IH|d IH|d IH|d IH|d IH|d IH];
    intros acc rest Hrest;
    cbn [NilEmpty.string_of_uint String.append Pos.of_uint_acc];
    [now apply read_digits_stop | ..];
    cbn [read_digits];
    match goal with
    | |- context [Py.is_digit ?c] => change (Py.is_digit c) with true
    end; cbn iota;
    match goal with
    | |- context [Py.digit_val ?c] =>
        let v := eval vm_compute in (Py.digit_val c) in
        change (Py.digit_val c) with v
    end;
    match goal with
    | |- read_digits ?z _ = (Zpos (Pos.of_uint_acc _ ?a), _) =>
        replace z with (Zpos a) by lia
    end; now apply IH.
Qed.

Lemma to_uint_head (p : positive) :
  match Pos.to_uint p with
  | Decimal.Nil | Decimal.D0 _ => False
  | _ => True
  end.
Proof.
  assert (Hn : Decimal.unorm (Pos.to_uint p) = Pos.to_uint p).
  { rewrite <- (DecimalPos.Unsigned.to_of (Pos.to_uint p)).
    now rewrite DecimalPos.Unsigned.of_to. }
  pose proof (DecimalPos.Unsigned.to_uint_nonzero p) as Hz.
  pose proof (DecimalPos.Unsigned.to_uint_nonnil p) as Hnil.
  destruct (Pos.to_uint p) as [|u|u|u|u|u|u|u|u|u|u]; try exact I; [congruence|].
  unfold Decimal.unorm in Hn. cbn [Decimal.nzhead] in Hn.
  pose proof (DecimalFacts.nb_digits_nzhead u) as Hlen.
  destruct (Decimal.nzhead u) eqn:Hu.
  - apply Hz. now symmetry.
  - apply (f_equal Decimal.nb_digits) in Hn. cbn in Hn, Hlen. lia.
  - discriminate.
  - discriminate.
  - discriminate.
  - discriminate.
  - discriminate.
  - discriminate.
  - discriminate.
  - discriminate.
  - discriminate.
Qed.

Lemma read_nat_pos (p : positive) (rest : string) :
  no_digit_ahead rest ->
  read_nat (NilEmpty.string_of_uint (Pos.to_uint p) +++ rest) = Some (Zpos p, rest).
Proof.
  intro Hrest.
  pose proof (to_uint_head p) as Hh.
  pose proof (DecimalPos.Unsigned.of_to p) as Hof.
  destruct (Pos.to_uint p) as [|u|u|u|u|u|u|u|u|u|u]; try contradiction;
    cbn [Pos.of_uint] in Hof; injection Hof as Hof;
    cbn [NilEmpty.string_of_uint String.append];
    unfold read_nat;
    match goal with
    | |- context [Py.is_digit ?c] => change (Py.is_digit c) with true
    end; cbn iota; cbn [read_digits];
    match goal with
    | |- context [Py.is_digit ?c] => change (Py.is_digit c) with true
    end; cbn iota;
    match goal with
    | |- context [Py.digit_val ?c] =>
        let v := eval vm_compute in (Py.digit_val c) in
        change (Py.digit_val c) with v
    end; cbn [Z.mul Z.add];
    rewrite read_digits_uint by assumption; now rewrite Hof.
Qed.

Lemma read_int_str (n : Z) (rest : string) :
  no_digit_ahead rest -> read_int (Py.str n +++ rest) = Some (n, rest).
Proof.
  intro Hrest. unfold Py.str.
  destruct n as [|p|p]; cbn [Z.to_int].
  - reflexivity.
  - unfold NilZero.string_of_int, NilZero.string_of_uint.
    pose proof (to_uint_head p) as Hh.
    pose proof (read_nat_pos p rest Hrest) as Hr.
    destruct (Pos.to_uint p) as [|u|u|u|u|u|u|u|u|u|u]; try contradiction;
      exact Hr.
  - unfold NilZero.string_of_int, NilZero.string_of_uint.
    pose proof (to_uint_head p) as Hh.
    pose proof (read_nat_pos p rest Hrest) as Hr.
    destruct (Pos.to_uint p) as [|u|u|u|u|u|u|u|u|u|u]; try contradiction;
      cbn [String.append read_int]; rewrite Hr; reflexivity.
Qed.

Lemma string_length_app (a b : string) :
  String.length (a +++ b) = String.length a + String.length b.
Proof. induction a as [|c a IH]; cbn; [reflexivity | now rewrite IH]. Qed.

Lemma skip_ws_head (c : ascii) (s : string) :
  is_ws c = false -> skip_ws (String c s) = String c s.
Proof. intro H; cbn [skip_ws]; now rewrite H. Qed.

Lemma read_value_nl (fuel lvl : nat) (s : string) :
  read_value fuel (nl lvl +++ s) = read_value fuel s.
Proof. destruct fuel; [reflexivity|]. cbn [read_value]. now rewrite skip_ws_nl. Qed.

Lemma read_value_ws (fuel : nat) (c : ascii) (s : string) :
  is_ws c = true -> read_value fuel (String c s) = read_value fuel s.
Proof.
  intro H. destruct fuel; [reflexivity|]. cbn [read_value skip_ws]. now rewrite H.
Qed.

Lemma read_elems_nl (fuel lvl : nat) (s : string) :
  read_elems fuel (nl lvl +++ s) = read_elems fuel s.
Proof. destruct fuel; [reflexivity|]. cbn [read_elems]. now rewrite read_value_nl. Qed.

Lemma read_items_nl (fuel lvl : nat) (s : string) :
  read_items fuel (nl lvl +++ s) = read_items fuel s.
Proof. destruct fuel; [reflexivity|]. cbn [read_items]. now rewrite skip_ws_nl. Qed.

(** A numeral starts with a digit or a minus sign, and such a text is read
    as a number. *)
Lemma str_head (n : Z) :
  exists c s, Py.str n = String c s /\ (Py.is_digit c || Ascii.eqb c "-") = true.
Proof.
  unfold Py.str. destruct n as [|p|p]; cbn [Z.to_int].
  - eexists _, _; split; reflexivity.
  - unfold NilZero.string_of_int, NilZero.string_of_uint.
    pose proof (to_uint_head p) as Hh.
    destruct (Pos.to_uint p) as [|u|u|u|u|u|u|u|u|u|u]; try contradiction;
      eexists _, _; split; reflexivity.
  - eexists _, _; split; reflexivity.
Qed.

Lemma read_value_number (fuel : nat) (c : ascii) (s : string) :
  (Py.is_digit c || Ascii.eqb c "-") = true ->
  read_value (S fuel) (String c s)
  = option_map (fun p => (JInt (fst p), snd p)) (read_int (String c s)).
Proof.
  intro H.
  destruct c as [b0 b1 b2 b3 b4 b5 b6 b7].
  destruct b0, b1, b2, b3, b4, b5, b6, b7;
    vm_compute in H; try discriminate H;
    cbn [read_value]; rewrite skip_ws_head by reflexivity; reflexivity.
Qed.

Lemma read_value_int (fuel : nat) (n : Z) (rest : string) :
  no_digit_ahead rest ->
  read_value (S fuel) (Py.str n +++ rest) = Some (JInt n, rest).
Proof.
  intro Hrest.
  pose proof (read_int_str n rest Hrest) as Hr.
  destruct (str_head n) as (c & s & Hs & Hc).
  rewrite Hs in *. cbn [String.append] in *.
  rewrite (read_value_number fuel c _ Hc), Hr. reflexivity.
Qed.

Lemma dumps_head (v : value) (lvl : nat) :
  exists c s, dumps_at lvl v = String c s
              /\ is_ws c = false /\ Ascii.eqb c "]" = false.
Proof.
  destruct v as [| [|] | n | s | [|x l] | [|kv d]];
    try (eexists _, _; split; [reflexivity | split; reflexivity]).
  cbn [dumps_at].
  destruct (str_head n) as (c & s & -> & Hc).
  exists c, s. split; [reflexivity|].
  destruct c as [b0 b1 b2 b3 b4 b5 b6 b7].
  destruct b0, b1, b2, b3, b4, b5, b6, b7;
    vm_compute in Hc; try discriminate Hc; split; reflexivity.
Qed.

Lemma value_ind' (P : value -> Prop) :
  P JNull -> (forall b, P (JBool b)) -> (forall n, P (JInt n)) ->
  (forall s, P (JStr s)) ->
  (forall l, Forall P l -> P (JList l)) ->
  (forall d, Forall (fun kv => P (snd kv)) d -> P (JDict d)) ->
  forall v, P v.
Proof.
  intros HN HB HI HS HL HD.
  fix IH 1. intros [| b | n | s | l | d];
    [exact HN | apply HB | apply HI | apply HS | | ].
  - apply HL.
    exact ((fix go (l : list value) : Forall P l :=
              match l with
              | [] => Forall_nil _
              | x :: r => Forall_cons x (IH x) (go r)
              end) l).
  - apply HD.
    exact ((fix go (d : list (string * value))
              : Forall (fun kv => P (snd kv)) d :=
              match d with
              | [] => Forall_nil _
              | kv :: r => Forall_cons kv (IH (snd kv)) (go r)
              end) d).
Qed.

Lemma wf_list (l : list value) : wf (JList l) <-> Forall wf l.
Proof.
  induction l as [|x l IH]; cbn; split; auto.
  - intros [Hx Hl]. constructor; [exact Hx | now apply IH].
  - intro H. inversion H; subst. split; [assumption | now apply IH].
Qed.

Lemma wf_dict (d : list (string * value)) :
  wf (JDict d) <-> NoDup (map fst d) /\ Forall (fun kv => wf (snd kv)) d.
Proof.
  cbn [wf]. split; intros [Hnd H]; split; auto; clear Hnd.
  - induction d as [|[k x] d IH]; constructor; [apply H | apply IH, H].
  - induction d as [|[k x] d IH]; [exact I|].
    inversion H; subst. split; [assumption | now apply IH].
Qed.

Lemma dumps_at_list (lvl : nat) (x : value) (l : list value) :
  dumps_at lvl (JList (x :: l))
  = String "[" (nl (S lvl) +++ join (sep (S lvl)) (map (dumps_at (S lvl)) (x :: l))
                   +++ nl lvl +++ "]").
Proof. reflexivity. Qed.

Lemma dumps_at_dict (lvl : nat) (kv : string * value) (d : list (string * value)) :
  dumps_at lvl (JDict (kv :: d))
  = String "{" (nl (S lvl) +++ join (sep (S lvl)) (map (item lvl) (kv :: d))
                   +++ nl lvl +++ "}").
Proof. reflexivity. Qed.

Lemma join_cons (sp a : string) (l : list string) :
  join sp (a :: l) = a +++ match l with [] => EmptyString | _ => sp +++ join sp l end.
Proof. destruct l; cbn [join]; [now rewrite append_empty_r | reflexivity]. Qed.

Lemma quote_app (k tail : string) :
  quote k +++ tail = String "034" (escape_all k +++ String "034" tail).
Proof. unfold quote. cbn [String.append]. now rewrite append_assoc. Qed.

Lemma elems_read (lvl : nat) (l : list value) :
  l <> [] -> Forall reads_back l ->
  forall (fuel : nat) (rest : string),
    String.length (join (sep (S lvl)) (map (dumps_at (S lvl)) l)) < fuel ->
    read_elems fuel (join (sep (S lvl)) (map (dumps_at (S lvl)) l)
                       +++ nl lvl +++ String "]" rest)
    = Some (l, rest).
Proof.
  induction l as [|x l IH]; [congruence|]. intros _ Hall fuel rest Hfuel.
  inversion Hall as [|? ? Hx Hl]; subst.
  destruct fuel as [|f]; [lia|].
  cbn [map] in *. rewrite join_cons in *. rewrite string_length_app in Hfuel.
  rewrite append_assoc. cbn [read_elems].
  destruct l as [|y l']; cbn [map] in *.
  - cbn [String.append String.length] in *.
    rewrite (Hx (S lvl) f); [| lia | reflexivity].
    rewrite skip_ws_nl, skip_ws_head by reflexivity. reflexivity.
  - unfold sep at 1. rewrite !append_assoc. cbn [String.append].
    rewrite (Hx (S lvl) f); [| lia | reflexivity].
    rewrite skip_ws_head by reflexivity.
    rewrite read_elems_nl.
    rewrite IH; [reflexivity | discriminate | assumption |].
    unfold sep in Hfuel at 1. rewrite string_length_app in Hfuel.
    cbn [String.length String.append] in Hfuel. lia.
Qed.

Lemma items_read (lvl : nat) (d : list (string * value)) :
  d <> [] -> Forall (fun kv => reads_back (snd kv)) d ->
  forall (fuel : nat) (rest : string),
    String.length (join (sep (S lvl)) (map (item lvl) d)) < fuel ->
    read_items fuel (join (sep (S lvl)) (map (item lvl) d)
                       +++ nl lvl +++ String "}" rest)
    = Some (d, rest).
Proof.
  induction d as [|[k x] d IH]; [congruence|]. intros _ Hall fuel rest Hfuel.
  inversion Hall as [|? ? Hx Hd]; subst. cbn [snd] in Hx.
  destruct fuel as [|f]; [lia|].
  cbn [map] in *. rewrite join_cons in *. rewrite string_length_app in Hfuel.
  unfold item at 1 in Hfuel. unfold item at 1.
  rewrite !string_length_app in Hfuel.
  rewrite !append_assoc, quote_app. cbn [read_items].
  rewrite skip_ws_head by reflexivity.
  rewrite read_string_quote. cbn [String.append].
  rewrite skip_ws_head by reflexivity.
  rewrite read_value_ws by reflexivity.
  destruct d as [|kv' d']; cbn [map] in *.
  - cbn [String.append String.length] in *.
    rewrite (Hx (S lvl) f); [| lia | reflexivity].
    rewrite skip_ws_nl, skip_ws_head by reflexivity. reflexivity.
  - unfold sep at 1. rewrite !append_assoc. cbn [String.append].
    rewrite (Hx (S lvl) f); [| lia | reflexivity].
    rewrite skip_ws_head by reflexivity.
    rewrite read_items_nl.
    rewrite IH; [reflexivity | discriminate | assumption |].
    unfold sep in Hfuel at 1. rewrite string_length_app in Hfuel.
    cbn [String.length String.append] in Hfuel. lia.
Qed.

Lemma set_fresh (k : string) (v : value) (d : list (string * value)) :
  ~ In k (map fst d) -> set k v d = d ++ [(k, v)].
Proof.
  induction d as [|[k' v'] d IH]; cbn; intro H; [reflexivity|].
  destruct (String.eqb_spec k' k) as [->|_].
  - exfalso; apply H; now left.
  - rewrite IH; [reflexivity|]. intro; apply H; now right.
Qed.

Lemma fold_set_nodup (d : list (string * value)) : forall acc,
  NoDup (map fst acc ++ map fst d) ->
  fold_left (fun a kv => set (fst kv) (snd kv) a) d acc = acc ++ d.
Proof.
  induction d as [|[k v] d IH]; intros acc Hnd; cbn [fold_left fst snd].
  - now rewrite List.app_nil_r.
  - cbn [map fst] in Hnd.
    rewrite set_fresh.
    2:{ apply NoDup_remove_2 in Hnd. intro Hin; apply Hnd.
        apply in_or_app; now left. }
    rewrite IH.
    + now rewrite <- List.app_assoc.
    + rewrite map_app. cbn [map fst]. now rewrite <- List.app_assoc.
Qed.

Lemma skip_ws_join (sp : string) (lvl : nat) (x : value) (l : list value)
    (tail : string) :
  exists c r',
    skip_ws (join sp (map (dumps_at lvl) (x :: l)) +++ tail) = String c r'
    /\ Ascii.eqb c "]" = false.
Proof.
  destruct (dumps_head x lvl) as (c & s & Hs & Hws & Hc).
  cbn [map]. rewrite join_cons, Hs. cbn [String.append].
  rewrite skip_ws_head by assumption. eauto.
Qed.

Lemma skip_ws_items (sp : string) (lvl : nat) (k : string) (x : value)
    (d : list (string * value)) (tail : string) :
  exists r',
    skip_ws (join sp (map (item lvl) ((k, x) :: d)) +++ tail) = String "034" r'.
Proof.
  cbn [map]. rewrite join_cons. unfold item at 1.
  rewrite !append_assoc, quote_app.
  rewrite skip_ws_head by reflexivity. eauto.
Qed.

(** Every well-formed value is read back from the text written for it. *)
Lemma reads_back_all (v : value) : wf v -> reads_back v.
Proof.
  induction v as [| b | n | s | l IH | d IH] using value_ind'; intro Hwf;
    intros lvl fuel rest Hfuel Hrest.
  - destruct fuel as [|f]; [cbn in Hfuel; lia | reflexivity].
  - destruct fuel as [|f]; [destruct b; cbn in Hfuel; lia |].
    destruct b; reflexivity.
  - destruct fuel as [|f].
    + destruct (str_head n) as (c & s & Hs & _). cbn [dumps_at] in Hfuel.
      rewrite Hs in Hfuel. cbn in Hfuel. lia.
    + now apply read_value_int.
  - destruct fuel as [|f]; [cbn in Hfuel; lia|].
    cbn [dumps_at]. rewrite quote_app. cbn [read_value].
    rewrite skip_ws_head by reflexivity.
    now rewrite read_string_quote.
  - apply wf_list in Hwf.
    assert (Hall : Forall reads_back l).
    { rewrite Forall_forall in *. intros x Hx. apply IH; auto. }
    destruct l as [|x l].
    + destruct fuel as [|f]; [cbn in Hfuel; lia | reflexivity].
    + rewrite dumps_at_list in *.
      destruct fuel as [|f]; [cbn in Hfuel; lia|].
      cbn [String.length] in Hfuel. rewrite !string_length_app in Hfuel.
      cbn [String.length] in Hfuel.
      cbn [String.append]. rewrite !append_assoc. cbn [read_value String.append].
      rewrite skip_ws_head by reflexivity.
      rewrite skip_ws_nl.
      destruct (skip_ws_join (sep (S lvl)) (S lvl) x l (nl lvl +++ String "]" rest))
        as (c & r' & Hsk & Hc).
      rewrite Hsk, Hc.
      rewrite read_elems_nl.
      rewrite elems_read; [reflexivity | discriminate | assumption | lia].
  - apply wf_dict in Hwf. destruct Hwf as [Hnd Hwf].
    assert (Hall : Forall (fun kv => reads_back (snd kv)) d).
    { rewrite Forall_forall in *. intros x Hx. apply IH; auto. }
    destruct d as [|[k x] d].
    + destruct fuel as [|f]; [cbn in Hfuel; lia | reflexivity].
    + rewrite dumps_at_dict in *.
      destruct fuel as [|f]; [cbn in Hfuel; lia|].
      cbn [String.length] in Hfuel. rewrite !string_length_app in Hfuel.
      cbn [String.length] in Hfuel.
      cbn [String.append]. rewrite !append_assoc. cbn [read_value String.append].
      rewrite skip_ws_head by reflexivity.
      rewrite skip_ws_nl.
      destruct (skip_ws_items (sep (S lvl)) lvl k x d (nl lvl +++ String "}" rest))
        as (r' & Hsk).
      rewrite Hsk. change (Ascii.eqb "034" "}") with false. cbn iota.
      rewrite read_items_nl.
      rewrite items_read; [| discriminate | assumption | lia].
      cbn [option_map fst snd].
      rewrite (fold_set_nodup ((k, x) :: d) []); [reflexivity | exact Hnd].
Qed.


Lemma loads_dumps (v : value) : wf v -> loads (dumps v) = Some v.
Proof.
  intro Hwf. unfold loads, dumps.
  pose proof (reads_back_all v Hwf 0 (S (String.length (dumps_at 0 v))) EmptyString) as H.
  rewrite append_empty_r in H. rewrite H; [reflexivity | lia | exact I].
Qed.

Lemma last_char_app_r (a b : string) :
  b <> EmptyString -> last_char (a +++ b) = last_char b.
Proof.
  intro Hb. induction a as [|c a IH]; [reflexivity|].
  cbn [String.append last_char]. rewrite <- IH.
  destruct (a +++ b) as [|c' r] eqn:E; [|reflexivity].
  exfalso. destruct a as [|a0 a']; cbn in E; [now apply Hb | discriminate E].
Qed.

Lemma append_nonempty_r (a b : string) :
  b <> EmptyString -> a +++ b <> EmptyString.
Proof. intro Hb. destruct a; cbn; [exact Hb | discriminate]. Qed.

Lemma dumps_dict_braced (kv : string * value) (d : list (string * value)) :
  braced (dumps (JDict (kv :: d))) = true.
Proof.
  unfold dumps. rewrite dumps_at_dict. unfold braced.
  assert (H : last_char
                (String "{" (nl 1 +++ join (sep 1) (map (item 0) (kv :: d))
                               +++ nl 0 +++ "}")) = Some "}"%char).
  { change (String "{" ?x) with ("{" +++ x).
    rewrite !last_char_app_r; try reflexivity;
      repeat apply append_nonempty_r; discriminate. }
  rewrite H. reflexivity.
Qed.

Lemma wf_store (key : string) (st : store) :
  key = web_key \/ key = console_key -> wf (store_to_json key st).
Proof.
  intro Hkey. unfold store_to_json. apply wf_dict. split.
  - cbn. repeat constructor; cbn; intuition discriminate.
  - repeat constructor; cbn [snd]; apply wf_list; apply Forall_forall;
      intros v Hv; apply in_map_iff in Hv; destruct Hv as (y & <- & _).
    + unfold book_to_json. apply wf_dict. split.
      * cbn. repeat constructor; cbn; intuition discriminate.
      * repeat constructor.
    + unfold member_to_json. apply wf_dict. split.
      * destruct Hkey as [-> | ->]; cbn;
          repeat constructor; cbn; intuition discriminate.
      * repeat constructor; cbn [snd]. apply wf_list, Forall_forall.
        intros v Hv; apply in_map_iff in Hv; destruct Hv as (r & <- & _).
        unfold record_to_json. apply wf_dict. split.
        -- cbn. repeat constructor; cbn; intuition discriminate.
        -- repeat constructor.
Qed.

(** With the reference reader and writer the two hypotheses of the round
    trip hold for every store. *)
Lemma reference_codec_contract (key : string) (st : store) :
  key = web_key \/ key = console_key ->
  loads (dumps (store_to_json key st)) = Some (store_to_json key st)
  /\ braced (dumps (store_to_json key st)) = true.
Proof.
  intro Hkey. split.
  - apply loads_dumps. now apply wf_store.
  - unfold store_to_json. apply dumps_dict_braced.
Qed.
End RefJsonFacts.

Section Loaders.

Import Json.

Variable json_loads : string -> option value.
Variable json_dumps : value -> string.

(** C6, as amended.  When [load_data] of the web front end returns a state,
    ["borrowed" in m] holds for every member [m] of it; a member dictionary
    that had ["borowed"] and not ["borrowed"] now has the old value under
    ["borrowed"], no ["borowed"] and its other fields as before; a member
    dictionary that had neither has an empty list under ["borrowed"] and its
    other fields as before; a member that had ["borrowed"] is as it was. *)
Theorem load_data_normalizes (f : file) (data : value) :
  fst (load_data json_loads json_dumps f) = Py.Ok data ->
  (forall m, In m (members_of data) -> py_in "borrowed" m = Py.Ok true)
  /\
  (forall k d,
      nth_error (members_of (fst (read_data json_loads json_dumps f))) k
      = Some (JDict d) ->
      exists d',
        nth_error (members_of data) k = Some (JDict d')
        /\ (has_key "borrowed" d = true -> d' = d)
        /\ (has_key "borrowed" d = false ->
            forall v, lookup "borowed" d = Some v ->
              lookup "borrowed" d' = Some v
              /\ lookup "borowed" d' = None
              /\ forall key, key <> "borrowed" -> key <> "borowed" ->
                   lookup key d' = lookup key d)
        /\ (has_key "borrowed" d = false -> lookup "borowed" d = None ->
            lookup "borrowed" d' = Some (JList [])
            /\ forall key, key <> "borrowed" -> lookup key d' = lookup key d)).
Proof.
  unfold load_data.
  destruct (read_data json_loads json_dumps f) as [raw f']; cbn [fst].
  intro H. destruct (normalize_members raw data H) as [Hall Hnth].
  split; [exact Hall|].
  intros k d Hk. exists (spec_normalize_dict d).
  split; [now apply Hnth|]. apply spec_normalize_dict_cases.
Qed.

(** C7 for the two loaders.  On a file whose text, once stripped, is not
    empty and is rejected by [json.loads], [load_data] of the web front end
    returns the empty default state and leaves the file alone, whereas the
    class body of the console lets the [JSONDecodeError] escape. *)
Theorem load_of_invalid_text (text : string) :
  nonempty (Py.strip text) = true ->
  json_loads (Py.strip text) = None ->
  load_data json_loads json_dumps (Some text) = (Py.Ok default, Some text)
  /\ class_body_load json_loads json_dumps (Some text)
     = (Py.Raise Py.JSONDecodeError, Some text).
Proof.
  intros Hne Hbad.
  unfold load_data, read_data, class_body_load.
  rewrite Hne, Hbad. split; reflexivity.
Qed.

(** A blank or missing file is no error in either loader. *)
Lemma load_of_blank_text (text : string) :
  nonempty (Py.strip text) = false ->
  load_data json_loads json_dumps (Some text) = (Py.Ok default, Some text)
  /\ class_body_load json_loads json_dumps (Some text)
     = (Py.Ok default, Some text).
Proof.
  intros Hne. unfold load_data, read_data, class_body_load.
  rewrite Hne. split; reflexivity.
Qed.

Lemma normalize_all_persisted (ms : list Member) :
  normalize_all (map (member_to_json web_key) ms)
  = Py.Ok (map (member_to_json web_key) ms).
Proof.
  induction ms as [|m ms IH]; [reflexivity|].
  cbn [map normalize_all].
  unfold member_to_json at 1. rewrite normalize_member_dict.
  cbn [Py.bind]. rewrite IH. reflexivity.
Qed.

Lemma normalize_persisted (st : store) :
  normalize (store_to_json web_key st) = Py.Ok (store_to_json web_key st).
Proof.
  unfold store_to_json, normalize.
  cbn [lookup String.eqb Ascii.eqb Bool.eqb].
  rewrite normalize_all_persisted. reflexivity.
Qed.

Lemma round_trip_web (st : store) :
  json_loads (json_dumps (store_to_json web_key st))
  = Some (store_to_json web_key st) ->
  braced (json_dumps (store_to_json web_key st)) = true ->
  load_data json_loads json_dumps
    (save_data json_dumps (store_to_json web_key st))
  = (Py.Ok (store_to_json web_key st),
     Some (json_dumps (store_to_json web_key st))).
Proof.
  intros Hrt Hbr; destruct (strip_braced _ Hbr) as [Hs Hne].
  unfold load_data, read_data, save_data. rewrite Hs, Hne, Hrt.
  now rewrite normalize_persisted.
Qed.

Lemma round_trip_console (st : store) :
  json_loads (json_dumps (store_to_json console_key st))
  = Some (store_to_json console_key st) ->
  braced (json_dumps (store_to_json console_key st)) = true ->
  class_body_load json_loads json_dumps
    (save_data json_dumps (store_to_json console_key st))
  = (Py.Ok (store_to_json console_key st),
     Some (json_dumps (store_to_json console_key st))).
Proof.
  intros Hrt Hbr; destruct (strip_braced _ Hbr) as [Hs Hne].
  unfold class_body_load, save_data. now rewrite Hs, Hne, Hrt.
Qed.

(** C10.  For a store of books and members, written by a front end as the
    dictionary it keeps ([stream.py] with ["borrowed"], [main.py] with
    ["borowed"]): if [json.loads] reads the text of [json.dumps] back as
    the same value and this text is in braces, then [save_data] followed by
    the loader of the same front end returns that dictionary, with every
    list in its order. *)
Theorem save_load_round_trip (st : store) :
  (json_loads (json_dumps (store_to_json web_key st))
   = Some (store_to_json web_key st) ->
   braced (json_dumps (store_to_json web_key st)) = true ->
   load_data json_loads json_dumps
     (save_data json_dumps (store_to_json web_key st))
   = (Py.Ok (store_to_json web_key st),
      Some (json_dumps (store_to_json web_key st))))
  /\
  (json_loads (json_dumps (store_to_json console_key st))
   = Some (store_to_json console_key st) ->
   braced (json_dumps (store_to_json console_key st)) = true ->
   class_body_load json_loads json_dumps
     (save_data json_dumps (store_to_json console_key st))
   = (Py.Ok (store_to_json console_key st),
      Some (json_dumps (store_to_json console_key st)))).
Proof.
  split; [apply round_trip_web | apply round_trip_console].
Qed.

End Loaders.

(** With the reference reader and writer, whose contract is proved above,
    the round trip holds for every store without any assumption. *)
Lemma round_trip_reference (st : store) :
  Json.load_data RefJson.loads RefJson.dumps
    (Json.save_data RefJson.dumps (Json.store_to_json Json.web_key st))
  = (Py.Ok (Json.store_to_json Json.web_key st),
     Some (RefJson.dumps (Json.store_to_json Json.web_key st)))
  /\ Json.class_body_load RefJson.loads RefJson.dumps
       (Json.save_data RefJson.dumps (Json.store_to_json Json.console_key st))
     = (Py.Ok (Json.store_to_json Json.console_key st),
        Some (RefJson.dumps (Json.store_to_json Json.console_key st))).
Proof.
  split.
  - destruct (reference_codec_contract Json.web_key st (or_introl eq_refl)).
    now apply round_trip_web.
  - destruct (reference_codec_contract Json.console_key st (or_intror eq_refl)).
    now apply round_trip_console.
Qed.

(** The file the console writes for the store [Example.c3], read by the web
    front end: the member's list moves from ["borowed"] to ["borrowed"]. *)
Lemma load_data_normalizes_witness :
  Json.py_in "borrowed"
    (Json.member_to_json Json.web_key
       (mkMember "M-AAAAA" "Ann" "ann@example.org"
          [mkRecord "B-AAAAA" "Dune" "2024-01-02 09:00:00"]))
  = Py.Ok true.
Proof.
  refine (proj1 (load_data_normalizes RefJson.loads RefJson.dumps
            (Some (RefJson.dumps (Json.store_to_json Json.console_key Example.c3)))
            (Json.store_to_json Json.web_key Example.c3) _) _ _).
  - vm_compute. reflexivity.
  - left. reflexivity.
Defined.

(** C6 as stated fails for the console: its class body takes the parsed
    value as it is, so the member written by [add_member] under
    ["borowed"] has no ["borrowed"] after loading. *)
Lemma class_body_load_keeps_borowed :
  fst (Json.class_body_load RefJson.loads RefJson.dumps
         (Some (RefJson.dumps (Json.store_to_json Json.console_key Example.c3))))
  = Py.Ok (Json.store_to_json Json.console_key Example.c3)
  /\ exists m,
       In m (Json.members_of (Json.store_to_json Json.console_key Example.c3))
       /\ Json.py_in "borrowed" m = Py.Ok false
       /\ Json.py_in "borowed" m = Py.Ok true.
Proof.
  split; [vm_compute; reflexivity|].
  eexists; split; [left; reflexivity|]. split; vm_compute; reflexivity.
Qed.

(** The text of one opening brace. *)
Lemma load_of_invalid_text_witness :
  Json.load_data RefJson.loads RefJson.dumps (Some "{")
  = (Py.Ok Json.default, Some "{")
  /\ Json.class_body_load RefJson.loads RefJson.dumps (Some "{")
     = (Py.Raise Py.JSONDecodeError, Some "{").
Proof.
  apply (load_of_invalid_text RefJson.loads RefJson.dumps "{"); reflexivity.
Defined.

(** The store [Example.w4] through the web front end and the store
    [Example.c3] through the console. *)
Lemma save_load_round_trip_witness :
  Json.load_data RefJson.loads RefJson.dumps
    (Json.save_data RefJson.dumps (Json.store_to_json Json.web_key Example.w4))
  = (Py.Ok (Json.store_to_json Json.web_key Example.w4),
     Some (RefJson.dumps (Json.store_to_json Json.web_key Example.w4)))
  /\ Json.class_body_load RefJson.loads RefJson.dumps
       (Json.save_data RefJson.dumps
          (Json.store_to_json Json.console_key Example.c3))
     = (Py.Ok (Json.store_to_json Json.console_key Example.c3),
        Some (RefJson.dumps (Json.store_to_json Json.console_key Example.c3))).
Proof.
  split.
  - apply (proj1 (save_load_round_trip RefJson.loads RefJson.dumps Example.w4));
      vm_compute; reflexivity.
  - apply (proj2 (save_load_round_trip RefJson.loads RefJson.dumps Example.c3));
      vm_compute; reflexivity.
Defined.

(** * Further properties of the code *)

(** ** What no operation touches *)

Section Kept.

Lemma extends_refl {A} (l : list A) : extends l l.
Proof. exists []; split; [now rewrite app_nil_r | cbn; lia]. Qed.

Lemma extends_one {A B} (f : A -> B) (l : list A) (x : A) :
  extends (map f l) (map f (l ++ [x])).
Proof. exists [f x]; split; [now rewrite map_app | cbn; lia]. Qed.

Lemma map_update_first {A B} (card : A -> B) (p : A -> bool) (f : A -> A)
    (l : list A) :
  (forall x, card (f x) = card x) ->
  map card (Py.update_first p f l) = map card l.
Proof.
  intro Hf; induction l as [|x l IH]; cbn; [reflexivity|].
  destruct (p x); cbn; [now rewrite Hf | now rewrite IH].
Qed.

Lemma kept_after_step (st st' : store) :
  step st st' ->
  extends (map book_card (books st)) (map book_card (books st'))
  /\ extends (map member_card (members st)) (map member_card (members st')).
Proof.
  intros [b _ _ | m _
    | pre_b book post_b pre_m member post_m t now Hb Hm Ha
    | pre_m member post_m l1 sel l2 Hm Hl]; cbn [books members].
  - split; [apply extends_one | apply extends_refl].
  - split; [apply extends_refl | apply extends_one].
  - destruct Hb as (-> & _ & _). rewrite Hm, !map_app. cbn [map].
    split; apply extends_refl.
  - rewrite Hm, !map_app. cbn [map].
    rewrite (map_update_first book_card) by reflexivity.
    split; apply extends_refl.
Qed.

Lemma web_borrow_cards (st : store) (mo bo now : string) :
  map book_card (books (snd (Web.borrow mo bo now st)))
  = map book_card (books st)
  /\ map member_card (members (snd (Web.borrow mo bo now st)))
     = map member_card (members st).
Proof.
  unfold Web.borrow.
  destruct (Py.first _ (members st)); [|now split].
  destruct (Py.first _ (books st)); [|now split].
  cbn [snd books members].
  split; apply map_update_first; reflexivity.
Qed.

Lemma web_return_cards (st : store) (mo ch : string) :
  map book_card (books (snd (Web.return_book mo ch st)))
  = map book_card (books st)
  /\ map member_card (members (snd (Web.return_book mo ch st)))
     = map member_card (members st).
Proof.
  unfold Web.return_book.
  destruct (String.eqb mo EmptyString); [now split|].
  destruct (Py.first _ (members st)) as [m|]; [|now split].
  destruct (borrowed m); [now split|].
  destruct (Py.int _); [|now split].
  destruct (_ && _); [|now split].
  destruct (Py.pop _ _) as [[? ?]|]; [|now split].
  cbn [snd books members].
  split; apply map_update_first; reflexivity.
Qed.

(** X2.  No operation removes, reorders or rewrites a book or a member:
    after any console command the books and the members are those of before,
    in the same order and with the same id, title, author, total copies and
    time stamp (id, name and e-mail for a member), with at most one new
    entry at the end; the borrow and return handlers of the web page add
    none.  Only the available copies and the borrowed lists ever change. *)
Theorem records_are_kept (st : store) :
  (forall c,
      extends (map book_card (books st))
              (map book_card (books (snd (Console.exec c st))))
      /\ extends (map member_card (members st))
                 (map member_card (members (snd (Console.exec c st)))))
  /\
  (forall mo bo now,
      map book_card (books (snd (Web.borrow mo bo now st)))
      = map book_card (books st)
      /\ map member_card (members (snd (Web.borrow mo bo now st)))
         = map member_card (members st))
  /\
  (forall mo ch,
      map book_card (books (snd (Web.return_book mo ch st)))
      = map book_card (books st)
      /\ map member_card (members (snd (Web.return_book mo ch st)))
         = map member_card (members st)).
Proof.
  split; [|split].
  - intros [t a n g now | n e g | ml bl now | ml cl].
    + cbn [Console.exec]. unfold Console.add_book.
      destruct (Py.int n); cbn [snd books members].
      * split; [apply extends_one | apply extends_refl].
      * split; apply extends_refl.
    + destruct (console_exec_step (Console.AddMember n e g) st I) as [-> | H];
        [split; apply extends_refl | now apply kept_after_step].
    + destruct (console_exec_step (Console.Borrow ml bl now) st I) as [-> | H];
        [split; apply extends_refl | now apply kept_after_step].
    + destruct (console_exec_step (Console.ReturnBook ml cl) st I) as [-> | H];
        [split; apply extends_refl | now apply kept_after_step].
  - intros; apply web_borrow_cards.
  - intros; apply web_return_cards.
Qed.

End Kept.

(** ** Borrowing and giving back *)

Section BorrowReturn.

Lemma pop_last {A} (l : list A) (e : A) (i : Z) :
  i = Z.of_nat (List.length l) \/ i = (-1)%Z ->
  Py.pop i (l ++ [e]) = Some (e, l).
Proof.
  intro Hi. unfold Py.pop. rewrite length_app. cbn [List.length].
  set (len := Z.of_nat (List.length l + 1)).
  assert (Hj : (if (i <? 0)%Z then (i + len)%Z else i) = Z.of_nat (List.length l)).
  { destruct Hi as [-> | ->].
    - replace (Z.of_nat (List.length l) <? 0)%Z with false; [reflexivity|].
      symmetry; apply Z.ltb_ge; lia.
    - change ((-1 <? 0)%Z) with true. cbv iota. unfold len. lia. }
  rewrite Hj.
  replace ((Z.of_nat (List.length l) <? 0)%Z || (len <=? Z.of_nat (List.length l))%Z)
    with false.
  2:{ symmetry; apply orb_false_iff; split;
      [apply Z.ltb_ge | apply Z.leb_gt]; unfold len; lia. }
  rewrite Nat2Z.id.
  rewrite nth_error_app2 by lia. rewrite Nat.sub_diag. cbn [nth_error].
  f_equal. f_equal.
  replace (l ++ [e]) with (l ++ e :: []) by reflexivity.
  rewrite remove_nth_app. apply app_nil_r.
Qed.

Lemma set_available_back (book : Book) :
  give_back (set_available (available_copies book - 1) book) = book.
Proof.
  destruct book; unfold give_back, set_available; cbn. f_equal. lia.
Qed.

Lemma set_borrowed_back (member : Member) (l : list BorrowRecord) :
  set_borrowed (borrowed member) (set_borrowed l member) = member.
Proof. destruct member; reflexivity. Qed.

Lemma console_borrow_saved (ml bl now : string) (st st1 : store) :
  Console.borrow ml bl now st = (Saved, st1) ->
  exists pre_m member post_m pre_b book post_b,
    first_at (has_member_id (Py.strip ml)) (members st) pre_m member post_m
    /\ first_at (has_book_id bl) (books st) pre_b book post_b
    /\ (0 < available_copies book)%Z
    /\ st1 = mkStore
               (pre_b ++ set_available (available_copies book - 1) book :: post_b)
               (pre_m ++ set_borrowed
                           (borrowed member ++ [mkRecord bl (b_title book) now])
                           member :: post_m).
Proof.
  intro H.
  destruct (first_cases (has_member_id (Py.strip ml)) (members st))
    as [Hnm | (pre_m & member & post_m & Hm)].
  { rewrite console_borrow_no_member in H by assumption. discriminate. }
  destruct (first_cases (has_book_id bl) (books st))
    as [Hnb | (pre_b & book & post_b & Hb)].
  { rewrite (console_borrow_no_book now st ml bl _ _ _ Hm Hnb) in H. discriminate. }
  destruct (Z_le_gt_dec (available_copies book) 0) as [Hle|Hgt].
  { rewrite (console_borrow_out_of_stock now st ml bl _ _ _ _ _ _ Hm Hb Hle) in H.
    discriminate. }
  rewrite (console_borrow_ok now st ml bl _ _ _ _ _ _ Hm Hb) in H by lia.
  inversion H; subst st1.
  exists pre_m, member, post_m, pre_b, book, post_b. repeat split; try apply Hm; try apply Hb.
  lia.
Qed.

Lemma first_at_replace {A} (p : A -> bool) (l pre : list A) (x y : A) (post : list A) :
  first_at p l pre x post -> p y = true ->
  first_at p (pre ++ y :: post) pre y post.
Proof. intros (_ & Hpre & _) Hy. repeat split; auto. Qed.

(** X3.  On the console, a borrow that is saved is undone by returning
    the last entry of the member's list: the choice one above the number of
    books held before, or the choice 0.  The store is then exactly the store
    of before the borrow. *)
Theorem console_borrow_then_return (ml bl now choice_line : string)
    (st st1 : store) (k : Z) pre_m member post_m :
  Console.borrow ml bl now st = (Saved, st1) ->
  first_at (has_member_id (Py.strip ml)) (members st) pre_m member post_m ->
  Py.int choice_line = Some k ->
  (k = Z.of_nat (List.length (borrowed member)) + 1 \/ k = 0)%Z ->
  Console.return_book ml choice_line st1 = (Saved, st).
Proof.
  intros Hbor Hm Hint Hk.
  destruct (console_borrow_saved _ _ _ _ _ Hbor)
    as (pre_m' & member' & post_m' & pre_b & book & post_b & Hm' & Hb & Ha & ->).
  destruct (first_at_unique _ _ _ _ _ _ _ _ Hm Hm') as (<- & <- & <-). clear Hm'.
  set (e := mkRecord bl (b_title book) now).
  assert (Hm1 : first_at (has_member_id (Py.strip ml))
                  (pre_m ++ set_borrowed (borrowed member ++ [e]) member :: post_m)
                  pre_m (set_borrowed (borrowed member ++ [e]) member) post_m).
  { apply (first_at_replace _ _ _ _ _ _ Hm). apply Hm. }
  assert (Hb1 : first_at (has_book_id bl)
                  (pre_b ++ set_available (available_copies book - 1) book :: post_b)
                  pre_b (set_available (available_copies book - 1) book) post_b).
  { apply (first_at_replace _ _ _ _ _ _ Hb). apply Hb. }
  unfold Console.return_book, Console.try_select. cbn [members books].
  rewrite (first_at_filter _ _ _ _ _ Hm1). cbn [borrowed set_borrowed].
  destruct (borrowed member ++ [e]) as [|r0 rs] eqn:Hl.
  { now destruct (borrowed member). }
  rewrite <- Hl in Hm1 |- *. rewrite Hint.
  rewrite pop_last by (destruct Hk as [-> | ->]; [left | right]; lia).
  cbn [fst book_id e].
  rewrite (first_at_update _ _ _ _ _ _ Hm1), (first_at_update _ _ _ _ _ _ Hb1).
  cbv beta. fold (give_back (set_available (available_copies book - 1) book)).
  rewrite set_available_back, set_borrowed_back.
  destruct Hm as (Hms & _ & _), Hb as (Hbs & _ & _).
  rewrite <- Hms, <- Hbs. now destruct st.
Qed.

(** The borrow that leads from [Example.c2] to [Example.c3], undone. *)
Lemma console_borrow_then_return_witness :
  Console.return_book "M-AAAAA" "1" Example.c3 = (Saved, Example.c2).
Proof.
  apply (console_borrow_then_return "M-AAAAA" "B-AAAAA" "2024-01-02 09:00:00"
           "1" Example.c2 Example.c3 1 [] Example.ann []).
  - reflexivity.
  - split; [reflexivity | split; [constructor | reflexivity]].
  - reflexivity.
  - left. reflexivity.
Defined.

End BorrowReturn.

(** ** Numerals and labels *)

Section Numerals.

Lemma is_digit_not_space (c : ascii) :
  Py.is_digit c = true -> Py.is_c_space c = false.
Proof.
  unfold Py.is_digit, Py.is_c_space. intro H.
  apply andb_true_iff in H. destruct H as [H1 H2].
  apply Nat.leb_le in H1, H2.
  apply orb_false_iff; split.
  - apply andb_false_iff. right. apply Nat.leb_gt. lia.
  - apply Nat.eqb_neq. lia.
Qed.

Lemma uint_digits (d : Decimal.uint) :
  string_forall Py.is_digit (NilEmpty.string_of_uint d) = true.
Proof. induction d; cbn [NilEmpty.string_of_uint string_forall]; auto. Qed.

Lemma string_forall_impl (p q : ascii -> bool) (s : string) :
  (forall c, p c = true -> q c = true) ->
  string_forall p s = true -> string_forall q s = true.
Proof.
  intro H. induction s as [|c s IH]; cbn; [reflexivity|].
  intro Hs. apply andb_true_iff in Hs. destruct Hs as [Hc Hs].
  now rewrite (H c Hc), IH.
Qed.

Lemma rstrip_no_space (s : string) :
  string_forall (fun c => negb (Py.is_c_space c)) s = true -> Py.int_rstrip s = s.
Proof.
  induction s as [|c s IH]; [reflexivity|]. cbn [string_forall].
  intro H. apply andb_true_iff in H. destruct H as [Hc Hs].
  cbn [Py.int_rstrip]. rewrite (IH Hs).
  apply negb_true_iff in Hc. rewrite Hc. now destruct s.
Qed.

(** [int] skips nothing at the ends of a string without white space. *)
Lemma strip_no_space (s : string) :
  string_forall (fun c => negb (Py.is_c_space c)) s = true ->
  Py.int_rstrip (Py.int_lstrip s) = s.
Proof.
  intro H.
  assert (Hl : Py.int_lstrip s = s).
  { destruct s as [|c s]; [reflexivity|]. cbn [string_forall] in H.
    apply andb_true_iff in H. destruct H as [Hc _].
    apply negb_true_iff in Hc. cbn [Py.int_lstrip]. now rewrite Hc. }
  rewrite Hl. now apply rstrip_no_space.
Qed.

Lemma count_digits_all (s : string) :
  string_forall Py.is_digit s = true -> Py.count_digits s = String.length s.
Proof.
  induction s as [|c s IH]; [reflexivity|]. cbn [string_forall].
  intro H. apply andb_true_iff in H. destruct H as [Hc Hs].
  cbn [Py.count_digits String.length]. now rewrite Hc, (IH Hs).
Qed.

Lemma py_digits_uint (d : Decimal.uint) : forall acc : positive,
  Py.digits (Zpos acc) true (NilEmpty.string_of_uint d)
  = Some (Zpos (Pos.of_uint_acc d acc)).
Proof.
  induction d as [|d IH|d IH|d IH|d IH|d IH|d IH|d IH|d IH|d IH|d IH];
    intro acc; cbn [NilEmpty.string_of_uint Pos.of_uint_acc];
    [reflexivity | ..];
    cbn [Py.digits];
    match goal with
    | |- context [Py.is_digit ?c] => change (Py.is_digit c) with true
    end; cbn iota;
    match goal with
    | |- context [Py.digit_val ?c] =>
        let v := eval vm_compute in (Py.digit_val c) in
        change (Py.digit_val c) with v
    end;
    match goal with
    | |- Py.digits ?z _ _ = Some (Zpos (Pos.of_uint_acc _ ?a)) =>
        replace z with (Zpos a) by lia
    end; apply IH.
Qed.

(** [int(str(p))] is [p] for a positive [p] of at most 4300 digits. *)
Lemma py_int_str_pos (p : positive) :
  String.length (Py.str (Zpos p)) <= Py.max_str_digits ->
  Py.int (Py.str (Zpos p)) = Some (Zpos p).
Proof.
  unfold Py.int, Py.str. cbn [Z.to_int].
  unfold NilZero.string_of_int, NilZero.string_of_uint.
  pose proof (to_uint_head p) as Hh.
  pose proof (DecimalPos.Unsigned.of_to p) as Hof.
  pose proof (uint_digits (Pos.to_uint p)) as Hd.
  assert (Hs : Py.int_rstrip (Py.int_lstrip (NilEmpty.string_of_uint (Pos.to_uint p)))
               = NilEmpty.string_of_uint (Pos.to_uint p)).
  { apply strip_no_space. revert Hd. apply string_forall_impl.
    intros c Hc. now rewrite (is_digit_not_space c Hc). }
  pose proof (count_digits_all _ Hd) as Hcount.
  destruct (Pos.to_uint p) as [|u|u|u|u|u|u|u|u|u|u]; try contradiction;
    intro Hlen; rewrite Hs; cbn [Pos.of_uint] in Hof; injection Hof as Hof;
    cbn [NilEmpty.string_of_uint] in *; cbv iota; unfold Py.literal;
    rewrite Hcount;
    (replace (Py.max_str_digits <? _)%nat with false
       by (symmetry; apply Nat.ltb_ge; exact Hlen));
    cbn [Py.digits];
    match goal with
    | |- context [Py.is_digit ?c] => change (Py.is_digit c) with true
    end; cbn iota;
    match goal with
    | |- context [Py.digit_val ?c] =>
        let v := eval vm_compute in (Py.digit_val c) in
        change (Py.digit_val c) with v
    end; cbn [Z.mul Z.add];
    rewrite py_digits_uint; now rewrite Hof.
Qed.

Lemma prefix_app_self (a b : string) : String.prefix a (a +++ b) = true.
Proof.
  induction a as [|c a IH]; cbn; [now destruct b|].
  destruct (ascii_dec c c); [exact IH | congruence].
Qed.

(** [(a + sep + rest).split(sep)[0]] is [a] when the first character of
    [sep] does not occur in [a]. *)
Lemma split_head_app (c0 : ascii) (sep' a rest : string) :
  string_forall (fun c => negb (Ascii.eqb c c0)) a = true ->
  Py.split_head (String c0 sep') (a +++ String c0 (sep' +++ rest)) = a.
Proof.
  induction a as [|c a IH]; intro H.
  - cbn [String.append Py.split_head].
    change (String c0 (sep' +++ rest)) with (String c0 sep' +++ rest).
    now rewrite prefix_app_self.
  - cbn [string_forall] in H. apply andb_true_iff in H. destruct H as [Hc Ha].
    cbn [String.append Py.split_head].
    replace (String.prefix (String c0 sep') (String c (a +++ String c0 (sep' +++ rest))))
      with false.
    + now rewrite IH.
    + cbn [String.prefix].
      destruct (ascii_dec c0 c) as [<-|]; [|reflexivity].
      rewrite Ascii.eqb_refl in Hc. discriminate.
Qed.

End Numerals.

Section ReturnOptions.

Lemma is_digit_not_dot (c : ascii) :
  Py.is_digit c = true -> negb (Ascii.eqb c ".") = true.
Proof.
  intro H. destruct (Ascii.eqb_spec c ".") as [->|_]; [|reflexivity].
  vm_compute in H. discriminate.
Qed.

Lemma str_pos_digits (p : positive) :
  string_forall Py.is_digit (Py.str (Zpos p)) = true.
Proof.
  unfold Py.str. cbn [Z.to_int].
  unfold NilZero.string_of_int, NilZero.string_of_uint.
  pose proof (uint_digits (Pos.to_uint p)) as Hd.
  destruct (Pos.to_uint p); [reflexivity | exact Hd ..].
Qed.

(** The number the handler reads back from a label, as long as [int]
    accepts it. *)
Lemma return_label_number (i : nat) (r : BorrowRecord) :
  String.length (Py.str (Z.of_nat i + 1)) <= Py.max_str_digits ->
  Py.int (Py.split_head "." (Web.return_label i r)) = Some (Z.of_nat i + 1)%Z.
Proof.
  unfold Web.return_label.
  replace (Z.of_nat i + 1)%Z with (Zpos (Pos.of_succ_nat i)) by lia.
  intro Hlen.
  change (". " +++ ?x) with (String "." (EmptyString +++ (" " +++ x))).
  rewrite split_head_app.
  - now apply py_int_str_pos.
  - apply (string_forall_impl Py.is_digit); [apply is_digit_not_dot|].
    apply str_pos_digits.
Qed.

Lemma enumerate_labels_nth (l : list BorrowRecord) : forall (i k : nat),
  nth_error (Web.enumerate_labels i l) k
  = option_map (Web.return_label (i + k)) (nth_error l k).
Proof.
  induction l as [|b l IH]; intros i k; cbn [Web.enumerate_labels].
  - now destruct k.
  - destruct k as [|k]; cbn [nth_error option_map].
    + now rewrite Nat.add_0_r.
    + rewrite IH. now rewrite Nat.add_succ_r.
Qed.

Lemma web_return_nth (st : store) (member_option : string)
    pre_m member post_m (k : nat) (r : BorrowRecord) :
  member_option <> EmptyString ->
  first_at (has_member_id (Py.split_head Web.sep member_option)) (members st)
           pre_m member post_m ->
  nth_error (borrowed member) k = Some r ->
  String.length (Py.str (Z.of_nat k + 1)) <= Py.max_str_digits ->
  Web.return_book member_option (Web.return_label k r) st
  = (Saved,
     mkStore
       (Py.update_first (has_book_id (book_id r)) give_back (books st))
       (pre_m ++ set_borrowed (Py.remove_nth k (borrowed member)) member
              :: post_m)).
Proof.
  intros Hne Hm Hk Hdigits.
  assert (Hlen : k < List.length (borrowed member)).
  { apply nth_error_Some. congruence. }
  destruct (web_return_ok st member_option (Web.return_label k r)
              pre_m member post_m (Z.of_nat k + 1) Hne Hm
              (return_label_number k r Hdigits))
    as (l1 & sel & l2 & Hl & Hl1 & Hret); [lia|].
  assert (Hk1 : List.length l1 = k) by lia.
  rewrite Hl in Hk. rewrite nth_error_app2 in Hk by lia.
  rewrite Hk1, Nat.sub_diag in Hk. cbn in Hk. inversion Hk; subst sel.
  rewrite Hret, Hl. rewrite <- Hk1. now rewrite remove_nth_app.
Qed.

Lemma remove_nth_firstn_skipn {A} (k : nat) : forall l : list A,
  Py.remove_nth k l = firstn k l ++ skipn (S k) l.
Proof.
  induction k as [|k IH]; intros [|x l]; try reflexivity.
  cbn [Py.remove_nth firstn skipn app]. now rewrite IH.
Qed.

(** X4.  On the "Return Book" page the option shown at position [k] of the
    select box is the label of the member's [k]-th record, and choosing it
    removes exactly that record: the number the handler reads back from the
    label (the text before the first dot) is [k + 1], whatever the title,
    the book id and the time stamp contain, as long as that number has no
    more digits than [int] accepts.  The records before and after position
    [k] stay, in order; the member's id, name and e-mail stay; the first
    book with the record's id gets one more available copy and keeps its
    other fields; the other books and members stay; the change is saved. *)
Theorem web_return_selected (st : store) (member_option : string)
    pre_m member post_m (k : nat) (r : BorrowRecord) :
  member_option <> EmptyString ->
  first_at (has_member_id (Py.split_head Web.sep member_option)) (members st)
           pre_m member post_m ->
  nth_error (borrowed member) k = Some r ->
  String.length (Py.str (Z.of_nat k + 1)) <= Py.max_str_digits ->
  nth_error (Web.return_options member) k = Some (Web.return_label k r)
  /\ Py.int (Py.split_head "." (Web.return_label k r)) = Some (Z.of_nat k + 1)%Z
  /\ Web.return_book member_option (Web.return_label k r) st
     = (Saved,
        mkStore
          (Py.update_first (has_book_id (book_id r))
             (fun bk => mkBook (b_id bk) (b_title bk) (b_author bk)
                               (total_copies bk) (available_copies bk + 1)
                               (added_on bk))
             (books st))
          (pre_m ++ mkMember (m_id member) (m_name member) (m_email member)
                             (firstn k (borrowed member)
                                ++ skipn (S k) (borrowed member))
                 :: post_m))
  /\ (forall pre_b book post_b,
         first_at (has_book_id (book_id r)) (books st) pre_b book post_b ->
         books (snd (Web.return_book member_option (Web.return_label k r) st))
         = pre_b ++ mkBook (b_id book) (b_title book) (b_author book)
                           (total_copies book) (available_copies book + 1)
                           (added_on book)
                 :: post_b)
  /\ (none_of (has_book_id (book_id r)) (books st) ->
      books (snd (Web.return_book member_option (Web.return_label k r) st))
      = books st).
Proof.
  intros Hne Hm Hk Hdigits.
  pose proof (web_return_nth st member_option pre_m member post_m k r
                Hne Hm Hk Hdigits) as Hret.
  split; [|split; [|split; [|split]]].
  - unfold Web.return_options. rewrite enumerate_labels_nth, Hk. reflexivity.
  - now apply return_label_number.
  - rewrite Hret, remove_nth_firstn_skipn. reflexivity.
  - intros pre_b book post_b Hb. rewrite Hret. cbn [snd books].
    now rewrite (first_at_update _ _ _ _ _ _ Hb).
  - intro Hnone. rewrite Hret. cbn [snd books]. now apply none_of_update.
Qed.

(** The member of [Example.s5] holds two records and two books share the
    id they name.  The second option removes the second record and keeps
    the first; the first of the two books goes from no available copy to
    one, the second book stays. *)
Lemma web_return_selected_witness :
  nth_error
    (Web.return_options
       (mkMember "M-AAAAA" "Ann" "ann@example.org"
          [mkRecord "B-AAAAA" "Dune" "2024-01-02 09:00:00";
           mkRecord "B-AAAAA" "Dune" "2024-01-02 09:30:00"])) 1
  = Some (Web.return_label 1 (mkRecord "B-AAAAA" "Dune" "2024-01-02 09:30:00"))
  /\ Py.int (Py.split_head "."
               (Web.return_label 1
                  (mkRecord "B-AAAAA" "Dune" "2024-01-02 09:30:00")))
     = Some 2%Z
  /\ Web.return_book (Web.member_label Example.ann)
       (Web.return_label 1 (mkRecord "B-AAAAA" "Dune" "2024-01-02 09:30:00"))
       Example.s5
     = (Saved,
        mkStore
          [mkBook "B-AAAAA" "Dune" "Herbert" 1 1 "2024-01-01 10:00:00";
           mkBook "B-AAAAA" "Emma" "Austen" 1 1 "2024-01-01 10:05:00"]
          [mkMember "M-AAAAA" "Ann" "ann@example.org"
             [mkRecord "B-AAAAA" "Dune" "2024-01-02 09:00:00"]]).
Proof.
  destruct (web_return_selected Example.s5 (Web.member_label Example.ann) []
              (mkMember "M-AAAAA" "Ann" "ann@example.org"
                 [mkRecord "B-AAAAA" "Dune" "2024-01-02 09:00:00";
                  mkRecord "B-AAAAA" "Dune" "2024-01-02 09:30:00"]) [] 1
              (mkRecord "B-AAAAA" "Dune" "2024-01-02 09:30:00"))
    as (Hopt & Hint & Hret & _).
  - discriminate.
  - split; [reflexivity | split; [constructor | reflexivity]].
  - reflexivity.
  - vm_compute. lia.
  - split; [exact Hopt | split; [exact Hint | exact Hret]].
Defined.

End ReturnOptions.

Section WebBorrowReturn.

Lemma remove_nth_last {A} (l : list A) (e : A) :
  Py.remove_nth (List.length l) (l ++ [e]) = l.
Proof.
  replace (l ++ [e]) with (l ++ e :: []) by reflexivity.
  rewrite remove_nth_app. apply app_nil_r.
Qed.

(** X5.  On the web page, a borrow of a book that has a copy left is
    undone by choosing the last option of the "Return Book" page for the
    same member: the store is then exactly the store of before the
    borrow.  The number of that option must be one that [int] reads back:
    at most 4300 digits. *)
Theorem web_borrow_then_return (member_option book_option now : string)
    (st : store) pre_m member post_m pre_b book post_b :
  member_option <> EmptyString ->
  first_at (has_member_id (Py.split_head Web.sep member_option)) (members st)
           pre_m member post_m ->
  first_at (has_book_id (Py.split_head Web.sep book_option)) (books st)
           pre_b book post_b ->
  (0 < available_copies book)%Z ->
  String.length (Py.str (Z.of_nat (List.length (borrowed member)) + 1))
  <= Py.max_str_digits ->
  Web.return_book member_option
    (Web.return_label (List.length (borrowed member))
       (mkRecord (Py.split_head Web.sep book_option) (b_title book) now))
    (snd (Web.borrow member_option book_option now st))
  = (Saved, st).
Proof.
  intros Hne Hm Hb Ha Hdigits.
  rewrite (web_borrow_ok now st _ _ _ _ _ _ _ _ Hm Hb Ha). cbn [snd].
  set (e := mkRecord (Py.split_head Web.sep book_option) (b_title book) now).
  set (member' := set_borrowed (borrowed member ++ [e]) member).
  set (book' := set_available (available_copies book - 1) book).
  assert (Hm1 : first_at (has_member_id (Py.split_head Web.sep member_option))
                  (pre_m ++ member' :: post_m) pre_m member' post_m).
  { apply (first_at_replace _ _ _ _ _ _ Hm). apply Hm. }
  assert (Hb1 : first_at (has_book_id (book_id e))
                  (pre_b ++ book' :: post_b) pre_b book' post_b).
  { apply (first_at_replace _ _ _ _ _ _ Hb). apply Hb. }
  assert (Hret := web_return_nth
              (mkStore (pre_b ++ book' :: post_b) (pre_m ++ member' :: post_m))
              member_option pre_m member' post_m
              (List.length (borrowed member)) e Hne Hm1).
  rewrite Hret; clear Hret; [| |exact Hdigits].
  2:{ unfold member'. cbn [borrowed set_borrowed].
      rewrite nth_error_app2 by lia. now rewrite Nat.sub_diag. }
  cbn [books members].
  rewrite (first_at_update _ _ _ _ _ _ Hb1).
  unfold member', book'. cbn [borrowed set_borrowed].
  rewrite remove_nth_last, set_available_back, set_borrowed_back.
  destruct Hm as (Hms & _ & _), Hb as (Hbs & _ & _).
  rewrite <- Hms, <- Hbs. now destruct st.
Qed.

(** The borrow that leads from [Example.w3] to [Example.w4], undone. *)
Lemma web_borrow_then_return_witness :
  Web.return_book (Web.member_label Example.ann)
    (Web.return_label (List.length (borrowed Example.ann))
       (mkRecord (Py.split_head Web.sep (Web.book_label Example.emma'))
                 (b_title Example.emma') "2024-01-02 09:00:00"))
    (snd (Web.borrow (Web.member_label Example.ann)
            (Web.book_label Example.emma') "2024-01-02 09:00:00" Example.w3))
  = (Saved, Example.w3).
Proof.
  apply (web_borrow_then_return (Web.member_label Example.ann)
           (Web.book_label Example.emma') "2024-01-02 09:00:00" Example.w3
           [] Example.ann [] [Example.dune] Example.emma' []).
  - discriminate.
  - split; [reflexivity | split; [constructor | reflexivity]].
  - split; [reflexivity | split; [repeat constructor | reflexivity]].
  - cbn. lia.
  - vm_compute. lia.
Defined.

End WebBorrowReturn.

(** ** What the "Borrow Book" page offers *)

Section WebOffers.

Lemma no_space_app (a b : string) :
  no_space (a +++ b) = no_space a && no_space b.
Proof.
  induction a as [|c a IH]; cbn; [reflexivity|].
  rewrite IH. now rewrite andb_assoc.
Qed.

Lemma gen_id_clean (p : string) (g : Ident.rng) :
  no_space p = true -> no_space (fst (Ident.gen_id p g)) = true.
Proof.
  intro Hp. unfold Ident.gen_id.
  destruct (gen_chars_spec 5 g) as (_ & Hall & _).
  destruct (Ident.gen_chars 5 g) as [cs g']; cbn [fst] in *.
  rewrite !no_space_app, Hp. cbn. now apply no_space_chars.
Qed.

Lemma member_ids_update (p : Member -> bool) (f : Member -> Member)
    (ms : list Member) :
  (forall m, m_id (f m) = m_id m) ->
  map m_id (Py.update_first p f ms) = map m_id ms.
Proof. apply map_update_first. Qed.

Lemma clean_member_ids_map (st st' : store) :
  map member_card (members st') = map member_card (members st) ->
  clean_member_ids st -> clean_member_ids st'.
Proof.
  unfold clean_member_ids. intros Heq H.
  assert (Hids : map m_id (members st') = map m_id (members st)).
  { change m_id with (fun m => fst (fst (member_card m))).
    rewrite <- !(map_map member_card (fun c => fst (fst c))). now rewrite Heq. }
  apply (proj1 (Forall_map m_id (fun i => no_space i = true) _)).
  rewrite Hids.
  now apply (proj2 (Forall_map m_id (fun i => no_space i = true) _)).
Qed.

Lemma web_reachable_clean_members (st : store) :
  Web.reachable st -> clean_member_ids st.
Proof.
  induction 1 as [| t a n g now st _ IH _ | n e g st _ IH
                  | mo bo now st _ IH _ _ | mo ch st _ IH].
  - constructor.
  - exact IH.
  - unfold clean_member_ids, Web.add_member; cbn [snd members].
    apply Forall_app; split; [exact IH|].
    constructor; [|constructor]. cbn [m_id]. now apply gen_id_clean.
  - revert IH. apply clean_member_ids_map. apply web_borrow_cards.
  - revert IH. apply clean_member_ids_map. apply web_return_cards.
Qed.

Lemma web_member_found (st : store) (mo : string) :
  clean_member_ids st -> In mo (Web.member_options st) ->
  exists pre m post,
    first_at (has_member_id (Py.split_head Web.sep mo)) (members st) pre m post.
Proof.
  intros Hclean Hin. unfold Web.member_options in Hin.
  apply in_map_iff in Hin. destruct Hin as (m & <- & Hm).
  assert (Hid : Py.split_head Web.sep (Web.member_label m) = m_id m).
  { unfold Web.member_label. apply split_head_label.
    unfold clean_member_ids in Hclean. rewrite Forall_forall in Hclean. auto. }
  rewrite Hid.
  destruct (first_cases (has_member_id (m_id m)) (members st))
    as [Hnone | H]; [|exact H].
  exfalso. unfold none_of in Hnone. rewrite Forall_forall in Hnone.
  specialize (Hnone m Hm). unfold has_member_id in Hnone.
  now rewrite String.eqb_refl in Hnone.
Qed.

Lemma web_book_found (st : store) (bo : string) :
  clean_ids st -> In bo (Web.book_options st) ->
  exists pre b post,
    first_at (has_book_id (Py.split_head Web.sep bo)) (books st) pre b post.
Proof.
  intros Hclean Hin. unfold Web.book_options, Web.available_books in Hin.
  apply in_map_iff in Hin. destruct Hin as (b & <- & Hb).
  apply filter_In in Hb. destruct Hb as [Hb _].
  assert (Hid : Py.split_head Web.sep (Web.book_label b) = b_id b).
  { unfold Web.book_label. apply split_head_label.
    unfold clean_ids in Hclean. rewrite Forall_forall in Hclean.
    apply Hclean. unfold book_ids. now apply in_map. }
  rewrite Hid.
  destruct (first_cases (has_book_id (b_id b)) (books st))
    as [Hnone | H]; [|exact H].
  exfalso. unfold none_of in Hnone. rewrite Forall_forall in Hnone.
  specialize (Hnone b Hb). unfold has_book_id in Hnone.
  now rewrite String.eqb_refl in Hnone.
Qed.

(** X6.  In every store the web handlers can reach from an empty one,
    whatever the "Borrow Book" page offers can be borrowed: for any member
    option and any book option of the two select boxes the handler finds
    its member and its book (no [StopIteration]), saves, and the number of
    borrow records grows by one.  The ids need not be distinct. *)
Theorem web_borrow_always_saves (st : store) (ms bs : list string)
    (member_option book_option now : string) :
  Web.reachable st ->
  WebUI.borrow_page st = WebUI.Offer ms bs ->
  In member_option ms -> In book_option bs ->
  fst (Web.borrow member_option book_option now st) = Saved
  /\ loans (members (snd (Web.borrow member_option book_option now st)))
     = (loans (members st) + 1)%Z.
Proof.
  intros Hr Hpage Hmo Hbo.
  assert (ms = Web.member_options st /\ bs = Web.book_options st) as [-> ->].
  { unfold WebUI.borrow_page in Hpage.
    destruct (members st); [discriminate|].
    destruct (books st); [discriminate|].
    destruct (Web.available_books st); [discriminate|].
    now inversion Hpage. }
  destruct (web_member_found st _ (web_reachable_clean_members st Hr) Hmo)
    as (pre_m & m & post_m & Hm).
  destruct (web_book_found st _ (web_reachable_clean st Hr) Hbo)
    as (pre_b & b & post_b & Hb).
  unfold Web.borrow, Py.first.
  rewrite (first_at_find _ _ _ _ _ Hm), (first_at_find _ _ _ _ _ Hb).
  cbn [fst snd members]. split; [reflexivity|].
  rewrite (first_at_update _ _ _ _ _ _ Hm).
  destruct Hm as (-> & _ & _).
  unfold loans. rewrite !all_records_split. cbn [borrowed set_borrowed].
  rewrite !length_app. cbn [List.length]. lia.
Qed.

(** The page for [Example.w3]: one member, two books on offer. *)
Lemma web_borrow_always_saves_witness :
  fst (Web.borrow (Web.member_label Example.ann) (Web.book_label Example.emma')
         "2024-01-02 09:00:00" Example.w3) = Saved
  /\ loans (members (snd (Web.borrow (Web.member_label Example.ann)
                            (Web.book_label Example.emma')
                            "2024-01-02 09:00:00" Example.w3)))
     = (loans (members Example.w3) + 1)%Z.
Proof.
  apply (web_borrow_always_saves Example.w3
           (Web.member_options Example.w3) (Web.book_options Example.w3)).
  - unfold Example.w3. apply Web.reach_add_member.
    unfold Example.w2. apply Web.reach_add_book; [|lia].
    unfold Example.s1. apply Web.reach_add_book; [|lia].
    apply Web.reach_empty.
  - reflexivity.
  - left. reflexivity.
  - right. left. reflexivity.
Defined.

End WebOffers.

(** ** More on the loader of [stream.py] *)

Section MoreLoaders.

Import Json.

Lemma set_set (k : string) (v : value) (d : list (string * value)) :
  set k v (set k v d) = set k v d.
Proof. apply set_same, lookup_set_same. Qed.

Lemma spec_normalize_dict_has (d : list (string * value)) :
  has_key "borrowed" (spec_normalize_dict d) = true.
Proof.
  unfold spec_normalize_dict, has_key.
  destruct (lookup "borrowed" d) eqn:Hn; [now rewrite Hn|].
  destruct (lookup "borowed" d); now rewrite lookup_set_same.
Qed.

Lemma normalize_member_again (m m' : value) :
  normalize_member m = Py.Ok m' -> normalize_member m' = Py.Ok m'.
Proof.
  intro H. destruct (normalize_member_other m m' H) as [(d & ->) | [-> _]];
    [|exact H].
  rewrite normalize_member_dict in H. inversion H; subst m'.
  rewrite normalize_member_dict. f_equal. f_equal.
  unfold spec_normalize_dict at 1. now rewrite spec_normalize_dict_has.
Qed.

Lemma normalize_all_again (l l' : list value) :
  normalize_all l = Py.Ok l' -> normalize_all l' = Py.Ok l'.
Proof.
  intro H. apply normalize_all_nth in H.
  induction H as [|m m' l l' Hm _ IH]; [reflexivity|].
  cbn [normalize_all]. rewrite (normalize_member_again m m' Hm).
  cbn [Py.bind]. now rewrite IH.
Qed.

(** X7.  The normalisation loop of [load_data] is idempotent: when it
    completes on the loaded value, running it on its result completes too
    and changes nothing.  A file that has been loaded and saved once is
    therefore loaded unchanged ever after. *)
Theorem normalize_idempotent (data data' : value) :
  normalize data = Py.Ok data' -> normalize data' = Py.Ok data'.
Proof.
  destruct data as [| b | n | s | l | d0]; try discriminate.
  unfold normalize at 1.
  destruct (lookup "members" d0) as [x|] eqn:Hlk.
  2:{ intros [= <-]. unfold normalize. now rewrite Hlk. }
  assert (Hsame :
    forall items, py_iter x = Py.Ok items -> (forall l, x <> JList l) ->
      (items' <- normalize_all items ;; Py.Ok (JDict d0)) = Py.Ok data' ->
      normalize data' = Py.Ok data').
  { intros items Hit Hx H. unfold Py.bind in H.
    destruct (normalize_all items) as [items'|] eqn:Hall; [|discriminate].
    inversion H; subst data'. unfold normalize. rewrite Hlk.
    destruct x as [| b | n | s | l | d1]; try discriminate.
    - cbn [py_iter Py.bind] in *. inversion Hit; subst. now rewrite Hall.
    - exfalso; now apply (Hx l).
    - cbn [py_iter Py.bind] in *. inversion Hit; subst. now rewrite Hall. }
  destruct x as [| b | n | s | l | d1];
    try (cbn [py_iter Py.bind]; discriminate).
  - apply (Hsame _ eq_refl); discriminate.
  - unfold Py.bind.
    destruct (normalize_all l) as [l'|] eqn:Hall; [|discriminate].
    intros [= <-]. unfold normalize. rewrite lookup_set_same.
    rewrite (normalize_all_again l l' Hall). cbn [Py.bind].
    now rewrite set_set.
  - apply (Hsame _ eq_refl); discriminate.
Qed.

(** A store written by the console, with its members under ["borowed"]. *)
Lemma normalize_idempotent_witness :
  normalize (store_to_json web_key Example.c3)
  = Py.Ok (store_to_json web_key Example.c3).
Proof.
  apply (normalize_idempotent (store_to_json console_key Example.c3)).
  reflexivity.
Defined.

Variable json_loads : string -> option value.
Variable json_dumps : value -> string.

(** X8.  The guard of [load_data] covers [json.loads] only.  A file that
    holds valid JSON of another shape makes [load_data] raise, and with it
    the start of the web page: a top-level value that is no object has no
    [get] ([AttributeError]); a ["members"] entry that is [null], a Boolean
    or a number cannot be iterated ([TypeError]); a list of members with
    such an element makes the loop raise at that element at the latest. *)
Theorem load_data_wrong_shape (text : string) (v : value) :
  nonempty (Py.strip text) = true ->
  json_loads (Py.strip text) = Some v ->
  ((forall d, v <> JDict d) ->
   fst (load_data json_loads json_dumps (Some text)) = Py.Raise Py.AttributeError)
  /\ (forall d x,
         v = JDict d -> lookup "members" d = Some x ->
         x = JNull \/ (exists b, x = JBool b) \/ (exists n, x = JInt n) ->
         fst (load_data json_loads json_dumps (Some text)) = Py.Raise Py.TypeError)
  /\ (forall d l,
         v = JDict d -> lookup "members" d = Some (JList l) ->
         (exists m, In m l /\ (m = JNull \/ (exists b, m = JBool b)
                               \/ (exists n, m = JInt n))) ->
         exists x, fst (load_data json_loads json_dumps (Some text)) = Py.Raise x).
Proof.
  intros Hne Hv. unfold load_data, read_data. rewrite Hne, Hv. cbn [fst].
  split; [|split].
  - intro Hd. destruct v; try reflexivity. exfalso; now apply (Hd d).
  - intros d x -> Hlk Hx. unfold normalize. rewrite Hlk.
    destruct Hx as [-> | [(b & ->) | (n & ->)]]; reflexivity.
  - intros d l -> Hlk (m & Hin & Hm). unfold normalize. rewrite Hlk.
    assert (Hall : exists x, normalize_all l = Py.Raise x).
    { clear Hlk. induction l as [|a l IH]; [contradiction|].
      cbn [normalize_all]. destruct Hin as [-> | Hin].
      - destruct Hm as [-> | [(b & ->) | (n & ->)]]; eexists; reflexivity.
      - destruct (normalize_member a); [|eexists; reflexivity].
        cbn [Py.bind]. destruct (IH Hin) as (x & ->). eexists; reflexivity. }
    destruct Hall as (x & ->). exists x. reflexivity.
Qed.

Lemma normalize_console_file (st : store) :
  normalize (store_to_json console_key st) = Py.Ok (store_to_json web_key st).
Proof.
  unfold store_to_json, normalize.
  cbn [lookup String.eqb Ascii.eqb Bool.eqb].
  assert (H : normalize_all (map (member_to_json console_key) (members st))
              = Py.Ok (map (member_to_json web_key) (members st))).
  { induction (members st) as [|m ms IH]; [reflexivity|].
    cbn [map normalize_all]. unfold member_to_json at 1.
    rewrite normalize_member_dict. cbn [Py.bind]. rewrite IH. reflexivity. }
  rewrite H. reflexivity.
Qed.

(** X9.  The web page reads the file the console has written: whatever
    store the console saves (its members' lists under the misspelt key
    ["borowed"]), [load_data] of [stream.py] returns the same books and
    members with the lists under ["borrowed"], and leaves the file as it
    is.  As for the round trip, [json] is a parameter: the hypotheses say
    that [json.loads] reads back what [json.dumps] has written for this
    store, and that the text of a dictionary is in braces. *)
Theorem web_reads_console_file (st : store) :
  json_loads (json_dumps (store_to_json console_key st))
  = Some (store_to_json console_key st) ->
  braced (json_dumps (store_to_json console_key st)) = true ->
  load_data json_loads json_dumps
    (save_data json_dumps (store_to_json console_key st))
  = (Py.Ok (store_to_json web_key st),
     Some (json_dumps (store_to_json console_key st))).
Proof.
  intros Hrt Hbr; destruct (strip_braced _ Hbr) as [Hs Hne].
  unfold load_data, read_data, save_data. rewrite Hs, Hne, Hrt.
  now rewrite normalize_console_file.
Qed.

End MoreLoaders.

(** Three files read with the reference reader: an array, an object whose
    ["members"] is a number, an object whose list of members holds
    [null]. *)
Lemma load_data_wrong_shape_witness :
  fst (Json.load_data RefJson.loads RefJson.dumps (Some "[]"))
  = Py.Raise Py.AttributeError
  /\ fst (Json.load_data RefJson.loads RefJson.dumps
            (Some (RefJson.dumps (Json.JDict [("members", Json.JInt 3)]))))
     = Py.Raise Py.TypeError
  /\ exists x,
       fst (Json.load_data RefJson.loads RefJson.dumps
              (Some (RefJson.dumps
                       (Json.JDict [("members", Json.JList [Json.JNull])]))))
       = Py.Raise x.
Proof.
  split; [|split].
  - apply (proj1 (load_data_wrong_shape RefJson.loads RefJson.dumps "[]"
                    (Json.JList []) eq_refl eq_refl)).
    discriminate.
  - apply (proj1 (proj2 (load_data_wrong_shape RefJson.loads RefJson.dumps
                           (RefJson.dumps (Json.JDict [("members", Json.JInt 3)]))
                           (Json.JDict [("members", Json.JInt 3)])
                           eq_refl eq_refl))
             [("members", Json.JInt 3)] (Json.JInt 3) eq_refl eq_refl).
    right. right. now exists 3%Z.
  - apply (proj2 (proj2 (load_data_wrong_shape RefJson.loads RefJson.dumps
                           (RefJson.dumps
                              (Json.JDict [("members", Json.JList [Json.JNull])]))
                           (Json.JDict [("members", Json.JList [Json.JNull])])
                           eq_refl eq_refl))
             [("members", Json.JList [Json.JNull])] [Json.JNull] eq_refl eq_refl).
    exists Json.JNull. split; [now left | now left].
Defined.

(** The file the console writes for [Example.c3], read by the web page. *)
Lemma web_reads_console_file_witness :
  Json.load_data RefJson.loads RefJson.dumps
    (Json.save_data RefJson.dumps
       (Json.store_to_json Json.console_key Example.c3))
  = (Py.Ok (Json.store_to_json Json.web_key Example.c3),
     Some (RefJson.dumps (Json.store_to_json Json.console_key Example.c3))).
Proof.
  apply (web_reads_console_file RefJson.loads RefJson.dumps Example.c3);
    vm_compute; reflexivity.
Defined.

(** ** The dashboard and the copy editor of [stream.py] *)

Section WebPages.

Lemma deficit_sums (bs : list Book) :
  deficit bs = (WebUI.sum_of total_copies bs - WebUI.sum_of available_copies bs)%Z.
Proof. induction bs as [|b bs IH]; cbn; [reflexivity | rewrite IH; lia]. Qed.

Lemma sum_of_bounds (bs : list Book) :
  (forall b, In b bs -> in_bounds b) ->
  (0 <= WebUI.sum_of available_copies bs <= WebUI.sum_of total_copies bs)%Z.
Proof.
  induction bs as [|b bs IH]; cbn [WebUI.sum_of]; intro H; [lia|].
  assert (Hb : in_bounds b) by (apply H; now left).
  assert (Hr := IH (fun x Hx => H x (or_intror Hx))).
  unfold in_bounds in Hb. lia.
Qed.

(** X10.  The three numbers of the dashboard are consistent: in every
    store the web handlers reach (the copy editor aside) with pairwise
    distinct book ids, "Total book copies" minus "Available copies" is the
    number of borrow records held by the members, and the available copies
    lie between 0 and the total. *)
Theorem dashboard_metrics (st : store) :
  Web.reachable st -> NoDup (book_ids st) ->
  (WebUI.total_books st - WebUI.available_books st)%Z = loans (members st)
  /\ (0 <= WebUI.available_books st <= WebUI.total_books st)%Z.
Proof.
  intros Hr Hnd. destruct (web_reachable_inv st Hr Hnd) as [[Hok _] Hcons].
  unfold WebUI.total_books, WebUI.available_books. split.
  - rewrite <- deficit_sums. exact Hcons.
  - apply sum_of_bounds. intros b Hb.
    eapply books_ok_bounds; [|exact Hok|exact Hb].
    intro j; apply count_id_nonneg.
Qed.

(** After one borrow on the web page. *)
Lemma dashboard_metrics_witness :
  (WebUI.total_books Example.w4 - WebUI.available_books Example.w4)%Z
  = loans (members Example.w4)
  /\ (0 <= WebUI.available_books Example.w4 <= WebUI.total_books Example.w4)%Z.
Proof.
  apply dashboard_metrics.
  - exact web_example_reachable.
  - cbv. repeat constructor; cbn; intuition discriminate.
Defined.

(** X11.  The editor of the "List Books" page writes the two numbers typed
    into the selected book (the first one with the id of the label) and
    saves, with no check against the loans: in a balanced store the
    equation between missing copies and borrow records survives the edit
    exactly when the difference of the two numbers is left as it was.  The
    page only requires both numbers to be non-negative, so available copies
    above the total, or fewer missing copies than records, can be saved. *)
Theorem edit_copies_effect (st : store) (choice : string) (nt na : Z)
    pre book post :
  choice <> EmptyString ->
  first_at (has_book_id (Py.split_head Web.sep choice)) (books st) pre book post ->
  WebUI.edit_copies choice nt na st
  = (Saved, mkStore (pre ++ WebUI.set_copies nt na book :: post) (members st))
  /\ (conserved st ->
      (conserved (snd (WebUI.edit_copies choice nt na st))
       <-> (nt - na = total_copies book - available_copies book)%Z)).
Proof.
  intros Hne Hb.
  assert (Heq : WebUI.edit_copies choice nt na st
                = (Saved, mkStore (pre ++ WebUI.set_copies nt na book :: post)
                                  (members st))).
  { unfold WebUI.edit_copies, Py.first. apply String.eqb_neq in Hne. rewrite Hne.
    now rewrite (first_at_find _ _ _ _ _ Hb), (first_at_update _ _ _ _ _ _ Hb). }
  split; [exact Heq|].
  rewrite Heq. cbn [snd]. unfold conserved. cbn [books members].
  destruct Hb as (-> & _ & _). rewrite !deficit_app. cbn. intro Hc. lia.
Qed.

(** [Example.w3] is balanced, with no loan: five copies, five available
    keeps it so. *)
Lemma edit_copies_effect_witness :
  WebUI.edit_copies (WebUI.edit_label Example.dune) 5 5 Example.w3
  = (Saved,
     mkStore ([] ++ WebUI.set_copies 5 5 Example.dune :: [Example.emma'])
             (members Example.w3))
  /\ (conserved (snd (WebUI.edit_copies (WebUI.edit_label Example.dune) 5 5
                        Example.w3))
      <-> (5 - 5 = total_copies Example.dune - available_copies Example.dune)%Z).
Proof.
  destruct (edit_copies_effect Example.w3 (WebUI.edit_label Example.dune) 5 5
              [] Example.dune [Example.emma']) as [He Hc].
  - discriminate.
  - split; [reflexivity | split; [constructor | reflexivity]].
  - split; [exact He | apply Hc; reflexivity].
Defined.

Lemma leb_refl (s : string) : String.leb s s = true.
Proof. destruct (String.leb_total s s); assumption. Qed.

Lemma insert_recent_perm (b : Book) (l : list Book) :
  Permutation (WebUI.insert_recent b l) (b :: l).
Proof.
  induction l as [|y l IH]; cbn; [reflexivity|].
  destruct (String.leb (added_on y) (added_on b)); [reflexivity|].
  rewrite IH. apply perm_swap.
Qed.

Lemma sorted_recent_perm (bs : list Book) :
  Permutation (WebUI.sorted_recent bs) bs.
Proof.
  induction bs as [|b bs IH]; cbn; [reflexivity|].
  rewrite insert_recent_perm. now constructor.
Qed.

Lemma insert_recent_hd (b a : Book) (l : list Book) :
  not_older a b -> HdRel not_older a l -> HdRel not_older a (WebUI.insert_recent b l).
Proof.
  intros Hab Hl. destruct l as [|y l]; cbn.
  - now constructor.
  - destruct (String.leb (added_on y) (added_on b)); constructor; auto.
    now inversion Hl.
Qed.

Lemma insert_recent_sorted (b : Book) (l : list Book) :
  Sorted not_older l -> Sorted not_older (WebUI.insert_recent b l).
Proof.
  induction 1 as [|y l Hl IH Hy]; cbn.
  - repeat constructor.
  - destruct (String.leb (added_on y) (added_on b)) eqn:E.
    + constructor; [now constructor | now constructor].
    + constructor; [exact IH|].
      apply insert_recent_hd; [|exact Hy].
      unfold not_older. destruct (String.leb_total (added_on y) (added_on b));
        [congruence | assumption].
Qed.

Lemma sorted_recent_sorted (bs : list Book) :
  Sorted not_older (WebUI.sorted_recent bs).
Proof.
  induction bs as [|b bs IH]; cbn; [constructor | now apply insert_recent_sorted].
Qed.

Lemma firstn_sorted {A} (R : A -> A -> Prop) (n : nat) (l : list A) :
  Sorted R l -> Sorted R (firstn n l).
Proof.
  revert l. induction n as [|n IH]; intros l Hl; cbn; [constructor|].
  destruct Hl as [|a l Hl Ha]; [constructor|].
  constructor; [now apply IH|].
  destruct n; cbn; [constructor|].
  destruct Ha; constructor; assumption.
Qed.

(** Books of one time stamp keep the order they have in the store. *)
Lemma insert_recent_filter (t : string) (b : Book) (l : list Book) :
  filter (fun x => String.eqb (added_on x) t) (WebUI.insert_recent b l)
  = filter (fun x => String.eqb (added_on x) t) (b :: l).
Proof.
  induction l as [|y l IH]; [reflexivity|]. cbn [WebUI.insert_recent].
  destruct (String.leb (added_on y) (added_on b)) eqn:E; [reflexivity|].
  cbn [filter] in *. rewrite IH.
  destruct (String.eqb_spec (added_on b) t) as [Hb|_]; [|reflexivity].
  destruct (String.eqb_spec (added_on y) t) as [Hy|_]; [|reflexivity].
  rewrite Hb, Hy, leb_refl in E. discriminate.
Qed.

Lemma sorted_recent_stable (t : string) (bs : list Book) :
  filter (fun x => String.eqb (added_on x) t) (WebUI.sorted_recent bs)
  = filter (fun x => String.eqb (added_on x) t) bs.
Proof.
  induction bs as [|b bs IH]; [reflexivity|].
  cbn [WebUI.sorted_recent fold_right]. rewrite insert_recent_filter.
  cbn [filter]. fold (WebUI.sorted_recent bs). now rewrite IH.
Qed.

Lemma string_leb_trans (s1 : string) : forall s2 s3 : string,
  String.leb s1 s2 = true -> String.leb s2 s3 = true -> String.leb s1 s3 = true.
Proof.
  unfold String.leb.
  induction s1 as [|a s1 IH]; intros [|b s2] [|c s3]; cbn; try congruence.
  unfold Ascii.compare.
  destruct (N.compare_spec (N_of_ascii a) (N_of_ascii b)) as [Hab|Hab|Hab];
    destruct (N.compare_spec (N_of_ascii b) (N_of_ascii c)) as [Hbc|Hbc|Hbc];
    try congruence; intros H1 H2.
  - rewrite Hab, Hbc. rewrite N.compare_refl. now apply (IH s2 s3).
  - rewrite Hab. now rewrite (proj2 (N.compare_lt_iff _ _) Hbc).
  - rewrite <- Hbc. now rewrite (proj2 (N.compare_lt_iff _ _) Hab).
  - now rewrite (proj2 (N.compare_lt_iff _ _) (N.lt_trans _ _ _ Hab Hbc)).
Qed.

Lemma not_older_trans : Relations_1.Transitive not_older.
Proof.
  intros a b c Hab Hbc. unfold not_older in *.
  now apply (string_leb_trans _ (added_on b)).
Qed.

Lemma in_firstn {A} (n : nat) (l : list A) (x : A) :
  In x (firstn n l) -> In x l.
Proof.
  intro H. rewrite <- (firstn_skipn n l). apply in_or_app; now left.
Qed.

Lemma in_skipn {A} (n : nat) (l : list A) (x : A) :
  In x (skipn n l) -> In x l.
Proof.
  intro H. rewrite <- (firstn_skipn n l). apply in_or_app; now right.
Qed.

Lemma strongly_sorted_split {A} (R : A -> A -> Prop) (n : nat) (l : list A) :
  StronglySorted R l ->
  forall x y, In x (firstn n l) -> In y (skipn n l) -> R x y.
Proof.
  intro H. revert n. induction H as [|a l Hl IH Ha]; intros n x y Hx Hy.
  - destruct n; contradiction.
  - destruct n as [|n]; [contradiction|]. cbn in Hx, Hy.
    destruct Hx as [<-|Hx].
    + rewrite Forall_forall in Ha. apply Ha.
      now apply (in_skipn n).
    + now apply (IH n).
Qed.

(** X12.  "Recent Books" of the dashboard: ten books, or all of them when
    there are fewer; each is a book of the store; they are in the order of
    their time stamps, latest first; no book left out is later than one
    shown; and books with the same time stamp appear in the order they have
    in the store (the sort is stable even though it is reversed): the shown
    books of one time stamp are the first ones of the store with it, all of
    them when the store has at most ten books. *)
Theorem recent_books (st : store) :
  List.length (WebUI.recent st) = Nat.min 10 (List.length (books st))
  /\ Sorted not_older (WebUI.recent st)
  /\ (forall b, In b (WebUI.recent st) -> In b (books st))
  /\ (forall b b', In b (WebUI.recent st) -> In b' (books st) ->
                   ~ In b' (WebUI.recent st) -> not_older b b')
  /\ (forall t, exists rest,
        filter (fun x => String.eqb (added_on x) t) (books st)
        = filter (fun x => String.eqb (added_on x) t) (WebUI.recent st) ++ rest)
  /\ (forall t, List.length (books st) <= 10 ->
        filter (fun x => String.eqb (added_on x) t) (WebUI.recent st)
        = filter (fun x => String.eqb (added_on x) t) (books st)).
Proof.
  unfold WebUI.recent.
  pose proof (sorted_recent_perm (books st)) as Hperm.
  pose proof (sorted_recent_sorted (books st)) as Hsort.
  repeat split.
  - rewrite length_firstn. now rewrite (Permutation_length Hperm).
  - now apply firstn_sorted.
  - intros b Hb. apply (Permutation_in _ Hperm). now apply (in_firstn 10).
  - intros b b' Hb Hb' Hnot.
    apply (strongly_sorted_split not_older 10 (WebUI.sorted_recent (books st)));
      [apply Sorted_StronglySorted; [apply not_older_trans | exact Hsort] | exact Hb |].
    apply (Permutation_in _ (Permutation_sym Hperm)) in Hb'.
    rewrite <- (firstn_skipn 10 (WebUI.sorted_recent (books st))) in Hb'.
    apply in_app_or in Hb'. destruct Hb' as [H|H]; [contradiction | exact H].
  - intro t.
    exists (filter (fun x => String.eqb (added_on x) t)
              (skipn 10 (WebUI.sorted_recent (books st)))).
    rewrite <- filter_app, firstn_skipn. symmetry. apply sorted_recent_stable.
  - intros t Hlen. rewrite firstn_all2.
    + apply sorted_recent_stable.
    + now rewrite (Permutation_length Hperm).
Qed.

(** The two books of [Example.w4]: the later one comes first, and each is
    the only one of its time stamp. *)
Lemma recent_books_witness :
  In Example.emma' (books Example.w3)
  /\ filter (fun x => String.eqb (added_on x) "2024-01-01 10:05:00")
        (WebUI.recent Example.w3)
     = filter (fun x => String.eqb (added_on x) "2024-01-01 10:05:00")
         (books Example.w3).
Proof.
  destruct (recent_books Example.w3) as (_ & _ & Hin & _ & _ & Hst).
  split.
  - apply Hin. left. reflexivity.
  - apply Hst. cbn. lia.
Defined.

End WebPages.

(** ** The table of [list_books] *)

Section Layout.

Import ConsoleUI.

Lemma length_spaces (n : nat) : String.length (spaces n) = n.
Proof. unfold spaces. induction n as [|n IH]; cbn; [reflexivity | now rewrite IH]. Qed.

Lemma length_slice_to (n : nat) : forall s : string,
  String.length (slice_to n s) = Nat.min n (String.length s).
Proof.
  induction n as [|n IH]; intros [|c s]; cbn; try reflexivity.
  now rewrite IH.
Qed.

Lemma length_ljust (w : nat) (s : string) :
  String.length (ljust w s) = Nat.max w (String.length s).
Proof. unfold ljust. rewrite string_length_app, length_spaces. lia. Qed.

Lemma substring_app_l (a : string) : forall b : string,
  substring 0 (String.length a) (a +++ b) = a.
Proof.
  induction a as [|c a IH]; intro b; cbn.
  - now destruct b.
  - now rewrite IH.
Qed.

Lemma substring_app_r (a : string) : forall (n m : nat) (b : string),
  substring (String.length a + n) m (a +++ b) = substring n m b.
Proof. induction a as [|c a IH]; intros n m b; cbn; [reflexivity | apply IH]. Qed.

Lemma substring_pre (a b : string) (m : nat) :
  String.length a = m -> substring 0 m (a +++ b) = a.
Proof. intros <-. apply substring_app_l. Qed.

Lemma substring_at (a b : string) (n m : nat) :
  String.length a = n -> substring n m (a +++ b) = substring 0 m b.
Proof. intros <-. rewrite <- (Nat.add_0_r (String.length a)). apply substring_app_r. Qed.

Lemma console_id_length (p : string) (g : Ident.rng) :
  String.length (fst (Ident.gen_id_console p g)) = String.length p + 6.
Proof.
  rewrite gen_id_console_eq. unfold Ident.gen_id.
  destruct (gen_chars_spec 5 g) as (Hlen & _ & _).
  destruct (Ident.gen_chars 5 g) as [cs g']; cbn [fst] in *.
  rewrite !string_length_app. cbn [String.length].
  assert (H : forall l, String.length (string_of_list_ascii l) = List.length l).
  { induction l as [|c l IH]; cbn; [reflexivity | now rewrite IH]. }
  rewrite H, Hlen. lia.
Qed.

Lemma console_exec_book_ids (c : Console.command) (st : store) :
  book_ids (snd (Console.exec c st)) = book_ids st
  \/ exists t a n g now,
       c = Console.AddBook t a n g now
       /\ book_ids (snd (Console.exec c st))
          = book_ids st ++ [fst (Ident.gen_id_console "B" g)].
Proof.
  unfold book_ids.
  destruct c as [t a n g now | n e g | ml bl now | ml cl]; cbn [Console.exec].
  - unfold Console.add_book. destruct (Py.int n); cbn [snd books]; [|now left].
    right. exists t, a, n, g, now. split; [reflexivity|]. now rewrite map_app.
  - now left.
  - left. unfold Console.borrow.
    destruct (filter _ (members st)); [reflexivity|].
    destruct (filter _ (books st)); [reflexivity|].
    destruct (_ <=? _)%Z; [reflexivity|]. cbn [snd books].
    now apply book_ids_update.
  - left. unfold Console.return_book.
    destruct (filter _ (members st)) as [|m ?]; [reflexivity|].
    destruct (borrowed m); [reflexivity|].
    destruct (fst (Console.try_select _ _)) as [[? ?]|];
      [|now destruct st as [[|? ?] ?]].
    cbn [snd books]. now apply book_ids_update.
Qed.

Lemma console_reachable_id_length (st : store) :
  Console.reachable st ->
  Forall (fun i => String.length i = 7) (book_ids st).
Proof.
  induction 1 as [|c st _ IH _]; [constructor|].
  destruct (console_exec_book_ids c st) as [-> | (t & a & n & g & now & _ & ->)];
    [exact IH|].
  apply Forall_app; split; [exact IH|].
  constructor; [|constructor]. now rewrite console_id_length.
Qed.

Lemma book_line_head (b : Book) :
  String.length (b_id b) <= 12 ->
  exists head,
    book_line b = head +++ counts b
    /\ String.length head = 60
    /\ substring 0 12 head = ljust 12 (b_id b)
    /\ substring 13 25 head = ljust 25 (slice_to 24 (b_title b))
    /\ substring 39 20 head = ljust 20 (slice_to 19 (b_author b)).
Proof.
  intro Hid.
  set (c1 := ljust 12 (b_id b)).
  set (c2 := ljust 25 (slice_to 24 (b_title b))).
  set (c3 := ljust 20 (slice_to 19 (b_author b))).
  assert (H1 : String.length c1 = 12) by (unfold c1; rewrite length_ljust; lia).
  assert (H2 : String.length c2 = 25).
  { unfold c2. rewrite length_ljust, length_slice_to. lia. }
  assert (H3 : String.length c3 = 20).
  { unfold c3. rewrite length_ljust, length_slice_to. lia. }
  exists (c1 +++ " " +++ c2 +++ " " +++ c3 +++ " ").
  split; [|split; [|split; [|split]]].
  - unfold book_line, counts. fold c1 c2 c3.
    now rewrite !append_assoc.
  - rewrite !string_length_app, H1, H2, H3. reflexivity.
  - now apply substring_pre.
  - rewrite <- (append_assoc c1 " ").
    rewrite (substring_at (c1 +++ " ") _ 13 25)
      by (rewrite string_length_app, H1; reflexivity).
    now apply substring_pre.
  - replace (c1 +++ " " +++ c2 +++ " " +++ c3 +++ " ")
      with ((c1 +++ " " +++ c2 +++ " ") +++ c3 +++ " ")
      by (now rewrite !append_assoc).
    rewrite (substring_at _ _ 39 20)
      by (rewrite !string_length_app, H1, H2; reflexivity).
    now apply substring_pre.
Qed.

(** X13.  [list_books] on a store the console has built: one line for
    each book, in the order of the store, and an empty line at the end.  The
    columns are aligned: the line of a book is a head of exactly 60
    characters followed by [total/available]; the head holds the id (seven
    characters) and five spaces, then from column 13 the first 24 characters
    of the title padded to 25, then from column 39 the first 19 characters
    of the author padded to 20, so that a space separates the columns
    however long title and author are. *)
Theorem list_books_layout (st : store) (i : nat) (b : Book) :
  Console.reachable st ->
  nth_error (books st) i = Some b ->
  List.length (list_books st) = S (List.length (books st))
  /\ exists head,
       nth_error (list_books st) i = Some (head +++ counts b)
       /\ String.length head = 60
       /\ substring 0 12 head = b_id b +++ "     "
       /\ substring 13 25 head = ljust 25 (slice_to 24 (b_title b))
       /\ substring 39 20 head = ljust 20 (slice_to 19 (b_author b)).
Proof.
  intros Hr Hb.
  assert (Hlen : String.length (b_id b) = 7).
  { pose proof (console_reachable_id_length st Hr) as Hall.
    rewrite Forall_forall in Hall. apply Hall. unfold book_ids.
    apply in_map. now apply nth_error_In with i. }
  unfold list_books. destruct (books st) as [|b0 bs] eqn:Hbs.
  { now destruct i. }
  split.
  - rewrite length_app, length_map. cbn. lia.
  - destruct (book_line_head b) as (head & Hline & Hh & H1 & H2 & H3); [lia|].
    exists head. repeat split; try assumption.
    + rewrite nth_error_app1.
      * rewrite nth_error_map, Hb. cbn. now rewrite Hline.
      * rewrite length_map. apply nth_error_Some. congruence.
    + rewrite H1. unfold ljust. now rewrite Hlen.
Qed.

(** The line of the only book of [Example.c3]. *)
Lemma list_books_layout_witness :
  List.length (list_books Example.c3) = S (List.length (books Example.c3))
  /\ exists head,
       nth_error (list_books Example.c3) 0
       = Some (head +++ counts (mkBook "B-AAAAA" "Dune" "Herbert" 2 1
                                  "2024-01-01 10:00:00"))
       /\ String.length head = 60
       /\ substring 0 12 head = "B-AAAAA" +++ "     "
       /\ substring 13 25 head = ljust 25 (slice_to 24 "Dune")
       /\ substring 39 20 head = ljust 20 (slice_to 19 "Herbert").
Proof.
  apply (list_books_layout Example.c3 0
           (mkBook "B-AAAAA" "Dune" "Herbert" 2 1 "2024-01-01 10:00:00")).
  - change Example.c3 with
      (snd (Console.exec (Console.Borrow "M-AAAAA" "B-AAAAA" "2024-01-02 09:00:00")
              Example.c2)).
    apply Console.reach_step; [|exact I].
    change Example.c2 with
      (snd (Console.exec (Console.AddMember "Ann" "ann@example.org" Example.g0)
              Example.c1)).
    apply Console.reach_step; [|exact I].
    change Example.c1 with
      (snd (Console.exec (Console.AddBook "Dune" "Herbert" "2" Example.g0
                            "2024-01-01 10:00:00") empty_store)).
    apply Console.reach_step; [|exact I].
    apply Console.reach_empty.
  - reflexivity.
Defined.

End Layout.

(** ** The console program from prompt to exit *)

Section MenuFacts.

Import Menu.

Lemma reads_refl (s : state) : reads s s.
Proof. now exists []. Qed.

Lemma reads_trans (s1 s2 s3 : state) : reads s1 s2 -> reads s2 s3 -> reads s1 s3.
Proof.
  intros (l1 & H1) (l2 & H2). exists (l1 ++ l2).
  now rewrite H1, H2, app_assoc.
Qed.

Lemma reads_length (s s' : state) :
  reads s s' -> List.length (stdin s') <= List.length (stdin s).
Proof. intros (l & ->). rewrite length_app. lia. Qed.

Lemma commands_one (c : Console.command) (d : store) :
  commands d (snd (Console.exec c d)).
Proof. apply commands_more, commands_none. Qed.

Lemma commands_trans (d1 d2 d3 : store) :
  commands d1 d2 -> commands d2 d3 -> commands d1 d3.
Proof.
  intros H1 H2. induction H2 as [|c d2 d3 _ IH]; [exact H1|].
  apply commands_more. now apply IH.
Qed.

Lemma persisted_refl (s : state) : persisted s s.
Proof. now left. Qed.

Lemma persisted_trans (s1 s2 s3 : state) :
  persisted s1 s2 -> persisted s2 s3 -> persisted s1 s3.
Proof.
  intros [[Hd1 Hf1] | H1] [[Hd2 Hf2] | H2].
  - left. split; congruence.
  - now right.
  - right. congruence.
  - now right.
Qed.

Lemma commands_reachable (d d' : store) :
  commands d d' -> Console.reachable d -> Console.reachable d'.
Proof.
  intros H Hr. induction H as [|c d d' _ IH]; [exact Hr|].
  apply Console.reach_step; [now apply IH | exact I].
Qed.

Ltac reads_by l :=
  exists l; cbn [stdin snd];
  match goal with H : stdin _ = _ |- _ => rewrite H end; reflexivity.

Ltac quiet l :=
  repeat split;
  [ reads_by l
  | cbn [data snd]; apply commands_none
  | left; split; reflexivity
  | cbn [fst]; discriminate ].

Lemma add_book_ok : handler_ok add_book.
Proof.
  intro s. unfold add_book, bind, input, int, gen_id, now, modify, save_data, raise, ret.
  destruct (stdin s) as [|t [|a [|n rest]]] eqn:Hin; cbn [stdin rand clock data file fst snd].
  1-3: first [quiet (@nil string) | quiet [t] | quiet [t; a]].
  destruct (Py.int n) as [k|] eqn:Hk; cbn [stdin rand clock data file fst snd].
  - destruct (Ident.gen_id_console "B" (rand s)) as [id g] eqn:Hid.
    cbn [stdin rand clock data file fst snd].
    repeat split.
    + reads_by [t; a; n].
    + replace (mkStore _ _)
        with (snd (Console.exec (Console.AddBook t a n (rand s) (clock s 0)) (data s))).
      * apply commands_one.
      * cbn [Console.exec]. unfold Console.add_book. rewrite Hk, Hid. reflexivity.
    + now right.
    + discriminate.
  - quiet [t; a; n].
Qed.

Lemma for_each_print {A B} (l : list A) (f : A -> B) (s : state) :
  for_each l (fun x => print (f x)) s = (Done tt, s).
Proof. induction l as [|x l IH]; [reflexivity|]. cbn. unfold bind, print, ret. exact IH. Qed.

Lemma list_books_run (s : state) : list_books s = (Done tt, s).
Proof.
  unfold list_books, bind, get_data. destruct (books (data s)) eqn:Hb; [reflexivity|].
  now rewrite for_each_print.
Qed.

Lemma list_members_run (s : state) : list_members s = (Done tt, s).
Proof.
  unfold list_members, bind, get_data. destruct (members (data s)) as [|m ms]; [reflexivity|].
  generalize (m :: ms). intro l.
  induction l as [|x l IH]; [reflexivity|]. cbn [for_each]. unfold bind, print, ret in *.
  exact IH.
Qed.

Lemma silent_ok (h : M unit) : (forall s, h s = (Done tt, s)) -> handler_ok h.
Proof.
  intros H s. rewrite H. cbn [fst snd].
  repeat split; [apply reads_refl | apply commands_none | apply persisted_refl | discriminate].
Qed.

Lemma add_member_ok : handler_ok add_member.
Proof.
  intro s. unfold add_member, bind, input, gen_id, modify, save_data, print, ret.
  destruct (stdin s) as [|n [|e rest]] eqn:Hin; cbn [stdin rand clock data file fst snd].
  1-2: first [quiet (@nil string) | quiet [n]].
  destruct (Ident.gen_id_console "M" (rand s)) as [id g] eqn:Hid.
  cbn [stdin rand clock data file fst snd].
  repeat split.
  - reads_by [n; e].
  - replace (mkStore _ _)
      with (snd (Console.exec (Console.AddMember n e (rand s)) (data s))).
    + apply commands_one.
    + cbn [Console.exec]. unfold Console.add_member. rewrite Hid. reflexivity.
  - now right.
  - discriminate.
Qed.

Lemma borrow_ok : handler_ok borrow.
Proof.
  intro s. unfold borrow, bind, input, get_data, now, modify, save_data, print, ret.
  destruct (stdin s) as [|ml rest] eqn:Hin; cbn [stdin rand clock data file fst snd].
  { quiet (@nil string). }
  destruct (filter (has_member_id (Py.strip ml)) (members (data s))) as [|member ms] eqn:Hm.
  { quiet [ml]. }
  cbn [stdin rand clock data file fst snd].
  destruct rest as [|bl rest]; cbn [stdin rand clock data file fst snd].
  { quiet [ml]. }
  destruct (filter (has_book_id bl) (books (data s))) as [|book bs] eqn:Hb.
  { quiet [ml; bl]. }
  destruct (available_copies book <=? 0)%Z eqn:Ha; cbn [stdin rand clock data file fst snd].
  { quiet [ml; bl]. }
  repeat split.
  - reads_by [ml; bl].
  - cbn [books members].
    replace (mkStore _ _)
      with (snd (Console.exec (Console.Borrow ml bl (clock s 0)) (data s))).
    + apply commands_one.
    + cbn [Console.exec]. unfold Console.borrow. rewrite Hm, Hb, Ha. reflexivity.
  - now right.
  - discriminate.
Qed.

Lemma for_each_quiet {A} (l : list A) (f : A -> M unit) (s : state) :
  (forall x s', f x s' = (Done tt, s')) -> for_each l f s = (Done tt, s).
Proof.
  intro H. induction l as [|x l IH]; [reflexivity|].
  cbn [for_each]. unfold bind. now rewrite H.
Qed.

Lemma return_book_ok : handler_ok return_book.
Proof.
  intro s.
  unfold return_book, int, pop_borrowed, try_except, input, get_data, print,
    modify, save_data, raise, bind, ret.
  destruct (stdin s) as [|ml rest] eqn:Hin; cbn [stdin rand clock data file fst snd].
  { quiet (@nil string). }
  destruct (filter (has_member_id (Py.strip ml)) (members (data s)))
    as [|member ms] eqn:Hm.
  { quiet [ml]. }
  destruct (borrowed member) as [|r0 rs] eqn:Hbor.
  { quiet [ml]. }
  rewrite for_each_quiet by reflexivity.
  cbn [stdin rand clock data file fst snd].
  destruct rest as [|cl rest']; cbn [stdin rand clock data file fst snd is_Exception].
  { destruct (books (data s)); cbn [stdin rand clock data file fst snd].
    - repeat split; [reads_by [ml] | apply commands_none | now right | discriminate].
    - quiet [ml]. }
  destruct (Py.int cl) as [k|] eqn:Hk;
    cbn [stdin rand clock data file fst snd is_Exception].
  2:{ destruct (books (data s)); cbn [stdin rand clock data file fst snd].
      - repeat split; [reads_by [ml; cl] | apply commands_none | now right | discriminate].
      - quiet [ml; cl]. }
  destruct (Py.pop (k - 1) (r0 :: rs)) as [[sel rest_l]|] eqn:Hpop;
    cbn [stdin rand clock data file fst snd is_Exception books members].
  2:{ destruct (books (data s)); cbn [stdin rand clock data file fst snd].
      - repeat split; [reads_by [ml; cl] | apply commands_none | now right | discriminate].
      - quiet [ml; cl]. }
  assert (Hexec : snd (Console.exec (Console.ReturnBook ml cl) (data s))
                  = mkStore
                      (Py.update_first (has_book_id (book_id sel))
                         (fun bk => set_available (available_copies bk + 1) bk)
                         (books (data s)))
                      (Py.update_first (has_member_id (Py.strip ml))
                         (set_borrowed rest_l) (members (data s)))).
  { cbn [Console.exec]. unfold Console.return_book, Console.try_select.
    rewrite Hm, Hbor, Hk, Hpop. reflexivity. }
  destruct (books (data s)) as [|b0 bs] eqn:Hbooks;
    cbn [stdin rand clock data file fst snd books members].
  - repeat split.
    + reads_by [ml; cl].
    + cbn [Py.update_first] in Hexec. rewrite <- Hexec. apply commands_one.
    + now right.
    + discriminate.
  - repeat split.
    + reads_by [ml; cl].
    + rewrite <- Hexec. apply commands_one.
    + now right.
    + discriminate.
Qed.

Lemma list_books_ok : handler_ok list_books.
Proof. apply silent_ok, list_books_run. Qed.

Lemma list_members_ok : handler_ok list_members.
Proof. apply silent_ok, list_members_run. Qed.

Lemma run_alone (h : M unit) (s : state) :
  (h ;; ret tt) s = h s.
Proof. unfold bind, ret. now destruct (h s) as [[[]|x] s']. Qed.

(** The chain of [if]s of the loop runs the handler of the line typed, and
    no handler for any other line. *)
Lemma turn_cases (s : state) :
  turn s
  = match stdin s with
    | [] => (Stop EOFError, s)
    | choice :: rest =>
        let s1 := mkState rest (rand s) (clock s) (data s) (file s) in
        if String.eqb choice "1" then add_book s1
        else if String.eqb choice "2" then list_books s1
        else if String.eqb choice "3" then add_member s1
        else if String.eqb choice "4" then list_members s1
        else if String.eqb choice "5" then borrow s1
        else if String.eqb choice "6" then return_book s1
        else if String.eqb choice "0" then (Stop SystemExit, s1)
        else (Done tt, s1)
    end.
Proof.
  unfold turn. unfold print at 1 2 3 4 5 6 7 8 9 10 11.
  unfold bind at 1 2 3 4 5 6 7 8 9 10 11, ret at 1 2 3 4 5 6 7 8 9 10 11.
  unfold bind at 1, input.
  destruct (stdin s) as [|choice rest]; [reflexivity|].
  cbv zeta.
  set (s1 := mkState rest (rand s) (clock s) (data s) (file s)).
  destruct (String.eqb_spec choice "1") as [->|n1].
  { unfold when. cbn [String.eqb Ascii.eqb Bool.eqb andb].
    unfold bind, ret. now destruct (add_book s1) as [[[]|x] s']. }
  destruct (String.eqb_spec choice "2") as [->|n2].
  { unfold when. cbn [String.eqb Ascii.eqb Bool.eqb andb].
    unfold bind, ret. now destruct (list_books s1) as [[[]|x] s']. }
  destruct (String.eqb_spec choice "3") as [->|n3].
  { unfold when. cbn [String.eqb Ascii.eqb Bool.eqb andb].
    unfold bind, ret. now destruct (add_member s1) as [[[]|x] s']. }
  destruct (String.eqb_spec choice "4") as [->|n4].
  { unfold when. cbn [String.eqb Ascii.eqb Bool.eqb andb].
    unfold bind, ret. now destruct (list_members s1) as [[[]|x] s']. }
  destruct (String.eqb_spec choice "5") as [->|n5].
  { unfold when. cbn [String.eqb Ascii.eqb Bool.eqb andb].
    unfold bind, ret. now destruct (borrow s1) as [[[]|x] s']. }
  destruct (String.eqb_spec choice "6") as [->|n6].
  { unfold when. cbn [String.eqb Ascii.eqb Bool.eqb andb].
    unfold bind, ret. now destruct (return_book s1) as [[[]|x] s']. }
  destruct (String.eqb_spec choice "0") as [->|n0].
  { unfold when. cbn [String.eqb Ascii.eqb Bool.eqb andb].
    reflexivity. }
  unfold when.
  apply String.eqb_neq in n1, n2, n3, n4, n5, n6, n0.
  rewrite n1, n2, n3, n4, n5, n6, n0. reflexivity.
Qed.

Lemma turn_ok (s : state) :
  reads s (snd (turn s))
  /\ commands (data s) (data (snd (turn s)))
  /\ persisted s (snd (turn s))
  /\ (fst (turn s) = Done tt ->
      List.length (stdin (snd (turn s))) < List.length (stdin s))
  /\ (fst (turn s) = Stop SystemExit -> In "0" (stdin s)).
Proof.
  rewrite turn_cases.
  destruct (stdin s) as [|choice rest] eqn:Hin.
  { cbn [fst snd]. rewrite Hin.
    repeat split; try discriminate;
      [apply reads_refl | apply commands_none | apply persisted_refl]. }
  cbv zeta. rewrite <- Hin.
  set (s1 := mkState rest (rand s) (clock s) (data s) (file s)).
  assert (H1 : reads s s1) by (exists [choice]; now rewrite Hin).
  assert (Hgen : forall h, handler_ok h ->
            reads s (snd (h s1))
            /\ commands (data s) (data (snd (h s1)))
            /\ persisted s (snd (h s1))
            /\ (fst (h s1) = Done tt ->
                List.length (stdin (snd (h s1))) < List.length (stdin s))
            /\ (fst (h s1) = Stop SystemExit -> In "0" (stdin s))).
  { intros h Hh. destruct (Hh s1) as (Hr & Hc & Hp & Hx).
    split; [exact (reads_trans _ _ _ H1 Hr)|].
    split; [exact Hc|].
    split; [apply (persisted_trans s s1); [now left | exact Hp]|].
    split; [|intro; contradiction].
    intros _. apply reads_length in Hr. rewrite Hin. cbn [List.length].
    cbn [stdin s1] in Hr. lia. }
  destruct (String.eqb choice "1"); [apply Hgen, add_book_ok|].
  destruct (String.eqb choice "2"); [apply Hgen, list_books_ok|].
  destruct (String.eqb choice "3"); [apply Hgen, add_member_ok|].
  destruct (String.eqb choice "4"); [apply Hgen, list_members_ok|].
  destruct (String.eqb choice "5"); [apply Hgen, borrow_ok|].
  destruct (String.eqb choice "6"); [apply Hgen, return_book_ok|].
  destruct (String.eqb_spec choice "0") as [->|n0]; cbn [fst snd].
  - repeat split; try discriminate;
      [exact H1 | apply commands_none | now left | intros _; rewrite Hin; now left].
  - repeat split; try discriminate;
      [exact H1 | apply commands_none | now left
      | intros _; rewrite Hin; cbn; lia].
Qed.

Lemma loop_ok (fuel : nat) : forall s : state,
  reads s (snd (loop fuel s))
  /\ commands (data s) (data (snd (loop fuel s)))
  /\ persisted s (snd (loop fuel s))
  /\ (List.length (stdin s) < fuel -> exists x, fst (loop fuel s) = Stop x)
  /\ (fst (loop fuel s) = Stop SystemExit -> In "0" (stdin s)).
Proof.
  induction fuel as [|fuel IH]; intro s.
  { cbn [loop]. unfold ret. cbn [fst snd].
    repeat split; try discriminate;
      [apply reads_refl | apply commands_none | apply persisted_refl | lia]. }
  cbn [loop]. unfold bind.
  destruct (turn_ok s) as (Hr & Hc & Hp & Hlt & Hx).
  destruct (turn s) as [[[]|x] s1]; cbn [fst snd] in *.
  - destruct (IH s1) as (Hr1 & Hc1 & Hp1 & Hstop1 & Hx1).
    split; [exact (reads_trans _ _ _ Hr Hr1)|].
    split; [exact (commands_trans _ _ _ Hc Hc1)|].
    split; [exact (persisted_trans _ _ _ Hp Hp1)|].
    split.
    + intro Hlen. apply Hstop1. specialize (Hlt eq_refl). lia.
    + intro H0. specialize (Hx1 H0). destruct Hr as (l & ->).
      apply in_or_app; now right.
  - split; [exact Hr|]. split; [exact Hc|]. split; [exact Hp|].
    split; [intros _; now exists x | exact Hx].
Qed.

End MenuFacts.

Section MenuTheorems.

(** X14.  The console program stops when its input ends: every turn of
    the menu loop reads at least one line, so with [n] lines of input the
    loop ends within [n + 1] turns, whatever the lines are (by [exit(0)], by
    the [EOFError] of [input()], or by an escaping exception).  It ends by
    [exit(0)] only if a line ["0"] has been typed. *)
Theorem session_stops (fuel : nat) (s : Menu.state) :
  List.length (Menu.stdin s) < fuel ->
  exists x, fst (Menu.loop fuel s) = Menu.Stop x
            /\ (x = Menu.SystemExit -> In "0" (Menu.stdin s)).
Proof.
  intro Hlen. destruct (loop_ok fuel s) as (_ & _ & _ & Hstop & Hexit).
  destruct (Hstop Hlen) as (x & Hx). exists x. split; [exact Hx|].
  intros ->. now apply Hexit.
Qed.

(** Two lines: a choice the menu does not know, then the exit. *)
Lemma session_stops_witness :
  exists x,
    fst (Menu.loop 3 (Menu.start ["7"; "0"] (fun _ => 0) (fun _ => EmptyString) empty_store))
    = Menu.Stop x
    /\ (x = Menu.SystemExit ->
        In "0" (Menu.stdin (Menu.start ["7"; "0"] (fun _ => 0) (fun _ => EmptyString)
                              empty_store))).
Proof. apply session_stops. cbn. lia. Defined.

(** X15.  A whole session of the console keeps the books balanced.  Started
    on data that console commands have built from an empty library, the
    program, whatever is typed and however it ends, leaves data that console
    commands can build: in particular the missing copies of all books still
    equal the number of borrow records, and every record refers to a book
    of the store. *)
Theorem session_balance (fuel : nat) (s : Menu.state) :
  Console.reachable (Menu.data s) ->
  Console.reachable (Menu.data (snd (Menu.loop fuel s)))
  /\ conserved (Menu.data (snd (Menu.loop fuel s)))
  /\ refs_ok (Menu.data (snd (Menu.loop fuel s))).
Proof.
  intro Hr. destruct (loop_ok fuel s) as (_ & Hc & _).
  pose proof (commands_reachable _ _ Hc Hr) as Hr'.
  destruct (console_reachable_balance _ Hr') as [Hrefs Hcons].
  repeat split; assumption.
Qed.

(** A book and a member are added, then the program is left. *)
Lemma session_balance_witness :
  Console.reachable
    (Menu.data (snd (Menu.loop 5
       (Menu.start ["1"; "Dune"; "Herbert"; "2"; "3"; "Ann"; "ann@example.org"; "0"]
          Example.g0 (fun _ => "2024-01-01 10:00:00") empty_store))))
  /\ conserved
       (Menu.data (snd (Menu.loop 5
          (Menu.start ["1"; "Dune"; "Herbert"; "2"; "3"; "Ann"; "ann@example.org"; "0"]
             Example.g0 (fun _ => "2024-01-01 10:00:00") empty_store))))
  /\ refs_ok
       (Menu.data (snd (Menu.loop 5
          (Menu.start ["1"; "Dune"; "Herbert"; "2"; "3"; "Ann"; "ann@example.org"; "0"]
             Example.g0 (fun _ => "2024-01-01 10:00:00") empty_store)))).
Proof. apply session_balance. apply Console.reach_empty. Defined.


(** X17.  What a failed selection of [return_book] does depends on the
    books.  When the member has something borrowed and the line typed at
    "enter number to return" makes [int] or [pop] raise (or no line is left:
    the [EOFError] is caught as well), the handler prints its message and
    goes on.  With at least one book in the library, the list comprehension
    reads the unassigned [selected] and an [UnboundLocalError] escapes,
    with nothing written.  With no book at all the comprehension never
    evaluates its condition: the method completes and rewrites the file
    with the unchanged data.  In both cases the data are unchanged. *)
Theorem failed_selection (s : Menu.state) (ml : string) (rest : list string)
    (member : Member) (ms : list Member) :
  Menu.stdin s = ml :: rest ->
  filter (has_member_id (Py.strip ml)) (members (Menu.data s)) = member :: ms ->
  borrowed member <> [] ->
  match rest with
  | [] => True
  | cl :: _ => fst (Console.try_select cl (borrowed member)) = None
  end ->
  Menu.data (snd (Menu.return_book s)) = Menu.data s
  /\ match books (Menu.data s) with
     | [] => fst (Menu.return_book s) = Menu.Done tt
             /\ Menu.file (snd (Menu.return_book s)) = Some (Menu.data s)
     | _ :: _ => fst (Menu.return_book s) = Menu.Stop (Menu.Exn Py.UnboundLocalError)
                 /\ Menu.file (snd (Menu.return_book s)) = Menu.file s
     end.
Proof.
  intros Hin Hm Hbor Hfail.
  unfold Menu.return_book, Menu.int, Menu.pop_borrowed, Menu.try_except, Menu.input,
    Menu.get_data, Menu.print, Menu.modify, Menu.save_data, Menu.raise, Menu.bind,
    Menu.ret.
  rewrite Hin. cbn [Menu.stdin Menu.rand Menu.clock Menu.data Menu.file fst snd].
  rewrite Hm. destruct (borrowed member) as [|r0 rs] eqn:Hb; [contradiction|].
  rewrite for_each_quiet by reflexivity.
  cbn [Menu.stdin Menu.rand Menu.clock Menu.data Menu.file fst snd].
  destruct rest as [|cl rest'];
    cbn [Menu.stdin Menu.rand Menu.clock Menu.data Menu.file fst snd Menu.is_Exception].
  { destruct (books (Menu.data s)); cbn; auto. }
  unfold Console.try_select in Hfail.
  destruct (Py.int cl) as [k|];
    cbn [Menu.stdin Menu.rand Menu.clock Menu.data Menu.file fst snd Menu.is_Exception].
  2:{ destruct (books (Menu.data s)); cbn; auto. }
  destruct (Py.pop (k - 1) (r0 :: rs)) as [[sel rest_l]|]; [discriminate|].
  cbn [Menu.stdin Menu.rand Menu.clock Menu.data Menu.file fst snd Menu.is_Exception].
  destruct (books (Menu.data s)); cbn; auto.
Qed.

(** A member with a record but no book in the library, then the same
    member with the book: the line typed is no number. *)
Lemma failed_selection_witness :
  (Menu.data (snd (Menu.return_book
                     (Menu.start ["M-AAAAA"; "abc"] Example.g0 (fun _ => EmptyString)
                        (mkStore [] (members Example.lent)))))
   = mkStore [] (members Example.lent)
   /\ fst (Menu.return_book
             (Menu.start ["M-AAAAA"; "abc"] Example.g0 (fun _ => EmptyString)
                (mkStore [] (members Example.lent))))
      = Menu.Done tt
   /\ Menu.file (snd (Menu.return_book
                        (Menu.start ["M-AAAAA"; "abc"] Example.g0
                           (fun _ => EmptyString)
                           (mkStore [] (members Example.lent)))))
      = Some (mkStore [] (members Example.lent)))
  /\ (Menu.data (snd (Menu.return_book
                        (Menu.start ["M-AAAAA"; "abc"] Example.g0
                           (fun _ => EmptyString) Example.lent)))
      = Example.lent
      /\ fst (Menu.return_book
                (Menu.start ["M-AAAAA"; "abc"] Example.g0 (fun _ => EmptyString)
                   Example.lent))
         = Menu.Stop (Menu.Exn Py.UnboundLocalError)
      /\ Menu.file (snd (Menu.return_book
                           (Menu.start ["M-AAAAA"; "abc"] Example.g0
                              (fun _ => EmptyString) Example.lent)))
         = None).
Proof.
  split.
  - apply (failed_selection
             (Menu.start ["M-AAAAA"; "abc"] Example.g0 (fun _ => EmptyString)
                (mkStore [] (members Example.lent)))
             "M-AAAAA" ["abc"]
             (mkMember "M-AAAAA" "Ann" "ann@example.org"
                [mkRecord "B-AAAAA" "Dune" "2024-01-02 09:00:00"]) []);
      [reflexivity | reflexivity | discriminate | reflexivity].
  - apply (failed_selection
             (Menu.start ["M-AAAAA"; "abc"] Example.g0 (fun _ => EmptyString)
                Example.lent)
             "M-AAAAA" ["abc"]
             (mkMember "M-AAAAA" "Ann" "ann@example.org"
                [mkRecord "B-AAAAA" "Dune" "2024-01-02 09:00:00"]) []);
      [reflexivity | reflexivity | discriminate | reflexivity].
Defined.

End MenuTheorems.

(** ** Choices counted from the end *)

Section CountingBack.

Lemma pop_from_end {A} (l1 : list A) (x : A) (l2 : list A) :
  Py.pop (- Z.of_nat (List.length l2) - 1) (l1 ++ x :: l2) = Some (x, l1 ++ l2).
Proof.
  unfold Py.pop. rewrite length_app. cbn [List.length].
  set (len := Z.of_nat (List.length l1 + S (List.length l2))).
  replace (- Z.of_nat (List.length l2) - 1 <? 0)%Z with true
    by (symmetry; apply Z.ltb_lt; lia).
  replace (- Z.of_nat (List.length l2) - 1 + len)%Z
    with (Z.of_nat (List.length l1)) by (unfold len; lia).
  replace ((Z.of_nat (List.length l1) <? 0)%Z || (len <=? Z.of_nat (List.length l1))%Z)
    with false.
  2:{ symmetry; apply orb_false_iff; split;
      [apply Z.ltb_ge | apply Z.leb_gt]; unfold len; lia. }
  rewrite Nat2Z.id.
  rewrite nth_error_app2 by lia. rewrite Nat.sub_diag. cbn [nth_error].
  now rewrite remove_nth_app.
Qed.

(** X18.  The console does not refuse a choice that is zero or negative:
    [pop] counts it from the end of the list.  The choice [-n] returns the
    record that has [n] records after it (0 the last one, -1 the one before
    it), with the same effect as the choice that names this record by its
    position: that record is removed and the records before and after it
    stay, in order; the member keeps its id, name and e-mail; the first
    book with the record's id gets one more available copy and keeps its
    other fields; the other books and members stay; the result is saved. *)
Theorem console_return_counts_back (st : store) (member_line choice_line : string)
    pre_m member post_m (l1 : list BorrowRecord) (selected : BorrowRecord)
    (l2 : list BorrowRecord) :
  first_at (has_member_id (Py.strip member_line)) (members st)
           pre_m member post_m ->
  borrowed member = l1 ++ selected :: l2 ->
  Py.int choice_line = Some (- Z.of_nat (List.length l2))%Z ->
  Console.return_book member_line choice_line st
  = (Saved,
     mkStore
       (Py.update_first (has_book_id (book_id selected))
          (fun bk => mkBook (b_id bk) (b_title bk) (b_author bk)
                            (total_copies bk) (available_copies bk + 1)
                            (added_on bk))
          (books st))
       (pre_m ++ mkMember (m_id member) (m_name member) (m_email member)
                          (l1 ++ l2)
              :: post_m))
  /\ (forall pre_b book post_b,
        first_at (has_book_id (book_id selected)) (books st)
                 pre_b book post_b ->
        books (snd (Console.return_book member_line choice_line st))
        = pre_b ++ mkBook (b_id book) (b_title book) (b_author book)
                          (total_copies book) (available_copies book + 1)
                          (added_on book)
                :: post_b)
  /\ (none_of (has_book_id (book_id selected)) (books st) ->
      books (snd (Console.return_book member_line choice_line st))
      = books st).
Proof.
  intros Hm Hl Hint.
  assert (Hret : Console.return_book member_line choice_line st
                 = (Saved,
                    mkStore
                      (Py.update_first (has_book_id (book_id selected))
                         give_back (books st))
                      (pre_m ++ set_borrowed (l1 ++ l2) member :: post_m))).
  { unfold Console.return_book, Console.try_select.
    rewrite (first_at_filter _ _ _ _ _ Hm).
    destruct (borrowed member) as [|r0 rs] eqn:Hb.
    { now destruct l1. }
    rewrite Hint, Hl, pop_from_end. cbn [fst].
    now rewrite (first_at_update _ _ _ _ _ _ Hm). }
  split; [exact Hret | split].
  - intros pre_b book post_b Hb. rewrite Hret. cbn [snd books].
    now rewrite (first_at_update _ _ _ _ _ _ Hb).
  - intro Hnone. rewrite Hret. cbn [snd books]. now apply none_of_update.
Qed.

(** The member of [Example.c4] holds two records of a book with two copies,
    none of them available; the choice [-1] returns the first record and
    keeps the second, and the book has one copy available again. *)
Lemma console_return_counts_back_witness :
  Console.return_book "M-AAAAA" "-1" Example.c4
  = (Saved,
     mkStore
       [mkBook "B-AAAAA" "Dune" "Herbert" 2 1 "2024-01-01 10:00:00"]
       [mkMember "M-AAAAA" "Ann" "ann@example.org"
          [mkRecord "B-AAAAA" "Dune" "2024-01-02 09:30:00"]]).
Proof.
  destruct (console_return_counts_back Example.c4 "M-AAAAA" "-1" []
              (mkMember "M-AAAAA" "Ann" "ann@example.org"
                 [mkRecord "B-AAAAA" "Dune" "2024-01-02 09:00:00";
                  mkRecord "B-AAAAA" "Dune" "2024-01-02 09:30:00"]) []
              [] (mkRecord "B-AAAAA" "Dune" "2024-01-02 09:00:00")
              [mkRecord "B-AAAAA" "Dune" "2024-01-02 09:30:00"])
    as (Hret & _).
  - split; [reflexivity | split; [constructor | reflexivity]].
  - reflexivity.
  - reflexivity.
  - exact Hret.
Defined.

End CountingBack.

(** ** The console on the data as loaded *)

Section RawFacts.

Import Json.

Lemma select_members (key k : string) (ms : list Member) :
  Raw.select key (map (member_to_json k) ms)
  = Py.Ok (map (member_to_json k) (filter (has_member_id key) ms)).
Proof.
  induction ms as [|m ms IH]; [reflexivity|].
  cbn [map Raw.select].
  change (Raw.getitem "id" (member_to_json k m)) with (Py.Ok (JStr (m_id m))).
  cbn [Py.bind]. rewrite IH. cbn [Py.bind is_str filter]. unfold has_member_id.
  now destruct (String.eqb (m_id m) key).
Qed.

Lemma select_books (key : string) (bs : list Book) :
  Raw.select key (map book_to_json bs)
  = Py.Ok (map book_to_json (filter (has_book_id key) bs)).
Proof.
  induction bs as [|b bs IH]; [reflexivity|].
  cbn [map Raw.select].
  change (Raw.getitem "id" (book_to_json b)) with (Py.Ok (JStr (b_id b))).
  cbn [Py.bind]. rewrite IH. cbn [Py.bind is_str filter]. unfold has_book_id.
  now destruct (String.eqb (b_id b) key).
Qed.

Lemma first_at_map {A} (to : A -> value) (p : A -> bool) (q : value -> bool)
    (l pre : list A) (x : A) (post : list A) :
  (forall y, q (to y) = p y) ->
  first_at p l pre x post ->
  first_at q (map to l) (map to pre) (to x) (map to post).
Proof.
  intros Hq (Hl & Hpre & Hx). repeat split.
  - rewrite Hl, map_app. reflexivity.
  - apply Forall_map. revert Hpre. apply Forall_impl. intros y Hy. now rewrite Hq.
  - now rewrite Hq.
Qed.

Lemma has_id_member (key k : string) (m : Member) :
  Raw.has_id key (member_to_json k m) = has_member_id key m.
Proof. reflexivity. Qed.

Lemma has_id_book (key : string) (b : Book) :
  Raw.has_id key (book_to_json b) = has_book_id key b.
Proof. reflexivity. Qed.

Lemma minus_one_book (b : Book) :
  match Raw.getitem "available_copies" (book_to_json b) with
  | Py.Ok a => Raw.setitem "available_copies" (Raw.minus_one a) (book_to_json b)
  | Py.Raise _ => book_to_json b
  end
  = book_to_json (set_available (available_copies b - 1) b).
Proof. reflexivity. Qed.

Lemma append_member (m : Member) (r : BorrowRecord) :
  Raw.setitem "borowed"
    (JList (map record_to_json (borrowed m) ++ [record_to_json r]))
    (member_to_json console_key m)
  = member_to_json console_key (set_borrowed (borrowed m ++ [r]) m).
Proof.
  unfold member_to_json, set_borrowed.
  cbn [Raw.setitem set String.eqb Ascii.eqb Bool.eqb andb console_key
       m_id m_name m_email borrowed].
  now rewrite map_app.
Qed.

Lemma find_members (key k : string) (st : store) :
  Raw.find_by_id "members" key (store_to_json k st)
  = Py.Ok (map (member_to_json k) (filter (has_member_id key) (members st))).
Proof. unfold Raw.find_by_id, store_to_json. cbn. apply select_members. Qed.

Lemma find_books (key k : string) (st : store) :
  Raw.find_by_id "books" key (store_to_json k st)
  = Py.Ok (map book_to_json (filter (has_book_id key) (books st))).
Proof. unfold Raw.find_by_id, store_to_json. cbn. apply select_books. Qed.

(** X19.  The typed model of [Library.borrow] agrees with the code run on
    the loaded dictionary: for every store, [borrow] on the data that the
    console has saved for it (the value of [json.loads], lists under
    ["borowed"]) reports what [Console.borrow] reports on the store, and
    leaves in memory the dictionary of the store that [Console.borrow]
    returns.  No subscript, comparison or [append] of the method raises on
    such data. *)
Theorem raw_borrow_console_file (member_line book_line now : string) (st : store) :
  Raw.borrow member_line book_line now (store_to_json console_key st)
  = (fst (Console.borrow member_line book_line now st),
     store_to_json console_key (snd (Console.borrow member_line book_line now st))).
Proof.
  unfold Raw.borrow, Console.borrow.
  rewrite find_members, find_books.
  destruct (first_cases (has_member_id (Py.strip member_line)) (members st))
    as [Hnm | (pre_m & member & post_m & Hm)].
  { now rewrite (none_of_filter _ _ Hnm). }
  rewrite (first_at_filter _ _ _ _ _ Hm).
  destruct (first_cases (has_book_id book_line) (books st))
    as [Hnb | (pre_b & book & post_b & Hb)].
  { now rewrite (none_of_filter _ _ Hnb). }
  rewrite (first_at_filter _ _ _ _ _ Hb).
  cbn [map].
  change (Raw.getitem "available_copies" (book_to_json book))
    with (Py.Ok (JInt (available_copies book))).
  cbn [Py.bind Raw.le_zero].
  destruct (available_copies book <=? 0)%Z; [reflexivity|].
  change (Raw.getitem "id" (book_to_json book)) with (Py.Ok (JStr (b_id book))).
  change (Raw.getitem "title" (book_to_json book)) with (Py.Ok (JStr (b_title book))).
  change (Raw.getitem "borowed" (member_to_json console_key member))
    with (Py.Ok (JList (map record_to_json (borrowed member)))).
  cbn [Py.bind Raw.append fst snd].
  f_equal. unfold store_to_json, Raw.update_found.
  cbn [lookup String.eqb Ascii.eqb Bool.eqb andb set books members].
  rewrite (first_at_update _ _ _ _ _ _ Hm), (first_at_update _ _ _ _ _ _ Hb).
  rewrite (first_at_update _ _ _ _ _ _
             (first_at_map (member_to_json console_key) _ _ _ _ _ _
                (has_id_member (Py.strip member_line) console_key) Hm)).
  rewrite (first_at_update _ _ _ _ _ _
             (first_at_map book_to_json _ _ _ _ _ _
                (has_id_book book_line) Hb)).
  rewrite !map_app. cbn [map].
  rewrite minus_one_book.
  change (JDict [("book_id", JStr (b_id book)); ("title", JStr (b_title book));
                 ("borrow_on", JStr now)])
    with (record_to_json (mkRecord (b_id book) (b_title book) now)).
  now rewrite append_member.
Qed.

(** X20.  The console cannot lend on a file the web page has written.  The
    page saves every member with the list under ["borrowed"]; on such data
    each borrow that would succeed (member found, book found, a copy left)
    stops at [member['borowed']] with a [KeyError], after both lines have
    been read: nothing is changed and nothing is saved.  The three refusals
    are reported as on the console's own files. *)
Theorem raw_borrow_web_file (member_line book_line now : string) (st : store) :
  Raw.borrow member_line book_line now (store_to_json web_key st)
  = (match fst (Console.borrow member_line book_line now st) with
     | Saved => Uncaught Py.KeyError
     | e => e
     end,
     store_to_json web_key st).
Proof.
  unfold Raw.borrow, Console.borrow.
  rewrite find_members, find_books.
  destruct (filter (has_member_id (Py.strip member_line)) (members st))
    as [|member ms]; [reflexivity|].
  destruct (filter (has_book_id book_line) (books st)) as [|book bs]; [reflexivity|].
  cbn [map].
  change (Raw.getitem "available_copies" (book_to_json book))
    with (Py.Ok (JInt (available_copies book))).
  cbn [Py.bind Raw.le_zero].
  destruct (available_copies book <=? 0)%Z; reflexivity.
Qed.

End RawFacts.
